(** * psychopy.visual.stim3d: a shallow embedding

    The module renders rigid-body 3D stimuli.  This development embeds
    the parts of [stim3d.py] that carry its invariants:

    - the module-level shader table [_material_shaders_] and the flags
      it is keyed by;
    - [LightSource] and [PhongMaterial], with their colour caches;
    - [RigidBodyPose], with its lazily recomputed matrices;
    - [BaseRigidBodyStim.draw].

    Conventions.  A [float] / [np.float32] is an exact rational [Q]:
    rounding is not modelled, and equalities between numbers are stated
    with [==].  A one-dimensional numpy array is a [list Q].  A Python
    exception is a [Raise] result; a method that mutates [self] is a
    function from the old object to the new one.

    The one place where rounding and overflow decide what is true, the
    product of a pose with its inverse, is embedded a second time in
    [Float32], over IEEE binary32 values. *)

From Stdlib Require Import String Ascii.
From Stdlib Require Import List ZArith QArith Qabs Qfield Bool Lia.
From Stdlib Require SpecFloat.
Import ListNotations.

Set Implicit Arguments.

#[local] Open Scope Q_scope.

(** ** Exceptions and results *)

Inductive exn : Type :=
| ValueError
| KeyError
| RuntimeError.

Inductive result (A : Type) : Type :=
| Ok (a : A)
| Raise (e : exn).

Arguments Ok {A} a.
Arguments Raise {A} e.

Definition is_ok {A} (r : result A) : bool :=
  match r with Ok _ => true | Raise _ => false end.

Definition rbind {A B} (r : result A) (k : A -> result B) : result B :=
  match r with
  | Ok a => k a
  | Raise e => Raise e
  end.

(** A computation over a mutable store [S] that may raise.  The store
    survives an exception: what was written before the [raise] stays
    written. *)
Definition M (S A : Type) : Type := S -> result A * S.

Definition ret {S A} (a : A) : M S A := fun s => (Ok a, s).

Definition bind {S A B} (c : M S A) (k : A -> M S B) : M S B :=
  fun s =>
    match c s with
    | (Ok a, s') => k a s'
    | (Raise e, s') => (Raise e, s')
    end.

Definition raise {S A} (e : exn) : M S A := fun s => (Raise e, s).

Definition get {S} : M S S := fun s => (Ok s, s).

Definition modify {S} (f : S -> S) : M S unit := fun s => (Ok tt, f s).

Declare Scope py_scope.
Delimit Scope py_scope with py.

Notation "x <- c ;; k" := (bind c (fun x => k))
  (at level 61, c at next level, right associativity) : py_scope.
Notation "c ;; k" := (bind c (fun _ => k))
  (at level 61, right associativity) : py_scope.

(** [for x in xs: body x] *)
Fixpoint for_each {S A} (xs : list A) (body : A -> M S unit) : M S unit :=
  match xs with
  | [] => ret tt
  | x :: xs' => bind (body x) (fun _ => for_each xs' body)
  end.

(** ** numpy arrays *)

(** An [ndarray] of floats: one- or two-dimensional. *)
Inductive ndarray : Type :=
| Vec (v : list Q)
| Mat (rows : list (list Q)).

Definition size (a : ndarray) : nat :=
  match a with
  | Vec v => length v
  | Mat rows => fold_right (fun r n => (length r + n)%nat) 0%nat rows
  end.

Definition flat (a : ndarray) : list Q :=
  match a with
  | Vec v => v
  | Mat rows => concat rows
  end.

Definition Qnonzero (x : Q) : bool := negb (Qeq_bool x 0).

(** [bool(a)] for an array: the truth of the single element when there
    is exactly one, [False] for an empty array, and [ValueError] ("the
    truth value of an array with more than one element is ambiguous")
    otherwise. *)
Definition truth {A} (nonzero : A -> bool) (elems : list A) : result bool :=
  match elems with
  | [] => Ok false
  | [x] => Ok (nonzero x)
  | _ :: _ :: _ => Raise ValueError
  end.

Definition ndarray_truth (a : ndarray) : result bool := truth Qnonzero (flat a).

Definition zeros (n : nat) : list Q := repeat 0 n.

Fixpoint zipWith {A B C} (f : A -> B -> C) (a : list A) (b : list B) : list C :=
  match a, b with
  | x :: a', y :: b' => f x y :: zipWith f a' b'
  | _, _ => []
  end.

(** Element-wise binary operation on two 1-d arrays, with numpy's
    broadcasting: equal lengths pair up, a length-1 operand is
    stretched, any other pair of shapes is a [ValueError]. *)
Definition broadcast2 {C} (f : Q -> Q -> C) (a b : list Q) : result (list C) :=
  if Nat.eqb (length a) (length b) then Ok (zipWith f a b)
  else match a, b with
       | [x], _ => Ok (map (f x) b)
       | _, [y] => Ok (map (fun x => f x y) a)
       | _, _ => Raise ValueError
       end.

Definition np_add : list Q -> list Q -> result (list Q) := broadcast2 Qplus.

Definition np_neg (a : list Q) : list Q := map Qopp a.

(** [np.isclose] with its default tolerances. *)
Definition rtol : Q := 1 # 100000.
Definition atol : Q := 1 # 100000000.

Definition isclose1 (a b : Q) : bool :=
  Qle_bool (Qabs (a - b)) (atol + rtol * Qabs b).

Definition isclose : list Q -> list Q -> result (list bool) :=
  broadcast2 isclose1.

(** [a and b] on two arrays: [bool(a)] decides which operand is the
    value of the expression, and [b] is evaluated only if it is. *)
Definition py_and (a : list bool) (b : unit -> result (list bool))
  : result (list bool) :=
  rbind (truth (fun x : bool => x) a) (fun t => if t then b tt else Ok a).

(** [target[:3] = value] where [target] has at least three elements:
    [value] must have three elements, or one that is stretched. *)
Definition assign3 (value : list Q) : result (list Q) :=
  match value with
  | [x] => Ok [x; x; x]
  | [_; _; _] => Ok value
  | _ => Raise ValueError
  end.

(** Component-wise equality of arrays of rationals. *)
Definition veq (a b : list Q) : Prop := Forall2 Qeq a b.

(** ** Python values used as dictionary keys *)

Inductive pyval : Type :=
| PyInt (z : Z)
| PyBool (b : bool).

(** [True == 1] and [False == 0] in Python, and they hash alike. *)
Definition py_int (v : pyval) : Z :=
  match v with
  | PyInt z => z
  | PyBool b => if b then 1%Z else 0%Z
  end.

Definition py_eqb (a b : pyval) : bool := Z.eqb (py_int a) (py_int b).

(** [bool(v)] *)
Definition py_truthy (v : pyval) : bool := negb (Z.eqb (py_int v) 0).

Definition tuple : Type := list pyval.

Fixpoint tuple_eqb (a b : tuple) : bool :=
  match a, b with
  | [], [] => true
  | x :: a', y :: b' => py_eqb x y && tuple_eqb a' b'
  | _, _ => false
  end.

(** A [dict] in insertion order. *)
Definition dict (V : Type) : Type := list (tuple * V).

Fixpoint dict_set {V} (k : tuple) (v : V) (d : dict V) : dict V :=
  match d with
  | [] => [(k, v)]
  | (k', v') :: d' =>
      if tuple_eqb k' k then (k', v) :: d' else (k', v') :: dict_set k v d'
  end.

Fixpoint dict_lookup {V} (k : tuple) (d : dict V) : option V :=
  match d with
  | [] => None
  | (k', v') :: d' => if tuple_eqb k' k then Some v' else dict_lookup k d'
  end.

(** [d[k]] *)
Definition dict_get {V} (k : tuple) (d : dict V) : result V :=
  match dict_lookup k d with
  | Some v => Ok v
  | None => Raise KeyError
  end.

(** ** The GL object store behind [psychopy.tools.gltools] *)

Definition handle : Type := nat.

Inductive shaderKind : Type := GL_VERTEX_SHADER_ARB | GL_FRAGMENT_SHADER_ARB.

Inductive globject : Type :=
| ShaderObj (kind : shaderKind) (src : string)
| ProgramObj (attached : list handle) (linked : bool).

(** The live objects of the context, by handle. *)
Definition glstate : Type := list (handle * globject).

Definition live (st : glstate) : list handle := map fst st.

Fixpoint gl_lookup (h : handle) (st : glstate) : option globject :=
  match st with
  | [] => None
  | (h', o) :: st' => if Nat.eqb h' h then Some o else gl_lookup h st'
  end.

Fixpoint gl_update (h : handle) (o : globject) (st : glstate) : glstate :=
  match st with
  | [] => []
  | (h', o') :: st' =>
      if Nat.eqb h' h then (h', o) :: st' else (h', o') :: gl_update h o st'
  end.

Definition gl_delete (h : handle) (st : glstate) : glstate :=
  filter (fun p => negb (Nat.eqb (fst p) h)) st.

(** What the driver and the GLSL compiler decide: the name given to a
    new object, and whether a source compiles and a program links. *)
Class GLDriver : Type := {
  newHandle : glstate -> handle;
  compiles : shaderKind -> string -> bool;
  links : list globject -> bool
}.

(** The GL contract on names: a new object gets a non-zero name that no
    live object has. *)
Definition fresh_names (D : GLDriver) : Prop :=
  forall st, newHandle st <> 0%nat /\ ~ In (newHandle st) (live st).

(** Every variant compiles and links. *)
Definition builds_everything (D : GLDriver) : Prop :=
  (forall k s, compiles k s = true) /\ (forall os, links os = true).

(** A driver that numbers objects upwards and accepts every source. *)
Definition counting_driver : GLDriver := {|
  newHandle := fun st => S (fold_right Nat.max 0%nat (live st));
  compiles := fun _ _ => true;
  links := fun _ => true
|}.

(** The shader sources of [psychopy.visual.shaders] and the
    preprocessor step of [gltools]. *)
Class ShaderSources : Type := {
  vertPhongLighting : string;
  fragPhongLighting : string;
  embedShaderSourceDefs : string -> list (string * Z) -> string
}.

Definition plain_sources : ShaderSources := {|
  vertPhongLighting := "vert";
  fragPhongLighting := "frag";
  embedShaderSourceDefs := fun src _ => src
|}.

Section GLTools.
Context {D : GLDriver}.

#[local] Open Scope py_scope.

(** Modelled from the spec: [gt.createProgramObjectARB], the first of
    the [gltools] wrappers used to build a program ("compile, link,
    store the linked program ..., then release the intermediate shader
    objects"): a new, empty, unlinked program object. *)
Definition createProgramObjectARB : M glstate handle :=
  fun st => let h := newHandle st in (Ok h, (h, ProgramObj [] false) :: st).

(** Modelled from the spec: [gt.compileShaderObjectARB], which creates
    a shader object from a source, or fails ("compilation/link failure
    for any variant is fatal"). *)
Definition compileShaderObjectARB (src : string) (kind : shaderKind)
  : M glstate handle :=
  fun st =>
    if compiles kind src
    then let h := newHandle st in (Ok h, (h, ShaderObj kind src) :: st)
    else (Raise RuntimeError, st).

(** Modelled from the spec: [gt.attachObjectARB], which attaches a
    shader object to a program. *)
Definition attachObjectARB (prog sh : handle) : M glstate unit :=
  fun st =>
    match gl_lookup prog st with
    | Some (ProgramObj att l) =>
        (Ok tt, gl_update prog (ProgramObj (att ++ [sh]) l) st)
    | _ => (Raise ValueError, st)
    end.

Definition attached_objects (st : glstate) (att : list handle) : list globject :=
  flat_map (fun h => match gl_lookup h st with
                     | Some o => [o]
                     | None => []
                     end) att.

(** Modelled from the spec: [gt.linkProgramObjectARB], which links the
    attached shaders into the program, or fails. *)
Definition linkProgramObjectARB (prog : handle) : M glstate unit :=
  fun st =>
    match gl_lookup prog st with
    | Some (ProgramObj att _) =>
        if links (attached_objects st att)
        then (Ok tt, gl_update prog (ProgramObj att true) st)
        else (Raise RuntimeError, st)
    | _ => (Raise ValueError, st)
    end.

(** Modelled from the spec: [gt.detachObjectARB], the first half of
    "release the intermediate shader objects". *)
Definition detachObjectARB (prog sh : handle) : M glstate unit :=
  fun st =>
    match gl_lookup prog st with
    | Some (ProgramObj att l) =>
        (Ok tt,
         gl_update prog
           (ProgramObj (filter (fun h => negb (Nat.eqb h sh)) att) l) st)
    | _ => (Raise ValueError, st)
    end.

(** Modelled from the spec: [gt.deleteObjectARB], the second half:
    the object is no longer live ("only the linked program is
    retained"). *)
Definition deleteObjectARB (h : handle) : M glstate unit :=
  modify (gl_delete h).
End GLTools.

(** ** Module level: the shader table *)

Definition MAX_LIGHTS : Z := 8.

(** [range(lo, hi)] *)
Definition range (lo hi : Z) : list Z :=
  map (fun k => (lo + Z.of_nat k)%Z) (seq 0 (Z.to_nat (hi - lo))).

(** [itertools.product(pool, repeat=1)]: one 1-tuple per element. *)
Definition product1 (pool : list pyval) : list tuple :=
  map (fun x => [x]) pool.

(** <<
    shaderFlags = []
    for i in range(1, MAX_LIGHTS + 1):
        for j in product((True, False), repeat=1):
            shaderFlags.append((i, *j))
    >> *)
Definition shaderFlags : list tuple :=
  flat_map (fun i => map (fun j => PyInt i :: j)
                         (product1 [PyBool true; PyBool false]))
           (range 1 (MAX_LIGHTS + 1)).

(** [flag[i]] on a tuple; the flags built above have both components. *)
Definition item (flag : tuple) (i : nat) : pyval := nth i flag (PyInt 0).

Section ShaderTable.
Context {D : GLDriver} {Src : ShaderSources}.

#[local] Open Scope py_scope.

Definition srcDefs (flag : tuple) : list (string * Z) :=
  ("MAX_LIGHTS"%string, py_int (item flag 0))
    :: (if py_truthy (item flag 1)
        then [("DIFFUSE_TEXTURE"%string, 1%Z)] else []).

(** One turn of the loop [for flag in shaderFlags], up to the
    assignment to the table. *)
Definition buildProgram (flag : tuple) : M glstate handle :=
  let vertSrc := embedShaderSourceDefs vertPhongLighting (srcDefs flag) in
  let fragSrc := embedShaderSourceDefs fragPhongLighting (srcDefs flag) in
  prog <- createProgramObjectARB ;;
  vertexShader <- compileShaderObjectARB vertSrc GL_VERTEX_SHADER_ARB ;;
  fragmentShader <- compileShaderObjectARB fragSrc GL_FRAGMENT_SHADER_ARB ;;
  attachObjectARB prog vertexShader ;;
  attachObjectARB prog fragmentShader ;;
  linkProgramObjectARB prog ;;
  detachObjectARB prog vertexShader ;;
  detachObjectARB prog fragmentShader ;;
  deleteObjectARB vertexShader ;;
  deleteObjectARB fragmentShader ;;
  ret prog.

(** The store of the module body: the GL context and the table. *)
Definition modstate : Type := (glstate * dict handle)%type.

Definition lift_gl {A} (c : M glstate A) : M modstate A :=
  fun s => let '(r, st') := c (fst s) in (r, (st', snd s)).

Definition compileShaders (flags : list tuple) : M modstate unit :=
  for_each flags (fun flag =>
    prog <- lift_gl (buildProgram flag) ;;
    modify (fun s : modstate => (fst s, dict_set flag prog (snd s)))).

(** Importing the module on a context [st0]: [_material_shaders_]
    starts empty and is filled from [shaderFlags]. *)
Definition module_init (st0 : glstate) : result unit * modstate :=
  compileShaders shaderFlags (st0, []).

(** [_material_shaders_] after a successful import. *)
Definition _material_shaders_ (st0 : glstate) : dict handle :=
  snd (snd (module_init st0)).
End ShaderTable.

(** No two keys of the list are equal as Python tuples. *)
Fixpoint distinct_keys (ks : list tuple) : bool :=
  match ks with
  | [] => true
  | k :: ks' => negb (existsb (tuple_eqb k) ks') && distinct_keys ks'
  end.

(** A handle names a linked program with nothing attached. *)
Definition linked_program (st : glstate) (h : handle) : Prop :=
  gl_lookup h st = Some (ProgramObj [] true).

(** ** External collaborators of the colour code *)

(** Colour spaces are named by strings ([colorSpace='rgb']); the
    conversion to normalised RGB belongs to
    [psychopy.visual.helpers.setColor], and [_getDesiredRGB] to
    [ColorMixin]. *)
Class ColorTools : Type := {
  toRGB : string -> list Q -> list Q;
  _getDesiredRGB : list Q -> string -> Q -> Q * Q * Q
}.

(** Everything is already RGB. *)
Definition rgb_tools : ColorTools := {|
  toRGB := fun _ v => v;
  _getDesiredRGB := fun v _ c =>
    ((nth 0 v 0 * c + 1) / 2, (nth 1 v 0 * c + 1) / 2, (nth 2 v 0 * c + 1) / 2)
|}.

(** Python's unary plus. *)
Definition uplus (x : Q) : Q := x.

(** What the spec gives as the device-space colour: [(c*contrast+1)/2]
    per channel, then the alpha. *)
Definition deviceSpace (rgb : list Q) (contrast alpha : Q) : list Q :=
  map (fun c => (c * contrast + 1) / 2) rgb ++ [alpha].

(** ** LightSource *)

Module LightSource.

Record t : Type := mk {
  _pos : list Q;
  _diffuseColor : list Q;
  _specularColor : list Q;
  _ambientColor : list Q;
  _diffuseRGB : list Q;
  _specularRGB : list Q;
  _ambientRGB : list Q;
  colorSpace : string;
  _lightType : string;
  _kAttenuation : list Q
}.

Definition with_pos v (s : t) : t :=
  mk v (_diffuseColor s) (_specularColor s) (_ambientColor s) (_diffuseRGB s)
     (_specularRGB s) (_ambientRGB s) (colorSpace s) (_lightType s)
     (_kAttenuation s).
Definition with_diffuseColor v (s : t) : t :=
  mk (_pos s) v (_specularColor s) (_ambientColor s) (_diffuseRGB s)
     (_specularRGB s) (_ambientRGB s) (colorSpace s) (_lightType s)
     (_kAttenuation s).
Definition with_specularColor v (s : t) : t :=
  mk (_pos s) (_diffuseColor s) v (_ambientColor s) (_diffuseRGB s)
     (_specularRGB s) (_ambientRGB s) (colorSpace s) (_lightType s)
     (_kAttenuation s).
Definition with_ambientColor v (s : t) : t :=
  mk (_pos s) (_diffuseColor s) (_specularColor s) v (_diffuseRGB s)
     (_specularRGB s) (_ambientRGB s) (colorSpace s) (_lightType s)
     (_kAttenuation s).
Definition with_diffuseRGB v (s : t) : t :=
  mk (_pos s) (_diffuseColor s) (_specularColor s) (_ambientColor s) v
     (_specularRGB s) (_ambientRGB s) (colorSpace s) (_lightType s)
     (_kAttenuation s).
Definition with_specularRGB v (s : t) : t :=
  mk (_pos s) (_diffuseColor s) (_specularColor s) (_ambientColor s)
     (_diffuseRGB s) v (_ambientRGB s) (colorSpace s) (_lightType s)
     (_kAttenuation s).
Definition with_ambientRGB v (s : t) : t :=
  mk (_pos s) (_diffuseColor s) (_specularColor s) (_ambientColor s)
     (_diffuseRGB s) (_specularRGB s) v (colorSpace s) (_lightType s)
     (_kAttenuation s).
Definition with_colorSpace v (s : t) : t :=
  mk (_pos s) (_diffuseColor s) (_specularColor s) (_ambientColor s)
     (_diffuseRGB s) (_specularRGB s) (_ambientRGB s) v (_lightType s)
     (_kAttenuation s).
Definition with_lightType v (s : t) : t :=
  mk (_pos s) (_diffuseColor s) (_specularColor s) (_ambientColor s)
     (_diffuseRGB s) (_specularRGB s) (_ambientRGB s) (colorSpace s) v
     (_kAttenuation s).
Definition with_kAttenuation v (s : t) : t :=
  mk (_pos s) (_diffuseColor s) (_specularColor s) (_ambientColor s)
     (_diffuseRGB s) (_specularRGB s) (_ambientRGB s) (colorSpace s)
     (_lightType s) v.

#[local] Open Scope py_scope.

(** [arr[:3] = value] on the 4-vector held by a field: the fourth
    element stays. *)
Definition store3 (value : list Q) (arr : list Q) : result (list Q) :=
  rbind (assign3 value) (fun v3 => Ok (v3 ++ skipn 3 arr)).

(** [arr[3] = x] *)
Definition store_w (x : Q) (arr : list Q) : list Q := firstn 3 arr ++ [x].

Definition lift {A} (r : result A) : M t A := fun s => (r, s).

(** <<
    @pos.setter
    def pos(self, value):
        self._pos = np.zeros((4,), np.float32)
        self._pos[:3] = value
        if self._lightType == 'point':
            self._pos[3] = 1.0
    >> *)
Definition set_pos (value : list Q) : M t unit :=
  modify (with_pos (zeros 4)) ;;
  s <- get ;;
  p <- lift (store3 value (_pos s)) ;;
  modify (with_pos p) ;;
  s <- get ;;
  if String.eqb (_lightType s) "point"
  then modify (with_pos (store_w 1 (_pos s)))
  else ret tt.

(** <<
    @lightType.setter
    def lightType(self, value):
        self._lightType = value
        if self._lightType == 'point':
            self._pos[3] = 1.0
        elif self._lightType == 'directional':
            self._pos[3] = 0.0
        else:
            raise ValueError(...)
    >> *)
Definition set_lightType (value : string) : M t unit :=
  modify (with_lightType value) ;;
  s <- get ;;
  if String.eqb (_lightType s) "point"
  then modify (with_pos (store_w 1 (_pos s)))
  else if String.eqb (_lightType s) "directional"
  then modify (with_pos (store_w 0 (_pos s)))
  else raise ValueError.

(** <<
    self._diffuseRGB = np.zeros((4,), np.float32)
    self._diffuseRGB[:3] = (value + 1) / 2.0
    self._diffuseRGB[3] = 1.0
    >> *)
Definition set_diffuseRGB (value : list Q) : M t unit :=
  modify (with_diffuseRGB (zeros 4)) ;;
  s <- get ;;
  c <- lift (store3 (map (fun v => (v + 1) / 2) value) (_diffuseRGB s)) ;;
  modify (with_diffuseRGB (store_w 1 c)).

Definition set_specularRGB (value : list Q) : M t unit :=
  modify (with_specularRGB (zeros 4)) ;;
  s <- get ;;
  c <- lift (store3 (map (fun v => (v + 1) / 2) value) (_specularRGB s)) ;;
  modify (with_specularRGB (store_w 1 c)).

(** <<
    self._ambientRGB = np.zeros((4,), np.float32)
    self._ambientRGB[:3] = (value * + 1) / 2.0
    self._ambientRGB[3] = 1.0
    >> *)
Definition set_ambientRGB (value : list Q) : M t unit :=
  modify (with_ambientRGB (zeros 4)) ;;
  s <- get ;;
  c <- lift (store3 (map (fun v => (v * uplus 1) / 2) value) (_ambientRGB s)) ;;
  modify (with_ambientRGB (store_w 1 c)).

Inductive rgbAttrib : Type := diffuseRGB | specularRGB | ambientRGB.

Definition setattr (a : rgbAttrib) (value : list Q) : M t unit :=
  match a with
  | diffuseRGB => set_diffuseRGB value
  | specularRGB => set_specularRGB value
  | ambientRGB => set_ambientRGB value
  end.

Section Colors.
Context {C : ColorTools}.

(** Modelled from the spec: [helpers.setColor], which the spec
    describes as the colour-space conversion that, "given a color
    tuple + color-space tag, returns a normalized RGB triple used to
    populate device-space caches": the triple is assigned to the
    attribute named by [rgbAttrib]. *)
Definition setColor (value : list Q) (space : string) (a : rgbAttrib)
  : M t unit :=
  setattr a (toRGB space value) ;;
  modify (with_colorSpace space).

Definition set_diffuseColor (value : list Q) : M t unit :=
  modify (with_diffuseColor value) ;;
  s <- get ;;
  setColor value (colorSpace s) diffuseRGB.

Definition set_specularColor (value : list Q) : M t unit :=
  modify (with_specularColor value) ;;
  s <- get ;;
  setColor value (colorSpace s) specularRGB.

Definition set_ambientColor (value : list Q) : M t unit :=
  modify (with_ambientColor value) ;;
  s <- get ;;
  setColor value (colorSpace s) ambientRGB.

Definition set_kAttenuation (value : list Q) : M t unit :=
  modify (with_kAttenuation value).

(** The attributes [__init__] creates before it calls a setter. *)
Definition blank : t :=
  mk (zeros 4) (zeros 3) (zeros 3) (zeros 3)
     [0; 0; 0; 1] [0; 0; 0; 1] [0; 0; 0; 1] "" "" [].

(** <<
    self.colorSpace = colorSpace
    self.diffuseColor = diffuseColor
    self.specularColor = specularColor
    self.ambientColor = ambientColor
    self._lightType = lightType
    self.pos = pos
    self._kAttenuation = np.asarray(kAttenuation, np.float32)
    >> *)
Definition __init__body (pos diffuseColor specularColor ambientColor : list Q)
    (colorSpace lightType : string) (kAttenuation : list Q) : M t unit :=
  modify (with_colorSpace colorSpace) ;;
  set_diffuseColor diffuseColor ;;
  set_specularColor specularColor ;;
  set_ambientColor ambientColor ;;
  modify (with_lightType lightType) ;;
  set_pos pos ;;
  modify (with_kAttenuation kAttenuation).

(** The constructor: the new object, or the exception that left
    none. *)
Definition __init__ (pos diffuseColor specularColor ambientColor : list Q)
    (colorSpace lightType : string) (kAttenuation : list Q) : result t :=
  match __init__body pos diffuseColor specularColor ambientColor
          colorSpace lightType kAttenuation blank with
  | (Ok _, s) => Ok s
  | (Raise e, _) => Raise e
  end.
End Colors.

(** The fourth component of [_pos]. *)
Definition w (s : t) : Q := nth 3 (_pos s) 0.

(** The getter [pos]: [self._pos[:3]]. *)
Definition pos (s : t) : list Q := firstn 3 (_pos s).

(** The getter [lightType]; the source returns [self._pos[:3]] here
    too. *)
Definition lightType (s : t) : list Q := firstn 3 (_pos s).

(** The full 4-vector behind the property named by [a]. *)
Definition cache (a : rgbAttrib) (s : t) : list Q :=
  match a with
  | diffuseRGB => _diffuseRGB s
  | specularRGB => _specularRGB s
  | ambientRGB => _ambientRGB s
  end.

(** [w] is 1 for a light whose stored type is ['point'], 0 otherwise. *)
Definition w_matches_type (s : t) : Prop :=
  w s = if String.eqb (_lightType s) "point" then 1 else 0.

End LightSource.

(** ** PhongMaterial *)

Inductive GLface : Type := GL_FRONT | GL_BACK | GL_FRONT_AND_BACK.

(** A texture object ([TexImage2D]), by name. *)
Definition texture : Type := handle.

Module PhongMaterial.

Record t : Type := mk {
  _diffuseColor : list Q;
  _specularColor : list Q;
  _ambientColor : list Q;
  _emissionColor : list Q;
  _shininess : Q;
  _diffuseRGB : list Q;
  _specularRGB : list Q;
  _ambientRGB : list Q;
  _emissionRGB : list Q;
  _face : GLface;
  colorSpace : string;
  opacity : Q;
  contrast : Q;
  _diffuseTexture : option texture;
  _normalTexture : option texture;
  _useTextures : bool;
  _useShaders : bool
}.

(** The four source colours and their caches, for the updates. *)
Inductive color : Type := diffuse | specular | ambient | emission.

Definition sourceColor (c : color) (s : t) : list Q :=
  match c with
  | diffuse => _diffuseColor s
  | specular => _specularColor s
  | ambient => _ambientColor s
  | emission => _emissionColor s
  end.

(** The full 4-vector behind the [diffuseRGB], ... properties. *)
Definition cache (c : color) (s : t) : list Q :=
  match c with
  | diffuse => _diffuseRGB s
  | specular => _specularRGB s
  | ambient => _ambientRGB s
  | emission => _emissionRGB s
  end.

Definition with_sourceColor (c : color) v (s : t) : t :=
  mk (match c with diffuse => v | _ => _diffuseColor s end)
     (match c with specular => v | _ => _specularColor s end)
     (match c with ambient => v | _ => _ambientColor s end)
     (match c with emission => v | _ => _emissionColor s end)
     (_shininess s) (_diffuseRGB s) (_specularRGB s) (_ambientRGB s)
     (_emissionRGB s) (_face s) (colorSpace s) (opacity s) (contrast s)
     (_diffuseTexture s) (_normalTexture s) (_useTextures s) (_useShaders s).

Definition with_cache (c : color) v (s : t) : t :=
  mk (_diffuseColor s) (_specularColor s) (_ambientColor s) (_emissionColor s)
     (_shininess s)
     (match c with diffuse => v | _ => _diffuseRGB s end)
     (match c with specular => v | _ => _specularRGB s end)
     (match c with ambient => v | _ => _ambientRGB s end)
     (match c with emission => v | _ => _emissionRGB s end)
     (_face s) (colorSpace s) (opacity s) (contrast s)
     (_diffuseTexture s) (_normalTexture s) (_useTextures s) (_useShaders s).

Definition with_shininess v (s : t) : t :=
  mk (_diffuseColor s) (_specularColor s) (_ambientColor s) (_emissionColor s)
     v (_diffuseRGB s) (_specularRGB s) (_ambientRGB s) (_emissionRGB s)
     (_face s) (colorSpace s) (opacity s) (contrast s)
     (_diffuseTexture s) (_normalTexture s) (_useTextures s) (_useShaders s).

Definition with_colorSpace v (s : t) : t :=
  mk (_diffuseColor s) (_specularColor s) (_ambientColor s) (_emissionColor s)
     (_shininess s) (_diffuseRGB s) (_specularRGB s) (_ambientRGB s)
     (_emissionRGB s) (_face s) v (opacity s) (contrast s)
     (_diffuseTexture s) (_normalTexture s) (_useTextures s) (_useShaders s).

(** [self.opacity = value]: a plain attribute, no property. *)
Definition set_opacity v (s : t) : t :=
  mk (_diffuseColor s) (_specularColor s) (_ambientColor s) (_emissionColor s)
     (_shininess s) (_diffuseRGB s) (_specularRGB s) (_ambientRGB s)
     (_emissionRGB s) (_face s) (colorSpace s) v (contrast s)
     (_diffuseTexture s) (_normalTexture s) (_useTextures s) (_useShaders s).

(** [self.contrast = value]: a plain attribute, no property. *)
Definition set_contrast v (s : t) : t :=
  mk (_diffuseColor s) (_specularColor s) (_ambientColor s) (_emissionColor s)
     (_shininess s) (_diffuseRGB s) (_specularRGB s) (_ambientRGB s)
     (_emissionRGB s) (_face s) (colorSpace s) (opacity s) v
     (_diffuseTexture s) (_normalTexture s) (_useTextures s) (_useShaders s).

Definition set_diffuseTexture v (s : t) : t :=
  mk (_diffuseColor s) (_specularColor s) (_ambientColor s) (_emissionColor s)
     (_shininess s) (_diffuseRGB s) (_specularRGB s) (_ambientRGB s)
     (_emissionRGB s) (_face s) (colorSpace s) (opacity s) (contrast s)
     v (_normalTexture s) (_useTextures s) (_useShaders s).

#[local] Open Scope py_scope.

Definition lift {A} (r : result A) : M t A := fun s => (r, s).

(** The four setters [diffuseRGB], [specularRGB], [ambientRGB] and
    [emissionRGB] have the same body, on their own field:
    <<
    self._diffuseRGB = np.zeros((4,), np.float32)
    self._diffuseRGB[:3] = (value * self.contrast + 1) / 2.0
    self._diffuseRGB[3] = self.opacity
    >> *)
Definition set_RGB (c : color) (value : list Q) : M t unit :=
  modify (with_cache c (zeros 4)) ;;
  s <- get ;;
  v <- lift (LightSource.store3
               (map (fun x => (x * contrast s + 1) / 2) value) (cache c s)) ;;
  s <- get ;;
  modify (with_cache c (LightSource.store_w (opacity s) v)).

Definition set_diffuseRGB : list Q -> M t unit := set_RGB diffuse.
Definition set_specularRGB : list Q -> M t unit := set_RGB specular.
Definition set_ambientRGB : list Q -> M t unit := set_RGB ambient.
Definition set_emissionRGB : list Q -> M t unit := set_RGB emission.

Definition set_shininess (value : Q) : M t unit :=
  modify (with_shininess value).

Section Colors.
Context {C : ColorTools}.

(** Modelled from the spec: [helpers.setColor], the colour-space
    conversion that, "given a color tuple + color-space tag, returns
    a normalized RGB triple used to populate device-space caches". *)
Definition setColor (value : list Q) (space : string) (c : color)
  : M t unit :=
  set_RGB c (toRGB space value) ;;
  modify (with_colorSpace space).

(** The four setters [diffuseColor], ..., [emissionColor]:
    <<
    self._diffuseColor = np.asarray(value, np.float32)
    setColor(self, value, colorSpace=self.colorSpace, operation=None,
             rgbAttrib='diffuseRGB', colorAttrib='diffuseColor',
             colorSpaceAttrib='colorSpace')
    >> *)
Definition set_color (c : color) (value : list Q) : M t unit :=
  modify (with_sourceColor c value) ;;
  s <- get ;;
  setColor value (colorSpace s) c.

Definition set_diffuseColor : list Q -> M t unit := set_color diffuse.
Definition set_specularColor : list Q -> M t unit := set_color specular.
Definition set_ambientColor : list Q -> M t unit := set_color ambient.
Definition set_emissionColor : list Q -> M t unit := set_color emission.

(** [face] as the constructor reads it. *)
Definition parse_face (face : string) : result GLface :=
  if String.eqb face "front" then Ok GL_FRONT
  else if String.eqb face "back" then Ok GL_BACK
  else if String.eqb face "both" then Ok GL_FRONT_AND_BACK
  else Raise ValueError.

Definition blank (shininess : Q) (f : GLface) : t :=
  mk (zeros 3) (zeros 3) (zeros 3) (zeros 3) shininess
     [0; 0; 0; 1] [0; 0; 0; 1] [0; 0; 0; 1] [0; 0; 0; 1]
     f "" 0 0 None None false false.

(** The constructor. *)
Definition __init__ (diffuseColor specularColor ambientColor
                     emissionColor : list Q) (shininess : Q)
    (colorSpace : string) (diffuseTexture : option texture)
    (opacity contrast : Q) (face : string) (useShaders : bool) : result t :=
  rbind (parse_face face) (fun f =>
    match (modify (with_colorSpace colorSpace) ;;
           modify (set_opacity opacity) ;;
           modify (set_contrast contrast) ;;
           set_color diffuse diffuseColor ;;
           set_color specular specularColor ;;
           set_color ambient ambientColor ;;
           set_color emission emissionColor ;;
           modify (set_diffuseTexture diffuseTexture))
          (blank shininess f) with
    | (Ok _, s) =>
        Ok (mk (_diffuseColor s) (_specularColor s) (_ambientColor s)
              (_emissionColor s) (_shininess s) (_diffuseRGB s)
              (_specularRGB s) (_ambientRGB s) (_emissionRGB s) (_face s)
              (PhongMaterial.colorSpace s) (PhongMaterial.opacity s)
              (PhongMaterial.contrast s) (_diffuseTexture s) None
              false useShaders)
    | (Raise e, _) => Raise e
    end).
End Colors.

(** What a user of a material can do to it after construction: assign
    one of its properties or plain attributes. *)
Inductive op : Type :=
| AssignColor (c : color) (value : list Q)
| AssignRGB (c : color) (value : list Q)
| AssignShininess (value : Q)
| AssignOpacity (value : Q)
| AssignContrast (value : Q)
| AssignDiffuseTexture (value : option texture).

Definition perform {C : ColorTools} (o : op) : M t unit :=
  match o with
  | AssignColor c value => set_color c value
  | AssignRGB c value => set_RGB c value
  | AssignShininess value => set_shininess value
  | AssignOpacity value => modify (set_opacity value)
  | AssignContrast value => modify (set_contrast value)
  | AssignDiffuseTexture value => modify (set_diffuseTexture value)
  end.

(** A sequence of assignments, each one attempted: an assignment that
    raises leaves the material as the exception found it, and the next
    one goes on from there. *)
Fixpoint perform_all {C : ColorTools} (ops : list op) (m : t) : t :=
  match ops with
  | [] => m
  | o :: ops' => perform_all ops' (snd (perform o m))
  end.

End PhongMaterial.

(** ** Quaternions of [psychopy.tools.mathtools] *)

(** Modelled from the spec: [mt.multQuat], the spec's [quatMultiply] on
    quaternions laid out as [(x, y, z, w)] with [w] real: the Hamilton
    product. *)
Definition multQuat (q0 q1 : list Q) : result (list Q) :=
  match q0, q1 with
  | [x0; y0; z0; w0], [x1; y1; z1; w1] =>
      Ok [ w0 * x1 + x0 * w1 + y0 * z1 - z0 * y1;
           w0 * y1 - x0 * z1 + y0 * w1 + z0 * x1;
           w0 * z1 + x0 * y1 - y0 * x1 + z0 * w1;
           w0 * w1 - x0 * x1 - y0 * y1 - z0 * z1 ]
  | _, _ => Raise ValueError
  end.

Definition sumsq (q : list Q) : Q := fold_right (fun c acc => c * c + acc) 0 q.

(** Modelled from the spec: [mt.invertQuat], the spec's [quatInverse]:
    the multiplicative inverse, that is the conjugate over the squared
    norm. *)
Definition invertQuat (q : list Q) : result (list Q) :=
  match q with
  | [x; y; z; w] => Ok (map (fun c => c / sumsq q) [- x; - y; - z; w])
  | _ => Raise ValueError
  end.

(** The matrix routines of [psychopy.tools.mathtools]; [invertMatrix]
    is given the matrix and the [out] buffer. *)
Class MathTools : Type := {
  posOriToMatrix : list Q -> list Q -> ndarray;
  invertMatrix : ndarray -> ndarray -> ndarray
}.

(** Rotation from the quaternion, translation in the last column; the
    inverse of such a matrix is the transposed rotation with the
    translation rotated back and negated. *)
Definition rigid_tools : MathTools := {|
  posOriToMatrix := fun p q =>
    match p, q with
    | [tx; ty; tz], [x; y; z; w] =>
        Mat [ [1 - 2 * (y * y + z * z); 2 * (x * y - z * w); 2 * (x * z + y * w); tx];
              [2 * (x * y + z * w); 1 - 2 * (x * x + z * z); 2 * (y * z - x * w); ty];
              [2 * (x * z - y * w); 2 * (y * z + x * w); 1 - 2 * (x * x + y * y); tz];
              [0; 0; 0; 1] ]
    | _, _ => Mat []
    end;
  invertMatrix := fun m out =>
    match m with
    | Mat [ [a; b; c; tx]; [d; e; f; ty]; [g; h; i; tz]; _ ] =>
        Mat [ [a; d; g; - (a * tx + d * ty + g * tz)];
              [b; e; h; - (b * tx + e * ty + h * tz)];
              [c; f; i; - (c * tx + f * ty + i * tz)];
              [0; 0; 0; 1] ]
    | _ => out
    end
|}.

(** ** RigidBodyPose *)

Module RigidBodyPose.

(** [computed] is a ghost field: the number of calls made so far to
    [mt.posOriToMatrix] and [mt.invertMatrix] for this pose. *)
Record t : Type := mk {
  _pos : list Q;
  _ori : list Q;
  _modelMatrix : ndarray;
  _invModelMatrix : ndarray;
  _matrixNeedsUpdate : bool;
  _invMatrixNeedsUpdate : bool;
  computed : nat
}.

#[local] Open Scope py_scope.

Definition lift {A} (r : result A) : M t A := fun s => (r, s).

Section Matrices.
Context {MT : MathTools}.

(** <<
    self._pos = np.ascontiguousarray(pos, dtype=np.float32)
    self._ori = np.ascontiguousarray(ori, dtype=np.float32)
    self._modelMatrix = mt.posOriToMatrix(self._pos, self._ori, ...)
    self._invModelMatrix = np.zeros(4, dtype=np.float32, order='C')
    self._matrixNeedsUpdate = False
    self._invMatrixNeedsUpdate = False
    >> *)
Definition __init__ (pos ori : list Q) : t :=
  mk pos ori (posOriToMatrix pos ori) (Vec (zeros 4)) false false 1.

(** The getters [pos] and [ori]. *)
Definition pos (s : t) : list Q := _pos s.
Definition ori (s : t) : list Q := _ori s.

(** <<
    self._pos = np.ascontiguousarray(value, dtype=np.float32)
    self._matrixNeedsUpdate = self._invMatrixNeedsUpdate = True
    >> *)
Definition set_pos (value : list Q) : M t unit :=
  modify (fun s => mk value (_ori s) (_modelMatrix s) (_invModelMatrix s)
                      true true (computed s)).

Definition set_ori (value : list Q) : M t unit :=
  modify (fun s => mk (_pos s) value (_modelMatrix s) (_invModelMatrix s)
                      true true (computed s)).

(** <<
    return RigidBodyPose(self._pos + other.pos,
                         mt.multQuat(self._ori, other.ori))
    >> *)
Definition __mul__ (self other : t) : result t :=
  rbind (np_add (_pos self) (pos other)) (fun p =>
  rbind (multQuat (_ori self) (ori other)) (fun q =>
  Ok (__init__ p q))).

(** <<
    return np.isclose(self._pos, other.pos) and \
        np.isclose(self._ori, other.ori)
    >> *)
Definition isEqual (self other : t) : result (list bool) :=
  rbind (isclose (_pos self) (pos other)) (fun a =>
  py_and a (fun _ => isclose (_ori self) (ori other))).

(** <<
    if self._matrixNeedsUpdate:
        self._modelMatrix = mt.posOriToMatrix(
            self._pos, self._ori, out=self._modelMatrix)
        self._matrixNeedsUpdate = False
    if inverse:
        if self._invMatrixNeedsUpdate:
            self._invModelMatrix = mt.invertMatrix(
                self._modelMatrix, out=self._invModelMatrix)
            self._invMatrixNeedsUpdate = False
        return self._invModelMatrix
    return self._modelMatrix
    >>
    with [out=None], as every caller in the module has it. *)
Definition getModelMatrix (inverse : bool) : M t ndarray :=
  s <- get ;;
  (if _matrixNeedsUpdate s
   then modify (fun s => mk (_pos s) (_ori s)
                           (posOriToMatrix (_pos s) (_ori s))
                           (_invModelMatrix s) false
                           (_invMatrixNeedsUpdate s) (S (computed s)))
   else ret tt) ;;
  if inverse
  then
    s <- get ;;
    (if _invMatrixNeedsUpdate s
     then modify (fun s => mk (_pos s) (_ori s) (_modelMatrix s)
                             (invertMatrix (_modelMatrix s)
                                           (_invModelMatrix s))
                             (_matrixNeedsUpdate s) false
                             (S (computed s)))
     else ret tt) ;;
    s <- get ;;
    ret (_invModelMatrix s)
  else
    s <- get ;;
    ret (_modelMatrix s).

(** <<
    if not self._matrixNeedsUpdate:
        return self._modelMatrix
    else:
        return self.getModelMatrix()
    >> *)
Definition modelMatrix : M t ndarray :=
  s <- get ;;
  if negb (_matrixNeedsUpdate s)
  then ret (_modelMatrix s)
  else getModelMatrix false.

(** <<
    if not self._invModelMatrix:
        return self._invModelMatrix
    else:
        return self.getModelMatrix(inverse=True)
    >> *)
Definition inverseModelMatrix : M t ndarray :=
  s <- get ;;
  b <- lift (ndarray_truth (_invModelMatrix s)) ;;
  if negb b
  then ret (_invModelMatrix s)
  else getModelMatrix true.

(** <<
    return RigidBodyPose(
        -self._pos, mt.invertQuat(self._ori, dtype=np.float32))
    >> *)
Definition __invert__ (self : t) : result t :=
  let p := np_neg (_pos self) in
  rbind (invertQuat (_ori self)) (fun q => Ok (__init__ p q)).

(** <<
    self._ori = mt.invertQuat(self._ori, dtype=np.float32)
    self._pos *= -1.0
    >> *)
Definition invert : M t unit :=
  s <- get ;;
  q <- lift (invertQuat (_ori s)) ;;
  modify (fun s => mk (map (fun c => c * - (1)) (_pos s)) q
                      (_modelMatrix s) (_invModelMatrix s)
                      (_matrixNeedsUpdate s) (_invMatrixNeedsUpdate s)
                      (computed s)).

Definition inverted (self : t) : result t := __invert__ self.
End Matrices.

End RigidBodyPose.

(** ** RigidBodyPose over IEEE binary32

    The constructor, the product and the inverse of [RigidBodyPose]
    once more, with the numbers as numpy holds them: [np.float32]
    values with their signed zeros, infinities and NaN, so that the
    cast in the constructor and the sum in [__mul__] round and overflow
    as they do in the program. *)

Module Float32.

(** A floating-point datum: a signed zero, a signed infinity, NaN, or
    [(-1)^s * m * 2^e].  The same type holds a Python [float]
    (binary64) and an [np.float32]; the operations say in which format
    they round. *)
Definition float : Type := SpecFloat.spec_float.

Definition zero : float := SpecFloat.S754_zero false.
Definition inf : float := SpecFloat.S754_infinity false.
Definition nan : float := SpecFloat.S754_nan.

(** A Python [float] written as an integer literal such as [1e39] or
    [2.0]: the binary64 value nearest to the integer. *)
Definition py_float (n : Z) : float :=
  SpecFloat.binary_normalize 53 1024 n 0 false.

(** A Python [float] written as a decimal fraction [n / d], such as
    [0.6 = 3 / 5], for [n] and [d] that binary64 holds exactly: the
    binary64 value nearest to the quotient. *)
Definition py_ratio (n d : Z) : float :=
  SpecFloat.SFdiv 53 1024 (py_float n) (py_float d).

(** The cast of one value to [np.float32]: round to nearest, ties to
    even; what lies beyond the largest binary32 value becomes an
    infinity; zeros, infinities and NaN stay. *)
Definition to_float32 (x : float) : float :=
  match x with
  | SpecFloat.S754_finite s m e =>
      SpecFloat.binary_normalize 24 128 (SpecFloat.cond_Zopp s (Zpos m)) e s
  | _ => x
  end.

(** The arithmetic of [np.float32] arrays, element by element. *)
Definition add : float -> float -> float := SpecFloat.SFadd 24 128.
Definition sub : float -> float -> float := SpecFloat.SFsub 24 128.
Definition mul : float -> float -> float := SpecFloat.SFmul 24 128.
Definition div : float -> float -> float := SpecFloat.SFdiv 24 128.
Definition neg : float -> float := SpecFloat.SFopp.

Definition one : float := to_float32 (py_float 1).
Definition two : float := to_float32 (py_float 2).

(** Neither an infinity nor NaN. *)
Definition is_finite (x : float) : bool :=
  match x with
  | SpecFloat.S754_zero _ | SpecFloat.S754_finite _ _ _ => true
  | _ => false
  end.

(** What the constructor is given as [pos] or [ori]: a tuple or list
    of Python floats, or an array that already has dtype [float32]. *)
Inductive array_like : Type :=
| floats (xs : list float)
| float32s (xs : list float).

(** [np.ascontiguousarray(a, dtype=np.float32)]: Python floats are
    cast one by one, a [float32] array is taken as it is. *)
Definition ascontiguousarray (a : array_like) : list float :=
  match a with
  | floats xs => map to_float32 xs
  | float32s xs => xs
  end.

(** Element-wise binary operation with numpy's broadcasting, as
    [broadcast2] has it. *)
Definition broadcast (f : float -> float -> float) (a b : list float)
  : result (list float) :=
  if Nat.eqb (List.length a) (List.length b) then Ok (zipWith f a b)
  else match a, b with
       | [x], _ => Ok (map (f x) b)
       | _, [y] => Ok (map (fun x => f x y) a)
       | _, _ => Raise ValueError
       end.

Definition np_add : list float -> list float -> result (list float) :=
  broadcast add.

Definition np_neg (a : list float) : list float := map neg a.

(** The routines of [psychopy.tools.mathtools] that the pose calls.
    [multQuat] and [invertQuat] return an array whose dtype is theirs
    to choose; the constructor casts it. *)
Class MathTools : Type := {
  multQuat : list float -> list float -> result array_like;
  invertQuat : list float -> result array_like;
  posOriToMatrix : list float -> list float -> list (list float)
}.

Module RigidBodyPose.

Record t : Type := mk {
  _pos : list float;
  _ori : list float;
  _modelMatrix : list (list float);
  _invModelMatrix : list float;
  _matrixNeedsUpdate : bool;
  _invMatrixNeedsUpdate : bool
}.

Section Algebra.
Context {MT : MathTools}.

(** <<
    self._pos = np.ascontiguousarray(pos, dtype=np.float32)
    self._ori = np.ascontiguousarray(ori, dtype=np.float32)
    self._modelMatrix = mt.posOriToMatrix(
        self._pos, self._ori, dtype=np.float32)
    self._invModelMatrix = np.zeros(4, dtype=np.float32, order='C')
    self._matrixNeedsUpdate = False
    self._invMatrixNeedsUpdate = False
    >> *)
Definition __init__ (pos ori : array_like) : t :=
  let p := ascontiguousarray pos in
  let q := ascontiguousarray ori in
  mk p q (posOriToMatrix p q) (repeat zero 4) false false.

(** The getters [pos] and [ori]. *)
Definition pos (s : t) : list float := _pos s.
Definition ori (s : t) : list float := _ori s.

(** <<
    return RigidBodyPose(self._pos + other.pos,
                         mt.multQuat(self._ori, other.ori))
    >> *)
Definition __mul__ (self other : t) : result t :=
  rbind (np_add (_pos self) (pos other)) (fun p =>
  rbind (multQuat (_ori self) (ori other)) (fun q =>
  Ok (__init__ (float32s p) q))).

(** <<
    return RigidBodyPose(
        -self._pos, mt.invertQuat(self._ori, dtype=np.float32))
    >> *)
Definition __invert__ (self : t) : result t :=
  let p := np_neg (_pos self) in
  rbind (invertQuat (_ori self)) (fun q => Ok (__init__ (float32s p) q)).
End Algebra.

End RigidBodyPose.

End Float32.

(** ** BaseRigidBodyStim *)

(** A vertex array object, by name. *)
Definition VAO : Type := handle.

Inductive GLcap : Type := GL_COLOR_MATERIAL | GL_TEXTURE_2D.

Inductive GLpname : Type := GL_DIFFUSE | GL_AMBIENT | GL_AMBIENT_AND_DIFFUSE.

(** The calls that reach the GPU, as [draw] issues them: [GL.*]
    directly, and the drawing helpers of [gltools]. *)
Inductive glcall : Type :=
| glPushMatrix
| glLoadTransposeMatrixf (m : ndarray)
| useMaterial (m : PhongMaterial.t)
| useProgram (h : handle)
| drawVAO (vao : VAO)
| clearMaterial (m : PhongMaterial.t)
| glMaterialfv (face : GLface) (pname : GLpname) (color : list Q)
| glEnable (cap : GLcap)
| glDisable (cap : GLcap)
| glColorMaterial (face : GLface) (mode : GLpname)
| glColor4f (r g b a : Q)
| glPopMatrix.

(** The part of [psychopy.visual.Window] that [draw] touches. *)
Record Window : Type := mkWindow {
  draw3d : bool;
  lights : list LightSource.t
}.

Module BaseRigidBodyStim.

Record t : Type := mk {
  win : Window;
  colorSpace : string;
  contrast : Q;
  opacity : Q;
  rgb : list Q;
  _thePose : RigidBodyPose.t;
  _useShaders : bool;
  material : option PhongMaterial.t;
  _vao : option VAO
}.

(** What a call of [draw] can change: the stimulus (with its window
    and its pose cache), the window passed as argument when there is
    one, and the GPU, seen as the sequence of calls it received. *)
Record world : Type := mkWorld {
  self : t;
  argwin : option Window;
  gpu : list glcall
}.

#[local] Open Scope py_scope.

Definition with_pose (p : RigidBodyPose.t) (s : t) : t :=
  mk (win s) (colorSpace s) (contrast s) (opacity s) (rgb s) p
     (_useShaders s) (material s) (_vao s).

Definition with_win (x : Window) (s : t) : t :=
  mk x (colorSpace s) (contrast s) (opacity s) (rgb s) (_thePose s)
     (_useShaders s) (material s) (_vao s).

(** A call into the GL. *)
Definition gl (c : glcall) : M world unit :=
  modify (fun x => mkWorld (self x) (argwin x) (gpu x ++ [c])).

(** [win.draw3d = b], where [win] is the argument, or [self.win] when
    the argument is [None]. *)
Definition set_draw3d (b : bool) : M world unit :=
  modify (fun x =>
    match argwin x with
    | None =>
        mkWorld (with_win (mkWindow b (lights (win (self x)))) (self x))
                None (gpu x)
    | Some aw => mkWorld (self x) (Some (mkWindow b (lights aw))) (gpu x)
    end).

(** Run a method of [self.thePose] on the stimulus' pose. *)
Definition on_pose {A} (c : M RigidBodyPose.t A) : M world A :=
  fun x =>
    let '(r, p') := c (_thePose (self x)) in
    (r, mkWorld (with_pose p' (self x)) (argwin x) (gpu x)).

(** [len(self.win.lights)] as a Python int. *)
Definition nLightsOf (s : t) : pyval :=
  PyInt (Z.of_nat (List.length (lights (win s)))).

Section Draw.
Context {MT : MathTools} {C : ColorTools}.

(** [_material_shaders_], the module-level table. *)
Variable shaders : dict handle.

Definition lookup_shader (key : tuple) : M world handle :=
  fun x => (dict_get key shaders, x).

(** [BaseRigidBodyStim.draw(self, win=None)], in the order of the
    source: the early return on a missing VAO, the transform, then
    one of the four paths (material or class colours, shaders or
    fixed function). *)
Definition draw : M world unit :=
  x <- get ;;
  match _vao (self x) with
  | None => ret tt
  | Some vao =>
      set_draw3d true ;;
      gl glPushMatrix ;;
      m <- on_pose RigidBodyPose.modelMatrix ;;
      gl (glLoadTransposeMatrixf m) ;;
      x <- get ;;
      let s := self x in
      match material s with
      | Some mat =>
          if _useShaders s
          then
            let shaderKey :=
              [nLightsOf s; PyBool (PhongMaterial._useTextures mat)] in
            gl (useMaterial mat) ;;
            prog <- lookup_shader shaderKey ;;
            gl (useProgram prog) ;;
            gl (drawVAO vao) ;;
            gl (useProgram 0%nat) ;;
            gl (clearMaterial mat)
          else
            gl (useMaterial mat) ;;
            gl (drawVAO vao) ;;
            gl (clearMaterial mat)
      | None =>
          let '(r, g, b) :=
            _getDesiredRGB (rgb s) (colorSpace s) (contrast s) in
          if _useShaders s
          then
            let shaderKey := [nLightsOf s; PyBool false; PyBool false] in
            prog <- lookup_shader shaderKey ;;
            gl (useProgram prog) ;;
            let color := [r; g; b; opacity s] in
            gl (glMaterialfv GL_FRONT GL_DIFFUSE color) ;;
            gl (glMaterialfv GL_FRONT GL_AMBIENT color) ;;
            gl (drawVAO vao) ;;
            gl (useProgram 0%nat)
          else
            gl (glEnable GL_COLOR_MATERIAL) ;;
            gl (glDisable GL_TEXTURE_2D) ;;
            gl (glColorMaterial GL_FRONT GL_AMBIENT_AND_DIFFUSE) ;;
            gl (glColor4f r g b (opacity s)) ;;
            gl (drawVAO vao) ;;
            gl (glDisable GL_COLOR_MATERIAL)
      end ;;
      gl glPopMatrix ;;
      set_draw3d false
  end.
End Draw.

(** The accessors of the stimulus, which hand over to [thePose]:
    [pos] and [getPos], [ori] and [getOri] read, the setters and
    [setPos], [setOri] assign. *)
Definition pos (s : t) : list Q := RigidBodyPose.pos (_thePose s).
Definition ori (s : t) : list Q := RigidBodyPose.ori (_thePose s).
Definition getPos : t -> list Q := pos.
Definition getOri : t -> list Q := ori.

Definition set_pos (value : list Q) : M world unit :=
  on_pose (RigidBodyPose.set_pos value).
Definition set_ori (value : list Q) : M world unit :=
  on_pose (RigidBodyPose.set_ori value).
Definition setPos : list Q -> M world unit := set_pos.
Definition setOri : list Q -> M world unit := set_ori.

(** The window [draw] marks: its argument, or [self.win]. *)
Definition activeWindow (x : world) : Window :=
  match argwin x with
  | Some aw => aw
  | None => win (self x)
  end.

End BaseRigidBodyStim.

(** ** ObjMeshStim *)

(** *** Strings

    A Python [str] is a [string] here, one [ascii] per character: the
    text of a material library is taken to have no character above
    U+00FF. *)

(** [c.isspace()]: the characters [str.strip()] removes.  Below U+0100
    these are tab to carriage return, the four separators U+001C to
    U+001F, the space, U+0085 and U+00A0. *)
Definition isspace (c : ascii) : bool :=
  let n := nat_of_ascii c in
  ((9 <=? n) && (n <=? 13) || (28 <=? n) && (n <=? 32)
   || (n =? 133) || (n =? 160))%nat.

Fixpoint lstrip (s : string) : string :=
  match s with
  | EmptyString => EmptyString
  | String c s' => if isspace c then lstrip s' else s
  end.

Fixpoint rstrip (s : string) : string :=
  match s with
  | EmptyString => EmptyString
  | String c s' =>
      match rstrip s' with
      | EmptyString => if isspace c then EmptyString else String c EmptyString
      | r => String c r
      end
  end.

(** [s.strip()] *)
Definition strip (s : string) : string := rstrip (lstrip s).

(** [s.startswith(p)] *)
Definition startswith (p s : string) : bool := String.prefix p s.

(** [s[n:]] *)
Fixpoint drop (n : nat) (s : string) : string :=
  match n, s with
  | O, _ => s
  | S n', String _ s' => drop n' s'
  | S _, EmptyString => EmptyString
  end.

(** [s.split(sep)] for a one-character separator: the pieces between
    the separators, empty pieces included; never an empty list. *)
Fixpoint split (sep : ascii) (s : string) : list string :=
  match s with
  | EmptyString => [EmptyString]
  | String c s' =>
      if Ascii.eqb c sep then EmptyString :: split sep s'
      else match split sep s' with
           | piece :: pieces => String c piece :: pieces
           | [] => [String c EmptyString]
           end
  end.

(** [io.StringIO(text).readlines()]: the lines of the text, each with
    its newline, the last one without if the text does not end in
    one. *)
Fixpoint readlines (text : string) : list string :=
  match text with
  | EmptyString => []
  | String c text' =>
      if Ascii.eqb c "010"%char then String c EmptyString :: readlines text'
      else match readlines text' with
           | line :: lines => String c line :: lines
           | [] => [String c EmptyString]
           end
  end.

(** A [dict] with [str] keys, in insertion order. *)
Definition sdict (V : Type) : Type := list (string * V).

Fixpoint sdict_set {V} (k : string) (v : V) (d : sdict V) : sdict V :=
  match d with
  | [] => [(k, v)]
  | (k', v') :: d' =>
      if String.eqb k' k then (k', v) :: d' else (k', v') :: sdict_set k v d'
  end.

Fixpoint sdict_lookup {V} (k : string) (d : sdict V) : option V :=
  match d with
  | [] => None
  | (k', v') :: d' => if String.eqb k' k then Some v' else sdict_lookup k d'
  end.

(** [d[k]] *)
Definition sdict_get {V} (k : string) (d : sdict V) : result V :=
  match sdict_lookup k d with
  | Some v => Ok v
  | None => Raise KeyError
  end.

(** [k in d.keys()] *)
Definition sdict_mem {V} (k : string) (d : sdict V) : bool :=
  match sdict_lookup k d with
  | Some _ => true
  | None => false
  end.

(** What [_loadMtlLib] takes from outside the module: the builtin
    [float] on a [str] ([None] for the [ValueError]), and the chain
    [Image.open] ... [gt.createTexImage2D] that turns the name in a
    [map_Kd] line into a texture, given the path of the library. *)
Class LoaderTools : Type := {
  py_float : string -> option Q;
  loadTexture : string -> string -> result texture
}.

Module ObjMeshStim.

(** The locals of [_loadMtlLib].  [thisMaterial] starts as the integer
    0, which is no key of [foundMaterials]: [None] stands for it.
    [opened] is a ghost field: the texture names handed to
    [Image.open], in order. *)
Record loader : Type := mkLoader {
  foundMaterials : sdict PhongMaterial.t;
  foundTextures : sdict texture;
  thisMaterial : option string;
  opened : list string
}.

Definition start : loader := mkLoader [] [] None [].

#[local] Open Scope py_scope.

Definition lift {S A} (r : result A) : M S A := fun s => (r, s).

(** [list(map(float, parts))] *)
Fixpoint floats {L : LoaderTools} (parts : list string) : result (list Q) :=
  match parts with
  | [] => Ok []
  | p :: parts' =>
      match py_float p with
      | None => Raise ValueError
      | Some x => rbind (floats parts') (fun xs => Ok (x :: xs))
      end
  end.

(** [foundMaterials[thisMaterial].<attribute> = ...]: the material is
    looked up, then the assignment [f] runs on it; the dictionary holds
    the object, so what [f] did to it is seen there even if [f]
    raised. *)
Definition on_current (f : M PhongMaterial.t unit) : M loader unit :=
  fun st =>
    match thisMaterial st with
    | None => (Raise KeyError, st)
    | Some name =>
        match sdict_lookup name (foundMaterials st) with
        | None => (Raise KeyError, st)
        | Some m =>
            let '(r, m') := f m in
            (r, mkLoader (sdict_set name m' (foundMaterials st))
                         (foundTextures st) (thisMaterial st) (opened st))
        end
    end.

Section Loader.
Context {C : ColorTools} {L : LoaderTools}.

(** [PhongMaterial(self.win)] *)
Definition newMaterial : result PhongMaterial.t :=
  PhongMaterial.__init__ [1 # 2; 1 # 2; 1 # 2] [- (1); - (1); - (1)]
    [- (1); - (1); - (1)] [- (1); - (1); - (1)] 10 "rgb" None 1 1 "front"
    false.

(** The three colour directives:
    <<
    specularColor = np.asarray(list(map(float, line[3:].split(' '))))
    specularColor = 2.0 * specularColor - 1
    foundMaterials[thisMaterial].specularColor = specularColor
    >> *)
Definition colorDirective (c : PhongMaterial.color) (line : string)
  : M loader unit :=
  values <- lift (floats (split " " (drop 3 line))) ;;
  let color := map (fun v => 2 * v - 1) values in
  on_current (PhongMaterial.set_color c color).

(** The body of the loop, on one line of the file. *)
Definition directive (mtlFile : string) (line : string) : M loader unit :=
  let line := strip line in
  if startswith "newmtl " line then
    let name := drop 7 line in
    modify (fun st => mkLoader (foundMaterials st) (foundTextures st)
                               (Some name) (opened st)) ;;
    m <- lift newMaterial ;;
    modify (fun st => mkLoader (sdict_set name m (foundMaterials st))
                               (foundTextures st) (thisMaterial st)
                               (opened st))
  else if startswith "Ns " line then
    on_current (fun m =>
      match py_float (drop 3 line) with
      | Some x => PhongMaterial.set_shininess x m
      | None => (Raise ValueError, m)
      end)
  else if startswith "Ks " line then
    colorDirective PhongMaterial.specular line
  else if startswith "Kd " line then
    colorDirective PhongMaterial.diffuse line
  else if startswith "Ka " line then
    colorDirective PhongMaterial.ambient line
  else if startswith "map_Kd " line then
    let textureName := drop 7 line in
    st <- get ;;
    (if negb (sdict_mem textureName (foundTextures st))
     then
       modify (fun st => mkLoader (foundMaterials st) (foundTextures st)
                                  (thisMaterial st)
                                  (opened st ++ [textureName])) ;;
       tex <- lift (loadTexture mtlFile textureName) ;;
       modify (fun st => mkLoader (foundMaterials st)
                                  (sdict_set textureName tex (foundTextures st))
                                  (thisMaterial st) (opened st))
     else ret tt) ;;
    st <- get ;;
    tex <- lift (sdict_get textureName (foundTextures st)) ;;
    on_current (modify (PhongMaterial.set_diffuseTexture (Some tex)))
  else ret tt.

(** The loop over the lines, from the empty dictionaries. *)
Definition loadLines (mtlFile : string) (lines : list string)
  : result unit * loader :=
  for_each lines (directive mtlFile) start.

(** [_loadMtlLib(self, mtlFile)], given the text read from the file:
    [foundMaterials] when the loop ends, or the exception that ended
    it. *)
Definition _loadMtlLib (mtlFile : string) (text : string)
  : result (sdict PhongMaterial.t) :=
  match loadLines mtlFile (readlines text) with
  | (Ok _, st) => Ok (foundMaterials st)
  | (Raise e, _) => Raise e
  end.
End Loader.

(** What [self.material] can hold when [draw] runs: [None], one
    [PhongMaterial] (the constructor's fall-back, or a [useMaterial]
    argument), or the dictionary that [_loadMtlLib] returns. *)
Inductive materials : Type :=
| NoMaterial
| OneMaterial (m : PhongMaterial.t)
| Library (d : sdict PhongMaterial.t).

(** The part of the object that [draw] reads; [_vao] is the dictionary
    of VAOs, keyed by the material names of the OBJ file. *)
Record t : Type := mk {
  win : Window;
  _thePose : RigidBodyPose.t;
  _useShaders : bool;
  material : materials;
  _vao : sdict VAO
}.

(** <<
    if useMaterial is None:
        if objModel.mtlFile is not None:
            self.material = self._loadMtlLib(objModel.mtlFile)
        else:
            self.material = PhongMaterial(self.win)
    else:
        self.material = useMaterial
    >>
    with the text of the library in place of its path. *)
Definition chooseMaterial {C : ColorTools} {L : LoaderTools}
    (useMaterial : materials) (mtlFile : option (string * string))
  : result materials :=
  match useMaterial with
  | NoMaterial =>
      match mtlFile with
      | Some (path, text) =>
          rbind (_loadMtlLib path text) (fun d => Ok (Library d))
      | None => rbind newMaterial (fun m => Ok (OneMaterial m))
      end
  | _ => Ok useMaterial
  end.

Record world : Type := mkWorld {
  self : t;
  argwin : option Window;
  gpu : list glcall
}.

(** The exceptions of [draw]: those of the lookups, and the two that
    come from calling [len] or [items] on something that is not a
    dictionary. *)
Inductive pyerror : Type :=
| Builtin (e : exn)
| TypeError
| AttributeError.

Inductive outcome : Type :=
| Returned
| Raised (e : pyerror).

Definition gl (c : glcall) : M world unit :=
  modify (fun x => mkWorld (self x) (argwin x) (gpu x ++ [c])).

Definition set_draw3d (b : bool) : M world unit :=
  modify (fun x =>
    match argwin x with
    | None =>
        mkWorld (mk (mkWindow b (lights (win (self x)))) (_thePose (self x))
                    (_useShaders (self x)) (material (self x)) (_vao (self x)))
                None (gpu x)
    | Some aw => mkWorld (self x) (Some (mkWindow b (lights aw))) (gpu x)
    end).

Definition on_pose {A} (c : M RigidBodyPose.t A) : M world A :=
  fun x =>
    let '(r, p') := c (_thePose (self x)) in
    (r, mkWorld (mk (win (self x)) p' (_useShaders (self x))
                    (material (self x)) (_vao (self x)))
                (argwin x) (gpu x)).

Definition activeWindow (x : world) : Window :=
  match argwin x with
  | Some aw => aw
  | None => win (self x)
  end.

Section Draw.
Context {MT : MathTools}.

(** [_material_shaders_], the module-level table. *)
Variable shaders : dict handle.

(** <<
    win.draw3d = True
    GL.glPushMatrix()
    GL.glLoadTransposeMatrixf(at.array2pointer(self.thePose.modelMatrix))
    >> *)
Definition prologue : M world unit :=
  set_draw3d true ;;
  gl glPushMatrix ;;
  m <- on_pose RigidBodyPose.modelMatrix ;;
  gl (glLoadTransposeMatrixf m).

(** The loop over [self.material.items()], [mtlIndex] being the number
    of materials already drawn:
    <<
    shaderKey = (nLights, materialDesc._useTextures)
    gt.useMaterial(materialDesc)
    if self._useShaders:
        gt.useProgram(_material_shaders_[shaderKey])
    gt.drawVAO(self._vao[materialName], GL.GL_TRIANGLES)
    mtlIndex += 1
    if mtlIndex == nMaterials:
        if self._useShaders:
            gt.useProgram(0)
        gt.clearMaterial(materialDesc)
    >> *)
Fixpoint drawGroups (items : sdict PhongMaterial.t)
    (mtlIndex nMaterials : nat) (nLights : pyval) : M world unit :=
  match items with
  | [] => ret tt
  | (materialName, materialDesc) :: items' =>
      let shaderKey :=
        [nLights; PyBool (PhongMaterial._useTextures materialDesc)] in
      gl (useMaterial materialDesc) ;;
      x <- get ;;
      (if _useShaders (self x)
       then prog <- lift (dict_get shaderKey shaders) ;; gl (useProgram prog)
       else ret tt) ;;
      vao <- lift (sdict_get materialName (_vao (self x))) ;;
      gl (drawVAO vao) ;;
      let mtlIndex := S mtlIndex in
      (if Nat.eqb mtlIndex nMaterials
       then
         (if _useShaders (self x) then gl (useProgram 0%nat) else ret tt) ;;
         gl (clearMaterial materialDesc)
       else ret tt) ;;
      drawGroups items' mtlIndex nMaterials nLights
  end.

(** The end of [draw], where [win] is the local variable that the
    first lines of [draw] have already bound to a window:
    <<
    GL.glPopMatrix()
    win.draw3d = False
    if win is None:
        win = self.win
    win.draw3d = True
    >>
    The test on [win] never holds at this point, so the last assignment
    is made on the window that has just been set to [False]. *)
Definition epilogue : M world unit :=
  gl glPopMatrix ;;
  set_draw3d false ;;
  set_draw3d true.

Definition finish (r : result unit * world) : outcome * world :=
  match r with
  | (Ok _, x) => (Returned, x)
  | (Raise e, x) => (Raised (Builtin e), x)
  end.

(** [ObjMeshStim.draw(self, win=None)].  There is no test on [_vao]
    here.  With a dictionary in [self.material] the groups are drawn;
    with a single material [len(self.material)] raises [TypeError];
    with [None] the [else] branch calls [self.material.items()], which
    raises [AttributeError]. *)
Definition draw (x : world) : outcome * world :=
  match prologue x with
  | (Raise e, x1) => (Raised (Builtin e), x1)
  | (Ok _, x1) =>
      match material (self x1) with
      | Library d =>
          let nMaterials := List.length d in
          let nLights :=
            PyInt (Z.of_nat (List.length (lights (win (self x1))))) in
          finish ((drawGroups d 0 nMaterials nLights ;; epilogue) x1)
      | OneMaterial _ => (Raised TypeError, x1)
      | NoMaterial => (Raised AttributeError, x1)
      end
  end.
End Draw.

End ObjMeshStim.

(** The rational that a finite floating-point datum stands for. *)
Definition valueOf (x : Float32.float) : option Q :=
  match x with
  | SpecFloat.S754_zero _ => Some 0
  | SpecFloat.S754_finite s m e =>
      Some (inject_Z (SpecFloat.cond_Zopp s (Zpos m)) * Qpower 2 e)
  | _ => None
  end.

(** [np.isclose(a, b)] with its default tolerances, for an [a] of
    dtype [float32]: an infinity or NaN is close to no finite number. *)
Definition isclose32 (a : Float32.float) (b : Q) : bool :=
  match valueOf a with
  | Some v => isclose1 v b
  | None => false
  end.

(** Every component of [a] is close to the component of [b] at the
    same place, and the two have the same length. *)
Fixpoint allclose (a : list Float32.float) (b : list Q) : bool :=
  match a, b with
  | [], [] => true
  | x :: a', y :: b' => isclose32 x y && allclose a' b'
  | _, _ => false
  end.

(** A pose that [np.isclose] cannot tell from the identity pose,
    [pos = (0, 0, 0)] and [ori = (0, 0, 0, 1)], on any component. *)
Definition approxIdentity (P : Float32.RigidBodyPose.t) : bool :=
  allclose (Float32.RigidBodyPose._pos P) [0; 0; 0] &&
  allclose (Float32.RigidBodyPose._ori P) [0; 0; 0; 1].

(** Modelled from the spec: [mt.multQuat] and [mt.invertQuat], the
    spec's [quatMultiply] and [quatInverse], in binary32: the Hamilton
    product on [(x, y, z, w)] and the conjugate over the squared norm,
    every operation rounded to [float32]; [mt.posOriToMatrix] as the
    rotation of the quaternion with the translation in the last
    column.  The theorems on poses hold for any such library; this one
    serves to run them. *)
Definition hamilton32 : Float32.MathTools :=
  let add := Float32.add in
  let sub := Float32.sub in
  let mul := Float32.mul in
  let div := Float32.div in
  let neg := Float32.neg in
  {|
  Float32.multQuat := fun q0 q1 =>
    match q0, q1 with
    | [x0; y0; z0; w0], [x1; y1; z1; w1] =>
        Ok (Float32.float32s
          [ sub (add (add (mul w0 x1) (mul x0 w1)) (mul y0 z1)) (mul z0 y1);
            add (add (sub (mul w0 y1) (mul x0 z1)) (mul y0 w1)) (mul z0 x1);
            add (sub (add (mul w0 z1) (mul x0 y1)) (mul y0 x1)) (mul z0 w1);
            sub (sub (sub (mul w0 w1) (mul x0 x1)) (mul y0 y1)) (mul z0 z1) ])
    | _, _ => Raise ValueError
    end;
  Float32.invertQuat := fun q =>
    match q with
    | [x; y; z; w] =>
        let n := add (add (add (mul x x) (mul y y)) (mul z z)) (mul w w) in
        Ok (Float32.float32s
              [div (neg x) n; div (neg y) n; div (neg z) n; div w n])
    | _ => Raise ValueError
    end;
  Float32.posOriToMatrix := fun p q =>
    match p, q with
    | [tx; ty; tz], [x; y; z; w] =>
        let one := Float32.one in
        let two := Float32.two in
        [ [sub one (mul two (add (mul y y) (mul z z)));
           mul two (sub (mul x y) (mul z w));
           mul two (add (mul x z) (mul y w)); tx];
          [mul two (add (mul x y) (mul z w));
           sub one (mul two (add (mul x x) (mul z z)));
           mul two (sub (mul y z) (mul x w)); ty];
          [mul two (sub (mul x z) (mul y w));
           mul two (add (mul y z) (mul x w));
           sub one (mul two (add (mul x x) (mul y y))); tz];
          [Float32.zero; Float32.zero; Float32.zero; one] ]
    | _, _ => []
    end
  |}.

(** [RigidBodyPose((1., 2., 3.), (0.6, 0., 0.8, 0.))] *)
Definition tiltedPose : Float32.RigidBodyPose.t :=
  @Float32.RigidBodyPose.__init__ hamilton32
    (Float32.floats [Float32.py_float 1; Float32.py_float 2;
                     Float32.py_float 3])
    (Float32.floats [Float32.py_ratio 3 5; Float32.py_float 0;
                     Float32.py_ratio 4 5; Float32.py_float 0]).

(** [RigidBodyPose((1e39, 0., 0.))]: the first component is beyond the
    largest [float32]. *)
Definition overflowPose : Float32.RigidBodyPose.t :=
  @Float32.RigidBodyPose.__init__ hamilton32
    (Float32.floats [Float32.py_float (10 ^ 39); Float32.py_float 0;
                     Float32.py_float 0])
    (Float32.floats [Float32.py_float 0; Float32.py_float 0;
                     Float32.py_float 0; Float32.py_float 1]).

(** [LightSource(win, lightType=lt)], every other argument at its
    default. *)
Definition defaultLight (lt : string) : result LightSource.t :=
  @LightSource.__init__ rgb_tools [0; 0; 0] [1; 1; 1] [1; 1; 1] [0; 0; 0]
    "rgb" lt [1; 0; 0].

(** [PhongMaterial()] *)
Definition defaultMaterial : result PhongMaterial.t :=
  @PhongMaterial.__init__ rgb_tools [1 # 2; 1 # 2; 1 # 2] [- (1); - (1); - (1)]
    [- (1); - (1); - (1)] [- (1); - (1); - (1)] 10 "rgb" None 1 1 "front" false.

(** The invariant the spec gives for a material: every cache is the
    device-space form of its source colour, at the present contrast
    and opacity. *)
Definition cachesInSync {C : ColorTools} (m : PhongMaterial.t) : Prop :=
  forall c,
    veq (PhongMaterial.cache c m)
        (deviceSpace (toRGB (PhongMaterial.colorSpace m)
                            (PhongMaterial.sourceColor c m))
                     (PhongMaterial.contrast m) (PhongMaterial.opacity m)).

(** ** Sample objects *)

(** [RigidBodyPose()] *)
Definition identityPose : RigidBodyPose.t :=
  @RigidBodyPose.__init__ rigid_tools [0; 0; 0] [0; 0; 0; 1].

(** A window with one light, [LightSource(win)] with its defaults but
    for the fields the constructor computes. *)
Definition oneLight : LightSource.t :=
  LightSource.mk [0; 0; 0; 1] [1; 1; 1] [1; 1; 1] [0; 0; 0]
    [1; 1; 1; 1] [1; 1; 1; 1] [0; 0; 0; 1] "rgb" "point" [1; 0; 0].

Definition sampleWindow : Window := mkWindow false [oneLight].

(** [BaseRigidBodyStim(win, useShaders=...)] as the constructor leaves
    it: no material, no VAO. *)
Definition unboundStim (useShaders : bool) : BaseRigidBodyStim.t :=
  BaseRigidBodyStim.mk sampleWindow "rgb" 1 1 [0; 0; 0] identityPose
    useShaders None None.

(** The same stimulus once a VAO is attached, as [BoxStim] or
    [PlaneStim] have it with [useMaterial=None]. *)
Definition boundStim (useShaders : bool) (vao : VAO) : BaseRigidBodyStim.t :=
  BaseRigidBodyStim.mk sampleWindow "rgb" 1 1 [0; 0; 0] identityPose
    useShaders None (Some vao).

Definition worldOf (s : BaseRigidBodyStim.t) : BaseRigidBodyStim.world :=
  BaseRigidBodyStim.mkWorld s None [].

(** ** Further notions used in the statements *)

(** Two poses with the same position and orientation, component by
    component; the cached matrices are not compared. *)
Definition samePose (a b : RigidBodyPose.t) : Prop :=
  veq (RigidBodyPose._pos a) (RigidBodyPose._pos b) /\
  veq (RigidBodyPose._ori a) (RigidBodyPose._ori b).

(** The calls [draw] added to the GPU's sequence between two worlds. *)
Definition issued (before after : BaseRigidBodyStim.world) : list glcall :=
  skipn (List.length (BaseRigidBodyStim.gpu before))
        (BaseRigidBodyStim.gpu after).

Definition is_drawVAO (c : glcall) : bool :=
  match c with drawVAO _ => true | _ => false end.

Definition is_matrix_stack (c : glcall) : bool :=
  match c with glPushMatrix | glPopMatrix => true | _ => false end.

(** The directive a line of a material library is taken for, by the
    chain of [startswith] tests of [_loadMtlLib]. *)
Inductive lineKind : Type :=
| NewMtl | Ns | Ks | Kd | Ka | MapKd | Ignored.

Definition classify (line : string) : lineKind :=
  let line := strip line in
  if startswith "newmtl " line then NewMtl
  else if startswith "Ns " line then Ns
  else if startswith "Ks " line then Ks
  else if startswith "Kd " line then Kd
  else if startswith "Ka " line then Ka
  else if startswith "map_Kd " line then MapKd
  else Ignored.

(** The colour a colour directive assigns. *)
Definition colorOf (k : lineKind) : option PhongMaterial.color :=
  match k with
  | Ks => Some PhongMaterial.specular
  | Kd => Some PhongMaterial.diffuse
  | Ka => Some PhongMaterial.ambient
  | _ => None
  end.

(** What a material of a library has kept from its construction by
    [PhongMaterial(self.win)]. *)
Definition asConstructed (m : PhongMaterial.t) : Prop :=
  PhongMaterial.contrast m = 1 /\
  PhongMaterial.opacity m = 1 /\
  PhongMaterial.colorSpace m = "rgb"%string /\
  PhongMaterial._useTextures m = false.

(** What the loop of [_loadMtlLib] keeps true of its locals: the
    current material, once there is one, is in the dictionary; the
    materials are as constructed; every cached texture was opened,
    once. *)
Definition loaderInvariant (st : ObjMeshStim.loader) : Prop :=
  (forall name, ObjMeshStim.thisMaterial st = Some name ->
                sdict_mem name (ObjMeshStim.foundMaterials st) = true) /\
  (forall name m, In (name, m) (ObjMeshStim.foundMaterials st) ->
                  asConstructed m) /\
  NoDup (map fst (ObjMeshStim.foundMaterials st)) /\
  ObjMeshStim.opened st = map fst (ObjMeshStim.foundTextures st) /\
  NoDup (ObjMeshStim.opened st).

(** A material, as [PhongMaterial()] builds it in RGB. *)
Definition sampleMaterial : PhongMaterial.t :=
  match defaultMaterial with
  | Ok m => m
  | Raise _ => PhongMaterial.blank 10 GL_FRONT
  end.

(** A stimulus with a VAO and a material. *)
Definition materialStim (useShaders : bool) (vao : VAO) (w : Window)
  : BaseRigidBodyStim.t :=
  BaseRigidBodyStim.mk w "rgb" 1 1 [0; 0; 0] identityPose
    useShaders (Some sampleMaterial) (Some vao).

(** A reader of plain decimals, [12], [-0.5], [.25], with blanks
    around them, for running the loader; the builtin [float] reads
    these the same way, and more. *)
Definition digit (c : ascii) : option Z :=
  let n := nat_of_ascii c in
  if ((48 <=? n) && (n <=? 57))%nat then Some (Z.of_nat (n - 48)) else None.

Fixpoint read_digits (s : string) (acc : Z) (n : nat) : Z * nat * string :=
  match s with
  | EmptyString => (acc, n, s)
  | String c s' =>
      match digit c with
      | Some d => read_digits s' (acc * 10 + d)%Z (S n)
      | None => (acc, n, s)
      end
  end.

Definition decimal (s : string) : option Q :=
  let s := strip s in
  let '(negative, s) :=
    match s with
    | String "-" s' => (true, s')
    | String "+" s' => (false, s')
    | _ => (false, s)
    end in
  let signed (q : Q) : Q := if negative then - q else q in
  let '(ip, ni, rest) := read_digits s 0%Z 0%nat in
  match rest with
  | EmptyString => if Nat.eqb ni 0 then None else Some (signed (ip # 1))
  | String "." rest' =>
      let '(fp, nf, rest'') := read_digits rest' 0%Z 0%nat in
      match rest'' with
      | EmptyString =>
          if Nat.eqb (ni + nf) 0 then None
          else Some (signed ((ip # 1) + (fp # Z.to_pos (10 ^ Z.of_nat nf))))
      | _ => None
      end
  | _ => None
  end.

(** Textures are named after the length of their file name here. *)
Definition sampleLoader : LoaderTools := {|
  py_float := decimal;
  loadTexture := fun _ name => Ok (String.length name)
|}.

(** A mesh stimulus whose library is what a file with the two
    materials [a] and [b] gives, with a VAO for each. *)
Definition sampleLibrary : sdict PhongMaterial.t :=
  [("a"%string, sampleMaterial); ("b"%string, sampleMaterial)].

Definition meshWorld (useShaders : bool) (mat : ObjMeshStim.materials)
    (vaos : sdict VAO) : ObjMeshStim.world :=
  ObjMeshStim.mkWorld
    (ObjMeshStim.mk sampleWindow identityPose useShaders mat vaos) None [].

(** The calls a run of [ObjMeshStim.draw] added to the GPU's
    sequence. *)
Definition meshIssued (before after : ObjMeshStim.world) : list glcall :=
  skipn (List.length (ObjMeshStim.gpu before)) (ObjMeshStim.gpu after).

(** The calls expected for the groups of a mesh, told without a
    counter: each material is bound, its program used when shaders are
    on, its VAO drawn; after the last one the program is released and
    that material (alone) is cleared. *)
Fixpoint groupCalls (useShaders : bool) (progOf : PhongMaterial.t -> handle)
    (vaoOf : string -> VAO) (items : sdict PhongMaterial.t) : list glcall :=
  match items with
  | [] => []
  | (name, m) :: rest =>
      useMaterial m
        :: (if useShaders then [useProgram (progOf m)] else [])
        ++ drawVAO (vaoOf name)
        :: match rest with
           | [] => (if useShaders then [useProgram 0%nat] else [])
                   ++ [clearMaterial m]
           | _ :: _ => groupCalls useShaders progOf vaoOf rest
           end
  end.

(** The VAO of a material name, and the program of a material for a
    number of lights, as the two dictionaries give them. *)
Definition vaoOf (vaos : sdict VAO) (name : string) : VAO :=
  match sdict_lookup name vaos with
  | Some vao => vao
  | None => 0%nat
  end.

Definition progOf (shaders : dict handle) (nLights : pyval)
    (m : PhongMaterial.t) : handle :=
  match dict_lookup [nLights; PyBool (PhongMaterial._useTextures m)] shaders with
  | Some h => h
  | None => 0%nat
  end.

(** A window without lights. *)
Definition darkWindow : Window := mkWindow false [].

(** The text of a small library: one material, a colour, a shininess. *)
Definition newline : string := String "010" EmptyString.

Definition sampleText : string :=
  String.append "newmtl M"
    (String.append newline
       (String.append "Kd 1 0.5 0"
          (String.append newline (String.append "Ns 32" newline)))).

(** * Properties *)

(** ** The GL object store *)

Lemma gl_lookup_live h st o :
  gl_lookup h st = Some o -> In h (live st).
Proof.
  induction st as [|[h' o'] st IH]; simpl; [discriminate|].
  destruct (Nat.eqb_spec h' h); auto.
Qed.

Lemma gl_lookup_update_same h o o0 st :
  gl_lookup h st = Some o0 -> gl_lookup h (gl_update h o st) = Some o.
Proof.
  induction st as [|[h' o'] st IH]; simpl; [discriminate|].
  destruct (Nat.eqb_spec h' h) as [->|Hne]; simpl.
  - now rewrite Nat.eqb_refl.
  - destruct (Nat.eqb_spec h' h); [contradiction|auto].
Qed.

Lemma gl_lookup_update_other h h' o st :
  h <> h' -> gl_lookup h' (gl_update h o st) = gl_lookup h' st.
Proof.
  intros Hne.
  induction st as [|[k o'] st IH]; simpl; [reflexivity|].
  destruct (Nat.eqb_spec k h) as [->|Hk]; simpl.
  - destruct (Nat.eqb_spec h h'); [contradiction|reflexivity].
  - destruct (Nat.eqb_spec k h'); auto.
Qed.

Lemma gl_lookup_delete_other h h' st :
  h <> h' -> gl_lookup h' (gl_delete h st) = gl_lookup h' st.
Proof.
  intros Hne.
  induction st as [|[k o'] st IH]; simpl; [reflexivity|].
  destruct (Nat.eqb_spec k h) as [->|Hk]; simpl.
  - destruct (Nat.eqb_spec h h'); [contradiction|exact IH].
  - destruct (Nat.eqb_spec k h'); auto.
Qed.

Lemma gl_lookup_cons_other h h' o st :
  h <> h' -> gl_lookup h' ((h, o) :: st) = gl_lookup h' st.
Proof.
  intros Hne. simpl. destruct (Nat.eqb_spec h h'); [contradiction|reflexivity].
Qed.

Lemma gl_lookup_cons_same h o st : gl_lookup h ((h, o) :: st) = Some o.
Proof. simpl. now rewrite Nat.eqb_refl. Qed.

Lemma counting_driver_fresh : fresh_names counting_driver.
Proof.
  intros st. simpl. split; [discriminate|].
  assert (Hmax : forall l h, In h l -> (h <= fold_right Nat.max 0 l)%nat).
  { induction l as [|a l IH]; simpl; [tauto|].
    intros h [->|Hin]; [lia|]. specialize (IH h Hin). lia. }
  intros Hin. apply Hmax in Hin. lia.
Qed.

Lemma counting_driver_builds : builds_everything counting_driver.
Proof. split; reflexivity. Qed.

(** ** Building one program *)

Section BuildProgram.
Context {D : GLDriver} {Src : ShaderSources}.
Hypothesis Hfresh : fresh_names D.
Hypothesis Hbuilds : builds_everything D.

(** One turn of the loop returns a new handle, which names a linked
    program with its shaders released, and leaves every object that was
    live before as it was. *)
Lemma buildProgram_spec flag st :
  exists h st',
    buildProgram flag st = (Ok h, st') /\
    ~ In h (live st) /\
    linked_program st' h /\
    (forall h' o, gl_lookup h' st = Some o -> gl_lookup h' st' = Some o).
Proof.
  destruct Hbuilds as [Hc Hl].
  set (h := newHandle st).
  set (st1 := (h, ProgramObj [] false) :: st).
  set (vs := embedShaderSourceDefs vertPhongLighting (srcDefs flag)).
  set (fs := embedShaderSourceDefs fragPhongLighting (srcDefs flag)).
  set (h2 := newHandle st1).
  set (st2 := (h2, ShaderObj GL_VERTEX_SHADER_ARB vs) :: st1).
  set (h3 := newHandle st2).
  set (st3 := (h3, ShaderObj GL_FRAGMENT_SHADER_ARB fs) :: st2).
  destruct (Hfresh st) as [_ F1]. fold h in F1.
  destruct (Hfresh st1) as [_ F2]. fold h2 in F2.
  destruct (Hfresh st2) as [_ F3]. fold h3 in F3.
  assert (N21 : h2 <> h) by (intros E; apply F2; simpl; auto).
  assert (N2 : ~ In h2 (live st)) by (intros E; apply F2; simpl; auto).
  assert (N32 : h3 <> h2) by (intros E; apply F3; simpl; auto).
  assert (N31 : h3 <> h) by (intros E; apply F3; simpl; auto).
  assert (N3 : ~ In h3 (live st)) by (intros E; apply F3; simpl; auto).
  assert (L3 : gl_lookup h st3 = Some (ProgramObj [] false)).
  { unfold st3, st2, st1.
    rewrite !gl_lookup_cons_other by assumption. apply gl_lookup_cons_same. }
  set (st4 := gl_update h (ProgramObj ([] ++ [h2]) false) st3).
  assert (L4 : gl_lookup h st4 = Some (ProgramObj [h2] false))
    by (eapply gl_lookup_update_same; exact L3).
  set (st5 := gl_update h (ProgramObj ([h2] ++ [h3]) false) st4).
  assert (L5 : gl_lookup h st5 = Some (ProgramObj [h2; h3] false))
    by (eapply gl_lookup_update_same; exact L4).
  set (st6 := gl_update h (ProgramObj [h2; h3] true) st5).
  assert (L6 : gl_lookup h st6 = Some (ProgramObj [h2; h3] true))
    by (eapply gl_lookup_update_same; exact L5).
  set (st7 := gl_update h (ProgramObj [h3] true) st6).
  assert (L7 : gl_lookup h st7 = Some (ProgramObj [h3] true))
    by (eapply gl_lookup_update_same; exact L6).
  set (st8 := gl_update h (ProgramObj [] true) st7).
  assert (L8 : gl_lookup h st8 = Some (ProgramObj [] true))
    by (eapply gl_lookup_update_same; exact L7).
  exists h, (gl_delete h3 (gl_delete h2 st8)).
  split; [|split; [exact F1|split]].
  - unfold buildProgram, bind, createProgramObjectARB, compileShaderObjectARB,
      attachObjectARB, linkProgramObjectARB, detachObjectARB, deleteObjectARB,
      modify, ret.
    fold h. fold st1. fold vs. fold fs. rewrite !Hc. fold h2. fold st2.
    fold h3. fold st3. rewrite L3. fold st4. rewrite L4. fold st5.
    rewrite L5, Hl. fold st6. rewrite L6. simpl filter.
    rewrite Nat.eqb_refl. simpl negb.
    replace (Nat.eqb h3 h2) with false
      by (symmetry; now apply Nat.eqb_neq).
    simpl negb. cbv iota.
    change (gl_update h (ProgramObj [h3] true) st6) with st7.
    rewrite L7. simpl filter.
    rewrite Nat.eqb_refl. simpl negb. cbv iota. reflexivity.
  - unfold linked_program.
    rewrite !gl_lookup_delete_other by assumption. exact L8.
  - intros h' o Hl'.
    assert (In h' (live st)) by (eapply gl_lookup_live; eauto).
    assert (h <> h') by congruence.
    assert (h2 <> h') by congruence.
    assert (h3 <> h') by congruence.
    rewrite !gl_lookup_delete_other by assumption.
    unfold st8, st7, st6, st5, st4.
    rewrite !gl_lookup_update_other by assumption.
    unfold st3, st2, st1.
    rewrite !gl_lookup_cons_other by assumption.
    exact Hl'.
Qed.

End BuildProgram.

(** ** Tuples as keys *)

Lemma py_eqb_refl a : py_eqb a a = true.
Proof. unfold py_eqb. apply Z.eqb_refl. Qed.

Lemma py_eqb_sym a b : py_eqb a b = py_eqb b a.
Proof. unfold py_eqb. apply Z.eqb_sym. Qed.

Lemma tuple_eqb_refl k : tuple_eqb k k = true.
Proof. induction k; simpl; [reflexivity|]. now rewrite py_eqb_refl. Qed.

Lemma tuple_eqb_sym k1 k2 : tuple_eqb k1 k2 = tuple_eqb k2 k1.
Proof.
  revert k2. induction k1 as [|a k1 IH]; intros [|b k2]; simpl; try reflexivity.
  now rewrite py_eqb_sym, IH.
Qed.

Lemma tuple_eqb_trans k1 k2 k3 :
  tuple_eqb k1 k2 = true -> tuple_eqb k2 k3 = true -> tuple_eqb k1 k3 = true.
Proof.
  revert k2 k3.
  induction k1 as [|a k1 IH]; intros [|b k2] [|c k3]; simpl;
    try discriminate; auto.
  rewrite !andb_true_iff. unfold py_eqb. rewrite !Z.eqb_eq.
  intros [E1 H1] [E2 H2]. split; [congruence|eauto].
Qed.

Lemma tuple_eqb_length k1 k2 :
  tuple_eqb k1 k2 = true -> List.length k1 = List.length k2.
Proof.
  revert k2. induction k1 as [|a k1 IH]; intros [|b k2]; simpl;
    try discriminate; auto.
  rewrite andb_true_iff. intros [_ H]. f_equal. auto.
Qed.

Lemma dict_lookup_app {V} k (d1 d2 : dict V) :
  dict_lookup k (d1 ++ d2) =
  match dict_lookup k d1 with
  | Some v => Some v
  | None => dict_lookup k d2
  end.
Proof.
  induction d1 as [|[k' v'] d1 IH]; simpl; [reflexivity|].
  destruct (tuple_eqb k' k); auto.
Qed.

Lemma dict_set_absent {V} k (v : V) d :
  dict_lookup k d = None -> dict_set k v d = d ++ [(k, v)].
Proof.
  induction d as [|[k' v'] d IH]; simpl; [reflexivity|].
  destruct (tuple_eqb k' k); [discriminate|].
  intros H. now rewrite IH.
Qed.

(** A key found in a table equals, as a tuple, one of the stored keys. *)
Lemma dict_lookup_key {V} k (d : dict V) v :
  dict_lookup k d = Some v ->
  exists k', In (k', v) d /\ tuple_eqb k' k = true.
Proof.
  induction d as [|[k' v'] d IH]; simpl; [discriminate|].
  destruct (tuple_eqb k' k) eqn:E.
  - intros [= ->]. exists k'. auto.
  - intros H. destruct (IH H) as (k0 & Hin & Hk). exists k0. auto.
Qed.

(** When the values of a table are pairwise different, two keys that
    reach the same value are the same key. *)
Lemma dict_values_distinct {V} (d : dict V) k1 k2 v :
  NoDup (map snd d) ->
  dict_lookup k1 d = Some v -> dict_lookup k2 d = Some v ->
  tuple_eqb k1 k2 = true.
Proof.
  intros Hnd H1 H2.
  apply dict_lookup_key in H1 as (a & Ha & Ea).
  apply dict_lookup_key in H2 as (b & Hb & Eb).
  assert (a = b) as ->.
  { clear Ea Eb. induction d as [|[k' v'] d IH]; simpl in *; [tauto|].
    inversion Hnd as [|? ? Hnotin Hnd']; subst.
    destruct Ha as [Ha|Ha], Hb as [Hb|Hb].
    - congruence.
    - inversion Ha; subst. exfalso. apply Hnotin.
      change v with (snd (b, v)). now apply in_map.
    - inversion Hb; subst. exfalso. apply Hnotin.
      change v with (snd (a, v)). now apply in_map.
    - auto. }
  eapply tuple_eqb_trans; [|exact Eb]. now rewrite tuple_eqb_sym.
Qed.

Lemma gl_live_lookup h st :
  In h (live st) -> exists o, gl_lookup h st = Some o.
Proof.
  induction st as [|[h' o'] st IH]; simpl; [tauto|].
  destruct (Nat.eqb_spec h' h); eauto.
  intros [E|Hin]; [contradiction|auto].
Qed.

(** ** Filling the table *)

Section FillTable.
Context {D : GLDriver} {Src : ShaderSources}.
Hypothesis Hfresh : fresh_names D.
Hypothesis Hbuilds : builds_everything D.

(** The loop over a list of distinct keys that the table does not have
    yet appends one entry per key, in order; the handles are pairwise
    different linked programs, none of which was live before. *)
Lemma compileShaders_spec flags :
  forall st tbl,
    distinct_keys flags = true ->
    (forall k, In k flags -> dict_lookup k tbl = None) ->
    exists st' hs,
      compileShaders flags (st, tbl) = (Ok tt, (st', tbl ++ combine flags hs)) /\
      List.length hs = List.length flags /\
      NoDup hs /\
      Forall (linked_program st') hs /\
      Forall (fun h => ~ In h (live st)) hs /\
      (forall h o, gl_lookup h st = Some o -> gl_lookup h st' = Some o).
Proof.
  induction flags as [|k flags IH]; intros st tbl Hd Habs.
  - exists st, []. simpl. rewrite app_nil_r.
    repeat split; auto; constructor.
  - simpl in Hd. apply andb_true_iff in Hd as [Hk Hd].
    apply negb_true_iff in Hk.
    destruct (buildProgram_spec Hfresh Hbuilds k st)
      as (h & st1 & Hbp & Hnew & Hlinked & Hkeep).
    assert (Hset : dict_set k h tbl = tbl ++ [(k, h)])
      by (apply dict_set_absent, Habs; simpl; auto).
    destruct (IH st1 (tbl ++ [(k, h)]) Hd) as (st' & hs & Hrun & Hlen & Hnd & Hl & Hn & Hkeep').
    { intros k' Hin. rewrite dict_lookup_app, Habs by (simpl; auto).
      simpl. destruct (tuple_eqb k k') eqn:E; [|reflexivity].
      exfalso. rewrite <- not_true_iff_false in Hk. apply Hk.
      apply existsb_exists. eauto. }
    exists st', (h :: hs).
    split; [|split; [|split; [|split; [|split]]]].
    + unfold compileShaders in *. simpl for_each.
      unfold bind at 1. unfold bind at 1. unfold lift_gl at 1.
      simpl fst. rewrite Hbp. unfold modify at 1. simpl fst. simpl snd.
      rewrite Hset, Hrun. simpl combine. now rewrite <- app_assoc.
    + simpl. now rewrite Hlen.
    + constructor; [|exact Hnd].
      intros Hin. rewrite Forall_forall in Hn. apply (Hn h Hin).
      eapply gl_lookup_live. exact Hlinked.
    + constructor; [|exact Hl]. apply Hkeep'. exact Hlinked.
    + constructor; [exact Hnew|].
      rewrite Forall_forall in *. intros h' Hin Hlive.
      apply gl_live_lookup in Hlive as [o Ho].
      apply (Hn h' Hin). eapply gl_lookup_live. apply Hkeep. exact Ho.
    + intros h' o Ho. apply Hkeep', Hkeep, Ho.
Qed.

End FillTable.

(** ** The table after import *)

Lemma shaderFlags_distinct : distinct_keys shaderFlags = true.
Proof. vm_compute. reflexivity. Qed.

Lemma shaderFlags_shape k :
  In k shaderFlags <->
  exists n t, (1 <= n <= MAX_LIGHTS)%Z /\ k = [PyInt n; PyBool t].
Proof.
  unfold shaderFlags, product1, range, MAX_LIGHTS.
  rewrite in_flat_map. split.
  - intros (i & Hi & Hk).
    rewrite in_map_iff in Hi. destruct Hi as (j & <- & Hj).
    rewrite in_seq in Hj.
    rewrite in_map_iff in Hk. destruct Hk as (p & <- & Hp).
    rewrite in_map_iff in Hp. destruct Hp as (b & <- & Hb).
    simpl in Hb.
    destruct Hb as [<-|[<-|[]]]; eexists; eexists; (split; [|reflexivity]);
      simpl in Hj; lia.
  - intros (n & t & Hn & ->).
    exists n. split.
    + rewrite in_map_iff. exists (Z.to_nat (n - 1)). split; [lia|].
      rewrite in_seq. simpl. lia.
    + rewrite in_map_iff. exists [PyBool t]. split; [reflexivity|].
      rewrite in_map_iff. exists (PyBool t). split; [reflexivity|].
      destruct t; simpl; auto.
Qed.

Lemma map_fst_combine {A B} (l : list A) (l' : list B) :
  List.length l' = List.length l -> map fst (combine l l') = l.
Proof.
  revert l'. induction l as [|a l IH]; intros [|b l']; simpl;
    try discriminate; auto.
  intros [= H]. f_equal. auto.
Qed.

Lemma map_snd_combine {A B} (l : list A) (l' : list B) :
  List.length l' = List.length l -> map snd (combine l l') = l'.
Proof.
  revert l'. induction l as [|a l IH]; intros [|b l']; simpl;
    try discriminate; auto.
  intros [= H]. f_equal. auto.
Qed.

(** In a table whose keys are pairwise different, every listed key is
    found, with the value listed next to it. *)
Lemma dict_lookup_combine {V} (ks : list tuple) (vs : list V) k :
  List.length vs = List.length ks ->
  In k ks ->
  exists v, dict_lookup k (combine ks vs) = Some v /\ In v vs.
Proof.
  revert vs. induction ks as [|a ks IH]; intros [|v vs]; simpl;
    try discriminate; try tauto.
  intros [= Hlen] Hin.
  destruct (tuple_eqb a k) eqn:E; [eauto|].
  destruct Hin as [->|Hin]; [now rewrite tuple_eqb_refl in E|].
  destruct (IH vs Hlen Hin) as (v' & Hv & Hin'). eauto.
Qed.

(** C9.  After the module body has run on a context whose driver hands
    out fresh names and builds every variant, [_material_shaders_] has
    exactly [MAX_LIGHTS * 2] entries: every key [(n, t)] with
    [1 <= n <= MAX_LIGHTS] is present and maps to a linked program, no
    other key is present, and different keys map to different
    handles. *)
Theorem shader_table_fully_populated
    {D : GLDriver} {Src : ShaderSources} (st0 : glstate) :
  fresh_names D ->
  builds_everything D ->
  exists st',
    module_init st0 = (Ok tt, (st', _material_shaders_ st0)) /\
    List.length (_material_shaders_ st0) = Z.to_nat (MAX_LIGHTS * 2) /\
    (forall n t, (1 <= n <= MAX_LIGHTS)%Z ->
       exists h, dict_get [PyInt n; PyBool t] (_material_shaders_ st0) = Ok h /\
                 linked_program st' h) /\
    (forall k, In k (map fst (_material_shaders_ st0)) ->
       exists n t, (1 <= n <= MAX_LIGHTS)%Z /\ k = [PyInt n; PyBool t]) /\
    NoDup (map snd (_material_shaders_ st0)) /\
    (forall k1 k2 h,
       dict_get k1 (_material_shaders_ st0) = Ok h ->
       dict_get k2 (_material_shaders_ st0) = Ok h ->
       tuple_eqb k1 k2 = true).
Proof.
  intros Hfresh Hbuilds.
  destruct (compileShaders_spec Hfresh Hbuilds shaderFlags st0 []
              shaderFlags_distinct (fun _ _ => eq_refl))
    as (st' & hs & Hrun & Hlen & Hnd & Hl & _ & _).
  change ([] ++ combine shaderFlags hs) with (combine shaderFlags hs) in Hrun.
  assert (Htbl : _material_shaders_ st0 = combine shaderFlags hs).
  { exact (f_equal (fun x => snd (snd x)) Hrun). }
  exists st'. rewrite Htbl.
  split; [exact Hrun|].
  split; [rewrite length_combine, Hlen, Nat.min_id; reflexivity|].
  split; [|split; [|split]].
  - intros n t Hn.
    destruct (@dict_lookup_combine handle shaderFlags hs [PyInt n; PyBool t] Hlen)
      as (h & Hh & Hin).
    { apply shaderFlags_shape. eauto. }
    exists h. unfold dict_get. rewrite Hh. split; [reflexivity|].
    rewrite Forall_forall in Hl. auto.
  - rewrite map_fst_combine by exact Hlen.
    intros k Hk. now apply shaderFlags_shape.
  - now rewrite map_snd_combine.
  - intros k1 k2 h H1 H2. unfold dict_get in *.
    destruct (dict_lookup k1 _) eqn:E1; [|discriminate].
    destruct (dict_lookup k2 _) eqn:E2; [|discriminate].
    injection H1 as ->. injection H2 as ->.
    eapply dict_values_distinct; eauto.
    now rewrite map_snd_combine.
Qed.

(** The theorem is not vacuous: the counting driver satisfies both
    hypotheses, on the empty context. *)
Lemma shader_table_fully_populated_witness :
  fresh_names counting_driver /\ builds_everything counting_driver /\
  exists st',
    @module_init counting_driver plain_sources [] =
      (Ok tt, (st', @_material_shaders_ counting_driver plain_sources [])) /\
    List.length (@_material_shaders_ counting_driver plain_sources []) = 16%nat.
Proof.
  split; [exact counting_driver_fresh|].
  split; [exact counting_driver_builds|].
  destruct (@shader_table_fully_populated counting_driver plain_sources []
              counting_driver_fresh counting_driver_builds)
    as (st' & H1 & H2 & _).
  exists st'. split; [exact H1|exact H2].
Defined.

(** ** Drawing *)

Lemma dict_set_keys {V} k (v : V) d :
  incl (map fst (dict_set k v d)) (map fst d ++ [k]).
Proof.
  induction d as [|[k' v'] d IH]; simpl.
  - apply incl_refl.
  - destruct (tuple_eqb k' k); simpl.
    + apply incl_cons; [simpl; auto|].
      apply incl_tl, incl_appl, incl_refl.
    + apply incl_cons; [simpl; auto|]. now apply incl_tl.
Qed.

(** Whatever the driver does, and whether or not the import succeeds,
    the loop only ever stores keys taken from its list of flags. *)
Lemma compileShaders_keys {D : GLDriver} {Src : ShaderSources} flags :
  forall st tbl,
    incl (map fst (snd (snd (compileShaders flags (st, tbl)))))
         (map fst tbl ++ flags).
Proof.
  induction flags as [|k flags IH]; intros st tbl.
  - simpl. rewrite app_nil_r. apply incl_refl.
  - unfold compileShaders in *. simpl for_each.
    unfold bind at 1. unfold bind at 1. unfold lift_gl at 1. simpl fst.
    destruct (buildProgram k st) as [[h|e] st1]; simpl snd.
    + unfold modify at 1. simpl fst. simpl snd.
      eapply incl_tran; [apply IH|].
      apply incl_app.
      * eapply incl_tran; [apply dict_set_keys|].
        apply incl_app; [apply incl_appl, incl_refl|].
        apply incl_appr. intros x [<-|[]]. simpl; auto.
      * apply incl_appr, incl_tl, incl_refl.
    + simpl. apply incl_appl, incl_refl.
Qed.

(** Every key of [_material_shaders_] is a pair. *)
Lemma material_shaders_keys_are_pairs
    {D : GLDriver} {Src : ShaderSources} st0 k :
  In k (map fst (_material_shaders_ st0)) -> List.length k = 2%nat.
Proof.
  intros Hin.
  apply (compileShaders_keys shaderFlags st0 []) in Hin. simpl in Hin.
  apply shaderFlags_shape in Hin as (n & t & _ & ->). reflexivity.
Qed.

Lemma dict_get_wrong_arity {V} (d : dict V) k n :
  (forall k', In k' (map fst d) -> List.length k' = n) ->
  List.length k <> n ->
  dict_get k d = Raise KeyError.
Proof.
  intros Hkeys Hk. unfold dict_get.
  destruct (dict_lookup k d) as [v|] eqn:E; [|reflexivity].
  apply dict_lookup_key in E as (k' & Hin & Heq).
  exfalso. apply Hk. rewrite <- (Hkeys k').
  - symmetry. now apply tuple_eqb_length.
  - change k' with (fst (k', v)). now apply in_map.
Qed.

Section DrawFacts.
Context {D : GLDriver} {Src : ShaderSources} {MT : MathTools} {C : ColorTools}.

Import BaseRigidBodyStim.

(** Reading [thePose.modelMatrix] never raises. *)
Lemma modelMatrix_ok (p : RigidBodyPose.t) :
  exists m p', RigidBodyPose.modelMatrix p = (Ok m, p').
Proof.
  destruct p as [p q m im [|] ifl n];
    unfold RigidBodyPose.modelMatrix, RigidBodyPose.getModelMatrix, bind, get,
      modify, ret; simpl; eauto.
Qed.

(** C1.  A stimulus with a VAO, no material and [_useShaders] set looks
    the table up with the three-component key [(nLights, False, False)];
    the table only has pairs, so [draw] raises [KeyError], whatever the
    number of lights and whatever the driver built. *)
Theorem draw_flat_shaded_raises_KeyError (st0 : glstate) (x : world) (vao : VAO) :
  _vao (self x) = Some vao ->
  material (self x) = None ->
  _useShaders (self x) = true ->
  fst (draw (_material_shaders_ st0) x) = Raise KeyError.
Proof.
  intros Hvao Hmat Hsh.
  unfold draw. unfold bind at 1. unfold get at 1. rewrite Hvao.
  unfold bind at 1. unfold set_draw3d at 1, modify at 1.
  unfold bind at 1. unfold gl at 1, modify at 1.
  unfold bind at 1. unfold on_pose at 1.
  match goal with
  | |- context [RigidBodyPose.modelMatrix ?p] =>
      destruct (modelMatrix_ok p) as (m & p' & ->)
  end.
  unfold bind at 1. unfold gl at 1, modify at 1.
  unfold bind at 1. unfold get at 1.
  cbn [self with_pose material _useShaders rgb colorSpace contrast
       with_win argwin].
  assert (Hmat' : forall w, material (with_pose p' w) = material w)
    by reflexivity.
  assert (Hsh' : forall w, _useShaders (with_pose p' w) = _useShaders w)
    by reflexivity.
  destruct (argwin x) as [aw|];
    cbn [self with_pose material _useShaders rgb colorSpace contrast
         with_win argwin];
    rewrite Hmat, Hsh;
    destruct (_getDesiredRGB _ _ _) as [[r g] b];
    unfold bind at 1; unfold bind at 1; unfold lookup_shader at 1;
    (rewrite (@dict_get_wrong_arity handle _ _ 2%nat);
     [reflexivity
     |intros k' Hk'; eapply material_shaders_keys_are_pairs; exact Hk'
     |simpl; discriminate]).
Qed.

(** C10.  With no VAO attached, [draw] returns normally and leaves the
    whole world as it was: the stimulus, its window, the window passed
    as argument, and the GPU, which received no call. *)
Theorem draw_unbound_is_noop (shaders : dict handle) (x : world) :
  _vao (self x) = None ->
  draw shaders x = (Ok tt, x).
Proof.
  intros Hvao. unfold draw, bind, get. now rewrite Hvao.
Qed.

End DrawFacts.

Lemma draw_flat_shaded_raises_KeyError_witness :
  fst (@BaseRigidBodyStim.draw rigid_tools rgb_tools
         (@_material_shaders_ counting_driver plain_sources [])
         (worldOf (boundStim true 1%nat))) = Raise KeyError.
Proof.
  apply (@draw_flat_shaded_raises_KeyError counting_driver plain_sources
           rigid_tools rgb_tools [] (worldOf (boundStim true 1%nat)) 1%nat);
    reflexivity.
Defined.

Lemma draw_unbound_is_noop_witness :
  @BaseRigidBodyStim.draw rigid_tools rgb_tools
     (@_material_shaders_ counting_driver plain_sources [])
     (worldOf (unboundStim true))
  = (Ok tt, worldOf (unboundStim true)).
Proof.
  apply (@draw_unbound_is_noop rigid_tools rgb_tools); reflexivity.
Defined.

(** ** Poses: the matrix cache *)

Lemma length_flat_size a : List.length (flat a) = size a.
Proof.
  destruct a as [v|rows]; simpl; [reflexivity|].
  induction rows as [|r rows IH]; simpl; [reflexivity|].
  now rewrite length_app, IH.
Qed.

(** [bool(a)] raises as soon as the array has two elements. *)
Lemma ndarray_truth_ambiguous a :
  (2 <= size a)%nat -> ndarray_truth a = Raise ValueError.
Proof.
  rewrite <- length_flat_size. unfold ndarray_truth.
  destruct (flat a) as [|x [|y l]]; simpl; try lia. reflexivity.
Qed.

Section PoseCache.
Context {MT : MathTools}.

Import RigidBodyPose.

(** C3.  A call of [getModelMatrix] leaves the pose clean for the
    matrix it returned: the same call made again returns the same
    matrix and changes nothing, so it computes nothing; the first call
    computes at most one matrix (two when the inverse is asked for:
    the forward matrix, then its inverse).  Assigning [pos] or [ori]
    raises both flags, and the next [getModelMatrix()] computes the
    matrix of the new value, once. *)
Theorem getModelMatrix_cache_hit (inverse : bool) (p : t) :
  (exists m p1,
     getModelMatrix inverse p = (Ok m, p1) /\
     getModelMatrix inverse p1 = (Ok m, p1) /\
     (computed p <= computed p1)%nat /\
     (computed p1 <= computed p + (if inverse then 2 else 1))%nat) /\
  (forall v,
     let p' := snd (set_pos v p) in
     _matrixNeedsUpdate p' = true /\ _invMatrixNeedsUpdate p' = true /\
     exists p2,
       getModelMatrix false p' = (Ok (posOriToMatrix v (_ori p)), p2) /\
       computed p2 = S (computed p)) /\
  (forall v,
     let p' := snd (set_ori v p) in
     _matrixNeedsUpdate p' = true /\ _invMatrixNeedsUpdate p' = true /\
     exists p2,
       getModelMatrix false p' = (Ok (posOriToMatrix (_pos p) v), p2) /\
       computed p2 = S (computed p)).
Proof.
  destruct p as [ps q m im f fi n].
  split; [|split].
  - destruct inverse, f, fi;
      unfold getModelMatrix, bind, get, modify, ret; simpl;
      eexists; eexists; (split; [reflexivity|]);
      (split; [reflexivity|]); simpl; lia.
  - intros v. simpl. repeat split.
    unfold getModelMatrix, bind, get, modify, ret; simpl.
    eexists. split; reflexivity.
  - intros v. simpl. repeat split.
    unfold getModelMatrix, bind, get, modify, ret; simpl.
    eexists. split; reflexivity.
Qed.

(** The property tests the array [_invModelMatrix] instead of the flag
    [_invMatrixNeedsUpdate]: on any array of two elements or more the
    test itself raises. *)
Lemma inverseModelMatrix_raises (p : t) :
  (2 <= size (_invModelMatrix p))%nat ->
  inverseModelMatrix p = (Raise ValueError, p).
Proof.
  intros H. unfold inverseModelMatrix, bind, get, lift.
  now rewrite ndarray_truth_ambiguous.
Qed.

(** C4.  Reading [inverseModelMatrix] on a pose as its constructor
    leaves it raises [ValueError], and so it does after [pos] or [ori]
    has been assigned: no matrix is returned. *)
Theorem inverseModelMatrix_fresh_pose_raises (pos ori : list Q) :
  inverseModelMatrix (__init__ pos ori) = (Raise ValueError, __init__ pos ori) /\
  (forall v,
     fst (inverseModelMatrix (snd (set_pos v (__init__ pos ori))))
       = Raise ValueError) /\
  (forall v,
     fst (inverseModelMatrix (snd (set_ori v (__init__ pos ori))))
       = Raise ValueError).
Proof.
  split; [|split]; intros;
    rewrite inverseModelMatrix_raises; simpl; auto.
Qed.

(** ** Poses: comparison *)

Lemma zipWith_length {A B C} (f : A -> B -> C) a b :
  List.length a = List.length b ->
  List.length (zipWith f a b) = List.length a.
Proof.
  revert b. induction a as [|x a IH]; intros [|y b]; simpl;
    try discriminate; auto.
Qed.

(** C8.  On two poses whose positions are 3-vectors, [isEqual] raises
    [ValueError]: [np.isclose] gives an array of three booleans, and
    [and] asks for its truth value. *)
Theorem isEqual_raises_on_vec3 (a b : t) :
  List.length (_pos a) = 3%nat ->
  List.length (_pos b) = 3%nat ->
  isEqual a b = Raise ValueError.
Proof.
  intros Ha Hb. unfold isEqual, isclose, broadcast2, pos.
  rewrite Ha, Hb. simpl.
  destruct (_pos a) as [|x1 [|x2 [|x3 [|]]]]; try discriminate.
  destruct (_pos b) as [|y1 [|y2 [|y3 [|]]]]; try discriminate.
  reflexivity.
Qed.

End PoseCache.

Lemma isEqual_raises_on_vec3_witness :
  @RigidBodyPose.isEqual identityPose identityPose = Raise ValueError.
Proof.
  apply isEqual_raises_on_vec3; reflexivity.
Defined.

(** ** Poses: composition with the inverse *)

(** In binary32 a number and its opposite add up to [+0] when the
    number is finite, and to NaN when it is an infinity or NaN; the
    order of the two does not matter. *)
Lemma add_neg_self (x : Float32.float) :
  Float32.add (Float32.neg x) x
    = (if Float32.is_finite x then Float32.zero else Float32.nan) /\
  Float32.add x (Float32.neg x)
    = (if Float32.is_finite x then Float32.zero else Float32.nan).
Proof.
  destruct x as [[|]|[|]| |s m e]; try (split; reflexivity).
  unfold Float32.add, Float32.neg, SpecFloat.SFadd, SpecFloat.SFopp.
  cbn [Float32.is_finite].
  rewrite Z.min_id. unfold SpecFloat.shl_align. rewrite Z.sub_diag.
  cbn [fst].
  destruct s; cbn [negb SpecFloat.cond_Zopp]; split;
    rewrite ?Z.add_opp_diag_l, ?Z.add_opp_diag_r; reflexivity.
Qed.

Section PoseAlgebra.
Context {MT : Float32.MathTools}.

Import Float32 Float32.RigidBodyPose.

(** C2, as the code has it in [float32].  For a position [p] whose
    three components are finite once cast to [float32], and any
    orientation [q] on which the quaternion routines return: [~P]
    exists, and both [~P * P] and [P * ~P] are poses whose position is
    exactly [(0, 0, 0)]; their orientation is what [mt.multQuat]
    returns for [q] and [mt.invertQuat(q)], cast to [float32].  So such
    a product is approximately the identity pose exactly when that
    quaternion is within tolerance of [(0, 0, 0, 1)]. *)
Theorem pose_times_inverse_in_float32 (p q qi ql qr : array_like) :
  List.length (ascontiguousarray p) = 3%nat ->
  forallb is_finite (ascontiguousarray p) = true ->
  invertQuat (ascontiguousarray q) = Ok qi ->
  multQuat (ascontiguousarray qi) (ascontiguousarray q) = Ok ql ->
  multQuat (ascontiguousarray q) (ascontiguousarray qi) = Ok qr ->
  exists Pinv l r,
    __invert__ (__init__ p q) = Ok Pinv /\
    __mul__ Pinv (__init__ p q) = Ok l /\
    __mul__ (__init__ p q) Pinv = Ok r /\
    pos l = [zero; zero; zero] /\
    ori l = ascontiguousarray ql /\
    pos r = [zero; zero; zero] /\
    ori r = ascontiguousarray qr /\
    approxIdentity l = allclose (ascontiguousarray ql) [0; 0; 0; 1] /\
    approxIdentity r = allclose (ascontiguousarray qr) [0; 0; 0; 1].
Proof.
  intros Hlen Hfin Hinv Hl Hr.
  assert (Hori : _ori (__init__ p q) = ascontiguousarray q) by reflexivity.
  assert (Hpos : _pos (__init__ p q) = ascontiguousarray p) by reflexivity.
  destruct (ascontiguousarray p) as [|a [|b [|c [|]]]];
    try discriminate.
  cbn [forallb] in Hfin.
  apply andb_prop in Hfin as [Ha Hfin].
  apply andb_prop in Hfin as [Hb Hfin].
  apply andb_prop in Hfin as [Hc _].
  destruct (add_neg_self a) as [La Ra]. rewrite Ha in La, Ra.
  destruct (add_neg_self b) as [Lb Rb]. rewrite Hb in Lb, Rb.
  destruct (add_neg_self c) as [Lc Rc]. rewrite Hc in Lc, Rc.
  exists (__init__ (float32s [neg a; neg b; neg c]) qi).
  exists (__init__ (float32s [zero; zero; zero]) ql).
  exists (__init__ (float32s [zero; zero; zero]) qr).
  split.
  { unfold __invert__. rewrite Hpos, Hori, Hinv. reflexivity. }
  split.
  { unfold __mul__, pos, ori. rewrite Hpos, Hori.
    change (_ori (__init__ (float32s [neg a; neg b; neg c]) qi))
      with (ascontiguousarray qi).
    change (_pos (__init__ (float32s [neg a; neg b; neg c]) qi))
      with [neg a; neg b; neg c].
    rewrite Hl.
    cbn [np_add broadcast List.length Nat.eqb zipWith rbind].
    rewrite La, Lb, Lc. reflexivity. }
  split.
  { unfold __mul__, pos, ori. rewrite Hpos, Hori.
    change (_ori (__init__ (float32s [neg a; neg b; neg c]) qi))
      with (ascontiguousarray qi).
    change (_pos (__init__ (float32s [neg a; neg b; neg c]) qi))
      with [neg a; neg b; neg c].
    rewrite Hr.
    cbn [np_add broadcast List.length Nat.eqb zipWith rbind].
    rewrite Ra, Rb, Rc. reflexivity. }
  repeat split.
Qed.

End PoseAlgebra.

Lemma pose_times_inverse_in_float32_witness :
  exists Pinv l r,
    @Float32.RigidBodyPose.__invert__ hamilton32 tiltedPose = Ok Pinv /\
    @Float32.RigidBodyPose.__mul__ hamilton32 Pinv tiltedPose = Ok l /\
    @Float32.RigidBodyPose.__mul__ hamilton32 tiltedPose Pinv = Ok r /\
    Float32.RigidBodyPose.pos l
      = [Float32.zero; Float32.zero; Float32.zero] /\
    Float32.RigidBodyPose.pos r
      = [Float32.zero; Float32.zero; Float32.zero] /\
    approxIdentity l = true /\
    approxIdentity r = true.
Proof.
  destruct (@pose_times_inverse_in_float32 hamilton32
              (Float32.floats [Float32.py_float 1; Float32.py_float 2;
                               Float32.py_float 3])
              (Float32.floats [Float32.py_ratio 3 5; Float32.py_float 0;
                               Float32.py_ratio 4 5; Float32.py_float 0])
              (Float32.float32s
                 [Float32.div
                    (Float32.neg (Float32.to_float32 (Float32.py_ratio 3 5)))
                    Float32.one;
                  Float32.neg Float32.zero;
                  Float32.div
                    (Float32.neg (Float32.to_float32 (Float32.py_ratio 4 5)))
                    Float32.one;
                  Float32.zero])
              (Float32.float32s
                 [Float32.zero; Float32.zero; Float32.zero; Float32.one])
              (Float32.float32s
                 [Float32.zero; Float32.zero; Float32.zero; Float32.one]))
    as (Pinv & l & r & H1 & H2 & H3 & H4 & _ & H5 & _ & H6 & H7);
    [reflexivity | reflexivity | vm_compute; reflexivity
    | vm_compute; reflexivity | vm_compute; reflexivity |].
  exists Pinv, l, r.
  exact (conj H1 (conj H2 (conj H3 (conj H4 (conj H5 (conj H6 H7)))))).
Defined.

(** The position does not cancel when a component overflows
    [float32]: [RigidBodyPose((1e39, 0., 0.))] holds [inf] there, the
    inverse holds [-inf], and their sum is NaN in either order, which
    is close to nothing.  The orientation is the identity. *)
Lemma pose_times_inverse_overflow_counterexample :
  exists Pinv l r,
    @Float32.RigidBodyPose.__invert__ hamilton32 overflowPose = Ok Pinv /\
    @Float32.RigidBodyPose.__mul__ hamilton32 Pinv overflowPose = Ok l /\
    @Float32.RigidBodyPose.__mul__ hamilton32 overflowPose Pinv = Ok r /\
    Float32.RigidBodyPose.pos overflowPose
      = [Float32.inf; Float32.zero; Float32.zero] /\
    Float32.RigidBodyPose.pos l
      = [Float32.nan; Float32.zero; Float32.zero] /\
    Float32.RigidBodyPose.pos r
      = [Float32.nan; Float32.zero; Float32.zero] /\
    allclose (Float32.RigidBodyPose.ori l) [0; 0; 0; 1] = true /\
    allclose (Float32.RigidBodyPose.ori r) [0; 0; 0; 1] = true /\
    approxIdentity l = false /\
    approxIdentity r = false.
Proof.
  do 3 eexists.
  split; [vm_compute; reflexivity|].
  split; [vm_compute; reflexivity|].
  split; [vm_compute; reflexivity|].
  repeat split; vm_compute; reflexivity.
Qed.

(** ** Light sources *)

Lemma veq_refl a : veq a a.
Proof. induction a; constructor; [reflexivity|assumption]. Qed.

(** Refute a component-wise equality between two explicit arrays: walk
    down the lists to a pair of components that differ. *)
Ltac veq_absurd H :=
  vm_compute in H;
  repeat match goal with
  | H' : Forall2 _ (_ :: _) (_ :: _) |- _ =>
      let E := fresh "E" in
      inversion H' as [|? ? ? ? E ?]; subst; clear H'; try discriminate E
  end.

Section LightFacts.
Context {C : ColorTools}.

Import LightSource.

(** The setter of [lightType] does what its three branches say: it
    forces [w] to 1 for ['point'], to 0 for ['directional'], and raises
    for anything else (after it has stored the value). *)
Lemma set_lightType_spec (value : string) (s : t) :
  List.length (_pos s) = 4%nat ->
  (value = "point"%string ->
     exists s', set_lightType value s = (Ok tt, s') /\ w s' = 1) /\
  (value = "directional"%string ->
     exists s', set_lightType value s = (Ok tt, s') /\ w s' = 0) /\
  (value <> "point"%string -> value <> "directional"%string ->
     set_lightType value s = (Raise ValueError, with_lightType value s)).
Proof.
  intros Hlen.
  destruct s as [p dc sc ac dr sr ar cs lt k]. simpl in Hlen.
  destruct p as [|a [|b [|c [|d [|]]]]]; try discriminate.
  split; [|split].
  - intros ->. eexists. split; reflexivity.
  - intros ->. eexists. split; reflexivity.
  - intros H1 H2.
    unfold set_lightType, bind, modify, get, raise. simpl.
    destruct (String.eqb_spec value "point"); [contradiction|].
    destruct (String.eqb_spec value "directional"); [contradiction|].
    reflexivity.
Qed.

(** The two setters that the ambient one is a copy of.  A triple
    assigned to [diffuseRGB] or [specularRGB] is cached as
    [(v + 1) / 2] on each channel, that is the device-space form at
    contrast 1, and the alpha is the constant 1. *)
Lemma light_diffuse_specular_cache (v : list Q) (s : t) :
  List.length v = 3%nat ->
  (exists s',
     set_diffuseRGB v s = (Ok tt, s') /\
     veq (_diffuseRGB s') (deviceSpace v 1 1) /\
     _diffuseRGB s' = map (fun x => (x + 1) / 2) v ++ [1]) /\
  (exists s',
     set_specularRGB v s = (Ok tt, s') /\
     veq (_specularRGB s') (deviceSpace v 1 1) /\
     _specularRGB s' = map (fun x => (x + 1) / 2) v ++ [1]).
Proof.
  intros Hv.
  destruct v as [|a [|b [|c [|]]]]; try discriminate.
  split; eexists; (split; [reflexivity|]); (split; [|reflexivity]);
    simpl; unfold deviceSpace; simpl;
    repeat constructor; field.
Qed.

(** C7, the constructor.  [__init__] stores [lightType] without going
    through the setter: a value other than ['point'] is accepted as it
    is, and the light is built with [w = 0]. *)
Theorem light_init_accepts_any_lightType (lt : string) :
  lt <> "point"%string ->
  exists s,
    defaultLight lt = Ok s /\
    _lightType s = lt /\
    w s = 0.
Proof.
  intros H. unfold defaultLight, __init__, __init__body.
  unfold bind, modify, get, set_diffuseColor, set_specularColor,
    set_ambientColor, setColor, set_pos, bind, modify, get, ret. simpl.
  destruct (String.eqb_spec lt "point"); [contradiction|].
  eexists. split; [reflexivity|]. split; reflexivity.
Qed.

End LightFacts.

(** C6, the defect.  [LightSource(win)] with its defaults, then the
    triple [(1, 0, -1)] assigned to each of the three colours.  The
    diffuse and the specular cache hold the device-space form of the
    triple, [(1, 0.5, 0, 1)]; the ambient cache holds
    [(0.5, 0, -0.5, 1)], half the triple, which is not its device-space
    form.  The constructor itself has already cached the default
    ambient colour [(0, 0, 0)] as [(0, 0, 0, 1)] and not as
    [(0.5, 0.5, 0.5, 1)].  The alpha of every cache is 1. *)
Theorem light_ambient_cache_misses_device_space :
  exists s sd ss sa,
    defaultLight "point" = Ok s /\
    LightSource._ambientColor s = [0; 0; 0] /\
    veq (LightSource._ambientRGB s) [0; 0; 0; 1] /\
    ~ veq (LightSource._ambientRGB s) (deviceSpace [0; 0; 0] 1 1) /\
    @LightSource.set_diffuseColor rgb_tools [1; 0; - (1)] s = (Ok tt, sd) /\
    veq (LightSource._diffuseRGB sd) (deviceSpace [1; 0; - (1)] 1 1) /\
    @LightSource.set_specularColor rgb_tools [1; 0; - (1)] s = (Ok tt, ss) /\
    veq (LightSource._specularRGB ss) (deviceSpace [1; 0; - (1)] 1 1) /\
    @LightSource.set_ambientColor rgb_tools [1; 0; - (1)] s = (Ok tt, sa) /\
    veq (LightSource._ambientRGB sa) [1 # 2; 0; - (1 # 2); 1] /\
    ~ veq (LightSource._ambientRGB sa) (deviceSpace [1; 0; - (1)] 1 1).
Proof.
  do 4 eexists.
  split; [reflexivity|]. split; [reflexivity|].
  split; [repeat constructor; reflexivity|].
  split; [intros H; veq_absurd H|].
  split; [reflexivity|].
  split; [repeat constructor; vm_compute; reflexivity|].
  split; [reflexivity|].
  split; [repeat constructor; vm_compute; reflexivity|].
  split; [reflexivity|].
  split; [repeat constructor; vm_compute; reflexivity|].
  intros H; veq_absurd H.
Qed.

Lemma light_init_accepts_any_lightType_witness :
  exists s,
    defaultLight "spot" = Ok s /\
    LightSource._lightType s = "spot"%string /\
    LightSource.w s = 0.
Proof.
  apply light_init_accepts_any_lightType. discriminate.
Defined.

(** ** Materials *)

Section MaterialFacts.
Context {C : ColorTools}.

Import PhongMaterial.

(** Assigning a source colour recomputes its own cache from the
    converted value, at the contrast and opacity of that moment, and
    touches neither the other caches nor contrast and opacity. *)
Lemma set_color_spec (c : color) (v : list Q) (m : t) :
  List.length (toRGB (colorSpace m) v) = 3%nat ->
  exists m',
    set_color c v m = (Ok tt, m') /\
    cache c m' = deviceSpace (toRGB (colorSpace m) v) (contrast m) (opacity m) /\
    sourceColor c m' = v /\
    opacity m' = opacity m /\
    contrast m' = contrast m /\
    colorSpace m' = colorSpace m /\
    (forall c', c' <> c ->
       cache c' m' = cache c' m /\ sourceColor c' m' = sourceColor c' m).
Proof.
  intros Hlen.
  unfold set_color, setColor, set_RGB, bind, modify, get, lift.
  cbn [colorSpace with_sourceColor with_cache contrast opacity].
  destruct (toRGB (colorSpace m) v) as [|x [|y [|z [|]]]] eqn:E;
    try discriminate.
  eexists. split; [reflexivity|].
  destruct c; (split; [reflexivity|]); (split; [reflexivity|]);
    (split; [reflexivity|]); (split; [reflexivity|]);
    (split; [reflexivity|]);
    intros [] Hne; try contradiction; split; reflexivity.
Qed.

(** C5, as the code has it.  The constructor leaves the four caches in
    sync with their sources; assigning a source colour brings its own
    cache in sync with the new value at the present contrast and
    opacity; assigning [opacity] or [contrast] changes no cache. *)
Theorem material_caches_follow_color_assignments :
  (forall dc sc ac ec shininess space tex opa con face useShaders,
     List.length (toRGB space dc) = 3%nat ->
     List.length (toRGB space sc) = 3%nat ->
     List.length (toRGB space ac) = 3%nat ->
     List.length (toRGB space ec) = 3%nat ->
     is_ok (parse_face face) = true ->
     exists m,
       __init__ dc sc ac ec shininess space tex opa con face useShaders = Ok m /\
       opacity m = opa /\ contrast m = con /\
       cachesInSync m) /\
  (forall c v m,
     List.length (toRGB (colorSpace m) v) = 3%nat ->
     exists m',
       set_color c v m = (Ok tt, m') /\
       veq (cache c m')
           (deviceSpace (toRGB (colorSpace m') (sourceColor c m'))
                        (contrast m') (opacity m')) /\
       (forall c', c' <> c -> cache c' m' = cache c' m)) /\
  (forall x m c,
     cache c (set_opacity x m) = cache c m /\
     cache c (set_contrast x m) = cache c m).
Proof.
  split; [|split].
  - intros dc sc ac ec shininess space tex opa con face useShaders
      Hd Hs Ha He Hf.
    unfold __init__.
    destruct (parse_face face) as [f|]; [clear Hf|discriminate]. simpl rbind.
    unfold set_color, setColor, set_RGB, bind, modify, get, lift.
    cbn [colorSpace with_sourceColor with_cache contrast opacity blank
         set_opacity set_contrast with_colorSpace cache].
    destruct (toRGB space dc) as [|d1 [|d2 [|d3 [|]]]] eqn:Ed; try discriminate.
    destruct (toRGB space sc) as [|s1 [|s2 [|s3 [|]]]] eqn:Es; try discriminate.
    destruct (toRGB space ac) as [|a1 [|a2 [|a3 [|]]]] eqn:Ea; try discriminate.
    destruct (toRGB space ec) as [|e1 [|e2 [|e3 [|]]]] eqn:Ee; try discriminate.
    do 4 (cbn -[Qplus Qmult Qdiv]; rewrite ?Ed, ?Es, ?Ea, ?Ee).
    cbn -[Qplus Qmult Qdiv].
    eexists. split; [reflexivity|]. split; [reflexivity|].
    split; [reflexivity|].
    intros []; cbn [cache sourceColor colorSpace contrast opacity
                    _diffuseRGB _specularRGB _ambientRGB _emissionRGB
                    _diffuseColor _specularColor _ambientColor _emissionColor];
      rewrite ?Ed, ?Es, ?Ea, ?Ee; apply veq_refl.
  - intros c v m Hlen.
    destruct (set_color_spec c v m Hlen)
      as (m' & Hrun & Hc & Hsrc & Ho & Hk & Hcs & Hother).
    exists m'. split; [exact Hrun|]. split.
    + rewrite Hc, Hsrc, Ho, Hk, Hcs. apply veq_refl.
    + intros c' Hne. apply Hother, Hne.
  - intros x m []; split; reflexivity.
Qed.

End MaterialFacts.

Lemma material_caches_follow_color_assignments_witness :
  exists m m',
    defaultMaterial = Ok m /\
    @cachesInSync rgb_tools m /\
    @PhongMaterial.set_color rgb_tools PhongMaterial.diffuse [1; 1; 1] m
      = (Ok tt, m') /\
    veq (PhongMaterial.cache PhongMaterial.diffuse m')
        (deviceSpace [1; 1; 1] 1 1).
Proof.
  destruct (@material_caches_follow_color_assignments rgb_tools)
    as (Hinit & Hset & _).
  destruct (Hinit [1 # 2; 1 # 2; 1 # 2] [- (1); - (1); - (1)]
              [- (1); - (1); - (1)] [- (1); - (1); - (1)] 10 "rgb"%string
              None 1 1 "front"%string false)
    as (m & Hm & Ho & Hk & Hsync); try reflexivity.
  destruct (Hset PhongMaterial.diffuse [1; 1; 1] m) as (m' & Hrun & Hc & _).
  { injection Hm as <-. reflexivity. }
  exists m, m'. split; [exact Hm|]. split; [exact Hsync|].
  split; [exact Hrun|].
  injection Hm as <-. injection Hrun as <-. exact Hc.
Defined.

(** After [opacity] is assigned on a default material the diffuse cache
    still carries the old alpha: the caches are no longer in sync. *)
Lemma material_opacity_change_counterexample :
  exists m,
    defaultMaterial = Ok m /\
    @cachesInSync rgb_tools m /\
    ~ @cachesInSync rgb_tools (PhongMaterial.set_opacity (1 # 2) m) /\
    ~ @cachesInSync rgb_tools (PhongMaterial.set_contrast (1 # 2) m).
Proof.
  eexists. split; [reflexivity|]. split; [|split].
  - intros []; vm_compute; repeat constructor; discriminate.
  - intros H. specialize (H PhongMaterial.diffuse). veq_absurd H.
  - intros H. specialize (H PhongMaterial.diffuse). veq_absurd H.
Qed.

(** * Further properties of the module *)

(** ** Poses: the two caches *)

Section PoseCacheMore.
Context {MT : MathTools}.

Import RigidBodyPose.

(** X1.  After [pos] is assigned, the forward and the inverse matrix
    are each computed once, whichever is asked for first.  Asking for
    the forward matrix computes it alone and leaves the inverse dirty;
    the inverse is then computed from it by one more call.  Asking for
    the inverse right away computes both, and the forward matrix then
    comes from the cache. *)
Theorem forward_and_inverse_computed_once_each (v : list Q) (p : t) :
  let p1 := snd (set_pos v p) in
  let fwd := posOriToMatrix v (_ori p) in
  let inv := invertMatrix fwd (_invModelMatrix p) in
  (exists p2 p3,
     getModelMatrix false p1 = (Ok fwd, p2) /\
     computed p2 = S (computed p) /\
     _invMatrixNeedsUpdate p2 = true /\
     getModelMatrix true p2 = (Ok inv, p3) /\
     computed p3 = S (S (computed p)) /\
     getModelMatrix true p3 = (Ok inv, p3)) /\
  (exists p2,
     getModelMatrix true p1 = (Ok inv, p2) /\
     computed p2 = S (S (computed p)) /\
     getModelMatrix false p2 = (Ok fwd, p2) /\
     getModelMatrix true p2 = (Ok inv, p2)).
Proof.
  destruct p as [ps q m im f fi n]. simpl.
  split.
  - eexists. eexists. repeat split.
  - eexists. repeat split.
Qed.

(** X2.  The property [modelMatrix] and the method [getModelMatrix()]
    are the same operation: same matrix, same pose afterwards. *)
Theorem modelMatrix_is_getModelMatrix (p : t) :
  modelMatrix p = getModelMatrix false p.
Proof.
  destruct p as [ps q m im [|] fi n]; reflexivity.
Qed.

(** X3.  [invert()] replaces the position and the orientation by those
    of [inverted()], but it touches neither the cached matrices nor the
    flags: on a clean pose, [modelMatrix] still returns the matrix of
    the pose before the inversion, and computes nothing. *)
Theorem invert_in_place_keeps_the_old_matrix (p : t) :
  List.length (_ori p) = 4%nat ->
  exists p' fresh,
    invert p = (Ok tt, p') /\
    inverted p = Ok fresh /\
    samePose p' fresh /\
    _modelMatrix p' = _modelMatrix p /\
    _invModelMatrix p' = _invModelMatrix p /\
    _matrixNeedsUpdate p' = _matrixNeedsUpdate p /\
    _invMatrixNeedsUpdate p' = _invMatrixNeedsUpdate p /\
    computed p' = computed p /\
    (_matrixNeedsUpdate p = false ->
     modelMatrix p' = (Ok (_modelMatrix p), p')).
Proof.
  intros Hq.
  destruct p as [ps q m im f fi n]. simpl in Hq.
  destruct q as [|x [|y [|z [|w [|]]]]]; try discriminate.
  eexists. eexists.
  split; [reflexivity|]. split; [reflexivity|].
  split.
  { split; simpl; [|apply veq_refl].
    unfold np_neg. induction ps as [|c ps IH]; simpl; constructor; auto.
    ring. }
  repeat split. simpl. intros ->. reflexivity.
Qed.

End PoseCacheMore.

Lemma invert_in_place_keeps_the_old_matrix_witness :
  exists p',
    @RigidBodyPose.invert
       (@RigidBodyPose.__init__ rigid_tools [1; 2; 3] [0; 0; 0; 1])
      = (Ok tt, p') /\
    RigidBodyPose._modelMatrix p' =
      @posOriToMatrix rigid_tools [1; 2; 3] [0; 0; 0; 1].
Proof.
  destruct (@invert_in_place_keeps_the_old_matrix rigid_tools
              (@RigidBodyPose.__init__ rigid_tools [1; 2; 3] [0; 0; 0; 1]))
    as (p' & fresh & H1 & _ & _ & H2 & _); [reflexivity|].
  exists p'. split; [exact H1|exact H2].
Defined.

(** ** Poses: products and inverses *)

(** A side condition [~ e == 0] that is [H] up to ring normalisation. *)
Ltac nonzero_from H :=
  let E := fresh "E" in
  intros E; apply H; etransitivity; [|exact E]; ring.

(** The same for a product of two quantities that are not zero. *)
Ltac nonzero_from_product H1 H2 :=
  let E := fresh "E" in
  intros E;
  match type of H1 with
  | ~ ?n1 == 0 =>
      match type of H2 with
      | ~ ?n2 == 0 =>
          let P := fresh "P" in
          assert (P : n1 * n2 == 0) by (etransitivity; [|exact E]; ring);
          destruct (Qmult_integral _ _ P); contradiction
      end
  end.

Section PoseProducts.
Context {MT : MathTools}.

Import RigidBodyPose.

(** X4.  The product of two poses adds the positions, component by
    component, so on positions it is commutative; the result is a new
    pose with its matrix computed and both flags clear.  The operands
    are not modified (they are not even written to). *)
Theorem product_adds_positions (a b : t) :
  List.length (_pos a) = 3%nat ->
  List.length (_pos b) = 3%nat ->
  List.length (_ori a) = 4%nat ->
  List.length (_ori b) = 4%nat ->
  exists ab ba,
    __mul__ a b = Ok ab /\
    __mul__ b a = Ok ba /\
    _pos ab = zipWith Qplus (_pos a) (_pos b) /\
    veq (_pos ab) (_pos ba) /\
    _modelMatrix ab = posOriToMatrix (_pos ab) (_ori ab) /\
    _matrixNeedsUpdate ab = false /\
    _invMatrixNeedsUpdate ab = false.
Proof.
  intros Hpa Hpb Hqa Hqb.
  destruct a as [pa qa ma ia fa fia na], b as [pb qb mb ib fb fib nb].
  simpl in *.
  destruct pa as [|a1 [|a2 [|a3 [|]]]]; try discriminate.
  destruct pb as [|b1 [|b2 [|b3 [|]]]]; try discriminate.
  destruct qa as [|x0 [|y0 [|z0 [|w0 [|]]]]]; try discriminate.
  destruct qb as [|x1 [|y1 [|z1 [|w1 [|]]]]]; try discriminate.
  eexists. eexists.
  split; [reflexivity|]. split; [reflexivity|].
  split; [reflexivity|]. split; [|repeat split].
  simpl. repeat constructor; ring.
Qed.

(** X5.  When the two positions have different numbers of components
    and neither has exactly one, the product raises [ValueError]: the
    arrays do not broadcast. *)
Theorem product_of_mismatched_positions_raises (a b : t) :
  List.length (_pos a) <> List.length (_pos b) ->
  List.length (_pos a) <> 1%nat ->
  List.length (_pos b) <> 1%nat ->
  __mul__ a b = Raise ValueError.
Proof.
  intros Hne Ha Hb. unfold __mul__, np_add, broadcast2, pos.
  destruct (Nat.eqb_spec (List.length (_pos a)) (List.length (_pos b)));
    [contradiction|].
  destruct (_pos a) as [|x [|y l]]; destruct (_pos b) as [|x' [|y' l']];
    simpl in *; try reflexivity; congruence.
Qed.

(** X6.  With the quaternion product of [mathtools] taken as the
    Hamilton product: the identity pose is a unit of the product on
    both sides, and the product is associative, on positions and
    orientations. *)
Theorem product_is_a_monoid (a b c : t) :
  List.length (_pos a) = 3%nat -> List.length (_ori a) = 4%nat ->
  List.length (_pos b) = 3%nat -> List.length (_ori b) = 4%nat ->
  List.length (_pos c) = 3%nat -> List.length (_ori c) = 4%nat ->
  let e := __init__ [0; 0; 0] [0; 0; 0; 1] in
  (exists ae ea,
     __mul__ a e = Ok ae /\ __mul__ e a = Ok ea /\
     samePose ae a /\ samePose ea a) /\
  (exists ab bc l r,
     __mul__ a b = Ok ab /\ __mul__ b c = Ok bc /\
     __mul__ ab c = Ok l /\ __mul__ a bc = Ok r /\
     samePose l r).
Proof.
  intros Hpa Hqa Hpb Hqb Hpc Hqc.
  destruct a as [pa qa ma ia fa fia na], b as [pb qb mb ib fb fib nb],
    c as [pc qc mc ic fc fic nc].
  simpl in *.
  destruct pa as [|a1 [|a2 [|a3 [|]]]]; try discriminate.
  destruct pb as [|b1 [|b2 [|b3 [|]]]]; try discriminate.
  destruct pc as [|c1 [|c2 [|c3 [|]]]]; try discriminate.
  destruct qa as [|x0 [|y0 [|z0 [|w0 [|]]]]]; try discriminate.
  destruct qb as [|x1 [|y1 [|z1 [|w1 [|]]]]]; try discriminate.
  destruct qc as [|x2 [|y2 [|z2 [|w2 [|]]]]]; try discriminate.
  split.
  - eexists. eexists.
    split; [reflexivity|]. split; [reflexivity|].
    split; split; simpl; repeat constructor; ring.
  - eexists. eexists. eexists. eexists.
    split; [reflexivity|]. split; [reflexivity|].
    split; [reflexivity|]. split; [reflexivity|].
    split; simpl; repeat constructor; ring.
Qed.

(** X7.  With the quaternion inverse of [mathtools] taken as the
    conjugate over the squared norm: inverting twice gives the pose
    back, and the inverse of a product is the product of the inverses
    in the opposite order, for orientations that are not zero. *)
Theorem inverse_is_an_involution_and_reverses_products (a b : t) :
  List.length (_pos a) = 3%nat -> List.length (_ori a) = 4%nat ->
  List.length (_pos b) = 3%nat -> List.length (_ori b) = 4%nat ->
  ~ sumsq (_ori a) == 0 ->
  ~ sumsq (_ori b) == 0 ->
  (exists ia iia,
     __invert__ a = Ok ia /\ __invert__ ia = Ok iia /\ samePose iia a) /\
  (exists ab iab ia ib ibia,
     __mul__ a b = Ok ab /\ __invert__ ab = Ok iab /\
     __invert__ a = Ok ia /\ __invert__ b = Ok ib /\
     __mul__ ib ia = Ok ibia /\
     samePose iab ibia).
Proof.
  intros Hpa Hqa Hpb Hqb Hna Hnb.
  destruct a as [pa qa ma ia fa fia na], b as [pb qb mb ib fb fib nb].
  simpl in *.
  destruct pa as [|a1 [|a2 [|a3 [|]]]]; try discriminate.
  destruct pb as [|b1 [|b2 [|b3 [|]]]]; try discriminate.
  destruct qa as [|x0 [|y0 [|z0 [|w0 [|]]]]]; try discriminate.
  destruct qb as [|x1 [|y1 [|z1 [|w1 [|]]]]]; try discriminate.
  unfold sumsq in Hna, Hnb. cbn [fold_right] in Hna, Hnb.
  split.
  - eexists. eexists.
    split; [reflexivity|]. split; [reflexivity|].
    split; simpl; unfold sumsq; simpl;
      repeat constructor; try ring; field; repeat split;
      (nonzero_from Hna || nonzero_from Hnb ||
       nonzero_from_product Hna Hnb).
  - eexists. eexists. eexists. eexists. eexists.
    split; [reflexivity|]. split; [reflexivity|].
    split; [reflexivity|]. split; [reflexivity|].
    split; [reflexivity|].
    split; simpl; unfold sumsq; simpl;
      repeat constructor; try ring; field; repeat split;
      (nonzero_from Hna || nonzero_from Hnb ||
       nonzero_from_product Hna Hnb).
Qed.

End PoseProducts.

Lemma product_adds_positions_witness :
  exists ab,
    @RigidBodyPose.__mul__ rigid_tools
       (@RigidBodyPose.__init__ rigid_tools [1; 2; 3] [0; 0; 0; 1])
       (@RigidBodyPose.__init__ rigid_tools [4; 5; 6] [1; 0; 0; 0]) = Ok ab /\
    RigidBodyPose._pos ab = [1 + 4; 2 + 5; 3 + 6].
Proof.
  destruct (@product_adds_positions rigid_tools
              (@RigidBodyPose.__init__ rigid_tools [1; 2; 3] [0; 0; 0; 1])
              (@RigidBodyPose.__init__ rigid_tools [4; 5; 6] [1; 0; 0; 0]))
    as (ab & ba & H1 & _ & H2 & _); try reflexivity.
  exists ab. split; [exact H1|exact H2].
Defined.

Lemma product_of_mismatched_positions_raises_witness :
  @RigidBodyPose.__mul__ rigid_tools
     (@RigidBodyPose.__init__ rigid_tools [1; 2; 3] [0; 0; 0; 1])
     (@RigidBodyPose.__init__ rigid_tools [4; 5] [0; 0; 0; 1])
  = Raise ValueError.
Proof.
  apply product_of_mismatched_positions_raises; simpl; discriminate.
Defined.

Lemma product_is_a_monoid_witness :
  exists ae,
    @RigidBodyPose.__mul__ rigid_tools
       (@RigidBodyPose.__init__ rigid_tools [1; 2; 3] [3 # 5; 0; 4 # 5; 0])
       (@RigidBodyPose.__init__ rigid_tools [0; 0; 0] [0; 0; 0; 1]) = Ok ae /\
    samePose ae
      (@RigidBodyPose.__init__ rigid_tools [1; 2; 3] [3 # 5; 0; 4 # 5; 0]).
Proof.
  destruct (@product_is_a_monoid rigid_tools
              (@RigidBodyPose.__init__ rigid_tools [1; 2; 3] [3 # 5; 0; 4 # 5; 0])
              identityPose identityPose)
    as ((ae & ea & H1 & _ & H2 & _) & _); try reflexivity.
  exists ae. split; [exact H1|exact H2].
Defined.

Lemma inverse_is_an_involution_and_reverses_products_witness :
  exists ia iia,
    @RigidBodyPose.__invert__ rigid_tools
       (@RigidBodyPose.__init__ rigid_tools [1; 2; 3] [1; 0; 2; 0]) = Ok ia /\
    @RigidBodyPose.__invert__ rigid_tools ia = Ok iia /\
    samePose iia (@RigidBodyPose.__init__ rigid_tools [1; 2; 3] [1; 0; 2; 0]).
Proof.
  destruct (@inverse_is_an_involution_and_reverses_products rigid_tools
              (@RigidBodyPose.__init__ rigid_tools [1; 2; 3] [1; 0; 2; 0])
              identityPose)
    as ((ia & iia & H1 & H2 & H3) & _); try reflexivity;
    try (intros H; vm_compute in H; discriminate).
  exists ia, iia. split; [exact H1|]. split; [exact H2|exact H3].
Defined.

(** ** Light sources: position and type *)

Section LightMore.
Context {C : ColorTools}.

Import LightSource.

(** X8.  Assigning a 3-vector to [pos] always succeeds; the position
    read back is the vector assigned, and [w] is set again from the
    stored type: 1 for ['point'], 0 for anything else.  No other field
    changes. *)
Theorem light_pos_round_trip (v : list Q) (s : t) :
  List.length v = 3%nat ->
  let s' := with_pos (v ++ [if String.eqb (_lightType s) "point"
                            then 1 else 0]) s in
  set_pos v s = (Ok tt, s') /\
  pos s' = v /\
  w_matches_type s'.
Proof.
  intros Hv.
  destruct v as [|a [|b [|c [|]]]]; try discriminate.
  destruct s as [p dc sc ac dr sr ar cs lt k].
  unfold set_pos, bind, modify, get, lift, ret, w_matches_type, w. simpl.
  destruct (String.eqb lt "point"); simpl; repeat split.
Qed.

(** X9.  Assigning to [pos] a value that is neither a 3-vector nor a
    single number raises [ValueError], and the light is left with the
    position [(0, 0, 0)] and [w = 0] whatever it was before: the old
    position is lost. *)
Theorem light_pos_bad_shape_zeroes_position (v : list Q) (s : t) :
  List.length v <> 3%nat ->
  List.length v <> 1%nat ->
  set_pos v s = (Raise ValueError, with_pos [0; 0; 0; 0] s).
Proof.
  intros H3 H1.
  unfold set_pos, bind, modify, get, lift, store3, assign3. simpl.
  destruct v as [|a [|b [|c [|d v]]]]; simpl in *; try reflexivity;
    congruence.
Qed.

(** X10.  The constructor accepts any string as [lightType] and any
    3-vectors as position and colours (whose conversions have three
    components): the light it builds has the position given, the type
    given, and [w] equal to 1 exactly when the type is ['point']. *)
Theorem light_constructor_sets_w_from_type
    (p dc sc ac : list Q) (space lt : string) (k : list Q) :
  List.length p = 3%nat ->
  List.length (toRGB space dc) = 3%nat ->
  List.length (toRGB space sc) = 3%nat ->
  List.length (toRGB space ac) = 3%nat ->
  exists s,
    __init__ p dc sc ac space lt k = Ok s /\
    pos s = p /\
    _lightType s = lt /\
    w_matches_type s /\
    _diffuseColor s = dc /\ _specularColor s = sc /\ _ambientColor s = ac /\
    _kAttenuation s = k.
Proof.
  intros Hp Hd Hs Ha.
  destruct p as [|p1 [|p2 [|p3 [|]]]]; try discriminate.
  unfold __init__, __init__body, set_diffuseColor, set_specularColor,
    set_ambientColor, setColor, setattr, set_diffuseRGB, set_specularRGB,
    set_ambientRGB, set_pos, bind, modify, get, lift, ret.
  cbn [colorSpace with_colorSpace with_diffuseColor blank].
  destruct (toRGB space dc) as [|d1 [|d2 [|d3 [|]]]] eqn:Ed; try discriminate.
  cbn -[Qplus Qmult Qdiv String.eqb].
  destruct (toRGB space sc) as [|s1 [|s2 [|s3 [|]]]] eqn:Es; try discriminate.
  cbn -[Qplus Qmult Qdiv String.eqb].
  destruct (toRGB space ac) as [|a1 [|a2 [|a3 [|]]]] eqn:Ea; try discriminate.
  cbn -[Qplus Qmult Qdiv String.eqb].
  unfold w_matches_type, w.
  destruct (String.eqb lt "point") eqn:E;
    cbn -[Qplus Qmult Qdiv String.eqb];
    eexists; (split; [reflexivity|]);
    cbn -[Qplus Qmult Qdiv String.eqb]; rewrite ?E; repeat split.
Qed.

(** X11.  A rejected assignment to [lightType] is not undone: the
    rejected value stays stored as the type while [w] keeps its old
    value, so a point light is left with [w = 1] and a type that is
    not ['point']; the next assignment to [pos] then gives it
    [w = 0]. *)
Theorem rejected_lightType_stays_stored (value : string) (v : list Q) (s : t) :
  value <> "point"%string ->
  value <> "directional"%string ->
  List.length (_pos s) = 4%nat ->
  List.length v = 3%nat ->
  exists s1 s2,
    set_lightType value s = (Raise ValueError, s1) /\
    _lightType s1 = value /\
    _pos s1 = _pos s /\
    set_pos v s1 = (Ok tt, s2) /\
    _lightType s2 = value /\
    w s2 = 0.
Proof.
  intros H1 H2 Hp Hv.
  destruct s as [p dc sc ac dr sr ar cs lt k]. simpl in Hp.
  destruct v as [|a [|b [|c [|]]]]; try discriminate.
  exists (with_lightType value (mk p dc sc ac dr sr ar cs lt k)).
  unfold set_lightType, set_pos, bind, modify, get, lift, raise, ret.
  cbn -[String.eqb].
  destruct (String.eqb_spec value "point"); [contradiction|].
  destruct (String.eqb_spec value "directional"); [contradiction|].
  eexists. repeat split.
Qed.

(** X12.  Reading [lightType] gives the position, not the type: after
    an accepted assignment of ['point'] or ['directional'] the value
    read back is the light's [pos], which the assignment left as it
    was. *)
Theorem lightType_reads_back_the_position (value : string) (s : t) :
  value = "point"%string \/ value = "directional"%string ->
  List.length (_pos s) = 4%nat ->
  exists s',
    set_lightType value s = (Ok tt, s') /\
    lightType s' = pos s /\
    pos s' = pos s /\
    w_matches_type s'.
Proof.
  intros Hv Hp.
  destruct s as [p dc sc ac dr sr ar cs lt k]. simpl in Hp.
  destruct p as [|a [|b [|c [|d [|]]]]]; try discriminate.
  destruct Hv as [-> | ->]; eexists; repeat split.
Qed.

(** X13.  The ambient cache holds half the value assigned, with alpha
    1: on every channel it is one half below the device-space form
    that the diffuse and specular caches hold, so it never agrees with
    it. *)
Theorem light_ambient_cache_is_half_the_value (v : list Q) (s : t) :
  List.length v = 3%nat ->
  exists s',
    set_ambientRGB v s = (Ok tt, s') /\
    veq (_ambientRGB s') (map (fun x => x / 2) v ++ [1]) /\
    veq (map (fun x => x + (1 # 2)) (firstn 3 (_ambientRGB s')))
        (firstn 3 (deviceSpace v 1 1)) /\
    ~ veq (_ambientRGB s') (deviceSpace v 1 1).
Proof.
  intros Hv.
  destruct v as [|a [|b [|c [|]]]]; try discriminate.
  eexists. split; [reflexivity|].
  unfold deviceSpace, uplus. simpl.
  split; [|split].
  - repeat constructor; field.
  - repeat constructor; field.
  - intros H. inversion H as [|? ? ? ? E _]; subst.
    assert (Hc : a * 1 / 2 - (a * 1 + 1) / 2 == 0) by (rewrite E; ring).
    assert (Hd : a * 1 / 2 - (a * 1 + 1) / 2 == - (1 # 2)) by field.
    rewrite Hd in Hc. discriminate Hc.
Qed.

(** X14.  Assigning one of the three RGB properties, whether it
    succeeds or raises, changes nothing but its own cache: position,
    type, attenuation, source colours and the two other caches stay as
    they were. *)
Theorem light_rgb_setter_frame (a : rgbAttrib) (v : list Q) (s : t) :
  let s' := snd (setattr a v s) in
  _pos s' = _pos s /\
  _lightType s' = _lightType s /\
  _kAttenuation s' = _kAttenuation s /\
  colorSpace s' = colorSpace s /\
  _diffuseColor s' = _diffuseColor s /\
  _specularColor s' = _specularColor s /\
  _ambientColor s' = _ambientColor s /\
  (forall a', a' <> a -> cache a' s' = cache a' s).
Proof.
  destruct s as [p dc sc ac dr sr ar cs lt k].
  destruct a;
    unfold setattr, set_diffuseRGB, set_specularRGB, set_ambientRGB,
      bind, modify, get, lift, store3;
    cbn [with_diffuseRGB with_specularRGB with_ambientRGB _diffuseRGB
         _specularRGB _ambientRGB];
    match goal with
    | |- context [assign3 ?l] => destruct (assign3 l)
    end; simpl; repeat split; intros [] Hne; try contradiction; reflexivity.
Qed.

End LightMore.

Lemma light_pos_round_trip_witness :
  LightSource.set_pos [1; 2; 3] LightSource.blank
  = (Ok tt, LightSource.with_pos [1; 2; 3; 0] LightSource.blank).
Proof.
  apply (@light_pos_round_trip [1; 2; 3] LightSource.blank). reflexivity.
Defined.

Lemma light_pos_bad_shape_zeroes_position_witness :
  LightSource.set_pos [1; 2] oneLight
  = (Raise ValueError, LightSource.with_pos [0; 0; 0; 0] oneLight).
Proof.
  apply light_pos_bad_shape_zeroes_position; simpl; discriminate.
Defined.

Lemma light_constructor_sets_w_from_type_witness :
  exists s,
    defaultLight "directional" = Ok s /\
    LightSource.pos s = [0; 0; 0] /\
    LightSource.w_matches_type s.
Proof.
  destruct (@light_constructor_sets_w_from_type rgb_tools
              [0; 0; 0] [1; 1; 1] [1; 1; 1] [0; 0; 0]
              "rgb"%string "directional"%string [1; 0; 0])
    as (s & H1 & H2 & _ & H3 & _); try reflexivity.
  exists s. split; [exact H1|]. split; [exact H2|exact H3].
Defined.

Lemma rejected_lightType_stays_stored_witness :
  exists s1 s2,
    LightSource.set_lightType "spot" oneLight = (Raise ValueError, s1) /\
    LightSource.set_pos [1; 2; 3] s1 = (Ok tt, s2) /\
    LightSource.w s2 = 0.
Proof.
  destruct (@rejected_lightType_stays_stored "spot"%string [1; 2; 3] oneLight)
    as (s1 & s2 & H1 & _ & _ & H2 & _ & H3);
    try reflexivity; try discriminate.
  exists s1, s2. split; [exact H1|]. split; [exact H2|exact H3].
Defined.

Lemma lightType_reads_back_the_position_witness :
  exists s',
    LightSource.set_lightType "directional" oneLight = (Ok tt, s') /\
    LightSource.lightType s' = [0; 0; 0].
Proof.
  destruct (@lightType_reads_back_the_position "directional"%string oneLight)
    as (s' & H1 & H2 & _); [right; reflexivity | reflexivity |].
  exists s'. split; [exact H1|exact H2].
Defined.

Lemma light_ambient_cache_is_half_the_value_witness :
  exists s',
    LightSource.set_ambientRGB [1; 1; 1] oneLight = (Ok tt, s') /\
    veq (LightSource._ambientRGB s') [1 # 2; 1 # 2; 1 # 2; 1].
Proof.
  destruct (@light_ambient_cache_is_half_the_value [1; 1; 1] oneLight)
    as (s' & H1 & H2 & _); [reflexivity|].
  exists s'. split; [exact H1|].
  injection H1 as <-. repeat constructor; reflexivity.
Defined.

(** ** Materials: construction and assignments *)

Section MaterialMore.
Context {C : ColorTools}.

Import PhongMaterial.

(** With colours whose conversions have three components, the
    constructor succeeds as soon as [face] is one of the three names. *)
Lemma material_init_ok dc sc ac ec shininess space tex opa con face
    useShaders f :
  List.length (toRGB space dc) = 3%nat ->
  List.length (toRGB space sc) = 3%nat ->
  List.length (toRGB space ac) = 3%nat ->
  List.length (toRGB space ec) = 3%nat ->
  parse_face face = Ok f ->
  exists m,
    __init__ dc sc ac ec shininess space tex opa con face useShaders = Ok m /\
    _face m = f /\ _useTextures m = false /\ _useShaders m = useShaders /\
    _diffuseTexture m = tex /\ _shininess m = shininess.
Proof.
  intros Hd Hs Ha He Hf.
  unfold __init__. rewrite Hf. simpl rbind.
  unfold set_color, setColor, set_RGB, bind, modify, get, lift.
  cbn [colorSpace with_sourceColor with_cache contrast opacity blank
       set_opacity set_contrast with_colorSpace cache].
  destruct (toRGB space dc) as [|d1 [|d2 [|d3 [|]]]] eqn:Ed; try discriminate.
  destruct (toRGB space sc) as [|s1 [|s2 [|s3 [|]]]] eqn:Es; try discriminate.
  destruct (toRGB space ac) as [|a1 [|a2 [|a3 [|]]]] eqn:Ea; try discriminate.
  destruct (toRGB space ec) as [|e1 [|e2 [|e3 [|]]]] eqn:Ee; try discriminate.
  do 4 (cbn -[Qplus Qmult Qdiv]; rewrite ?Ed, ?Es, ?Ea, ?Ee).
  cbn -[Qplus Qmult Qdiv].
  eexists. split; [reflexivity|]. repeat split.
Qed.

(** X15.  The constructor checks [face]: with ['front'], ['back'] or
    ['both'] it builds a material for [GL_FRONT], [GL_BACK] or
    [GL_FRONT_AND_BACK]; with any other string it raises [ValueError],
    whatever the other arguments are. *)
Theorem material_constructor_checks_face
    dc sc ac ec shininess space tex opa con useShaders :
  List.length (toRGB space dc) = 3%nat ->
  List.length (toRGB space sc) = 3%nat ->
  List.length (toRGB space ac) = 3%nat ->
  List.length (toRGB space ec) = 3%nat ->
  (forall face f,
     In (face, f) [("front"%string, GL_FRONT); ("back"%string, GL_BACK);
                   ("both"%string, GL_FRONT_AND_BACK)] ->
     exists m,
       __init__ dc sc ac ec shininess space tex opa con face useShaders = Ok m /\
       _face m = f) /\
  (forall face,
     face <> "front"%string -> face <> "back"%string ->
     face <> "both"%string ->
     __init__ dc sc ac ec shininess space tex opa con face useShaders
       = Raise ValueError).
Proof.
  intros Hd Hs Ha He. split.
  - intros face f Hin.
    assert (Hf : parse_face face = Ok f).
    { simpl in Hin.
      destruct Hin as [[= <- <-]|[[= <- <-]|[[= <- <-]|[]]]]; reflexivity. }
    destruct (material_init_ok dc sc ac ec shininess space tex opa con face
                useShaders Hd Hs Ha He Hf) as (m & Hm & Hface & _).
    eauto.
  - intros face H1 H2 H3. unfold __init__, parse_face.
    destruct (String.eqb_spec face "front"); [contradiction|].
    destruct (String.eqb_spec face "back"); [contradiction|].
    destruct (String.eqb_spec face "both"); [contradiction|].
    reflexivity.
Qed.

Lemma perform_keeps_flags (o : op) (m : t) :
  _useTextures (snd (perform o m)) = _useTextures m /\
  _useShaders (snd (perform o m)) = _useShaders m /\
  _face (snd (perform o m)) = _face m.
Proof.
  destruct o as [c v|c v| | | | ]; simpl; try (repeat split; fail).
  - unfold set_color, setColor, set_RGB, bind, modify, get, lift,
      LightSource.store3.
    cbn [colorSpace with_sourceColor with_cache contrast opacity cache].
    match goal with
    | |- context [assign3 ?l] => destruct (assign3 l)
    end; destruct c; simpl; repeat split.
  - unfold set_RGB, bind, modify, get, lift, LightSource.store3.
    cbn [colorSpace with_sourceColor with_cache contrast opacity cache].
    match goal with
    | |- context [assign3 ?l] => destruct (assign3 l)
    end; destruct c; simpl; repeat split.
Qed.

(** X16.  No assignment to a material changes [_useTextures],
    [_useShaders] or [_face]: after any sequence of assignments to its
    colours, RGB properties, shininess, opacity, contrast or diffuse
    texture (failed ones included), a material built by the constructor
    still has [_useTextures] false, also when a diffuse texture has
    been attached, and the face and shader flag it was built with. *)
Theorem material_flags_fixed_at_construction
    dc sc ac ec shininess space tex opa con face useShaders m
    (ops : list op) :
  __init__ dc sc ac ec shininess space tex opa con face useShaders = Ok m ->
  _useTextures (perform_all ops m) = false /\
  _useShaders (perform_all ops m) = useShaders /\
  _face (perform_all ops m) = _face m.
Proof.
  intros Hinit.
  assert (H0 : _useTextures m = false /\ _useShaders m = useShaders).
  { unfold __init__ in Hinit.
    destruct (parse_face face); [|discriminate]. simpl rbind in Hinit.
    match type of Hinit with
    | match ?e with _ => _ end = _ => destruct e as [[u|e'] s]
    end; [|discriminate].
    injection Hinit as <-. split; reflexivity. }
  destruct H0 as [Ht Hs]. rewrite <- Ht, <- Hs. clear Hinit Ht Hs.
  revert m. induction ops as [|o ops IH]; intros m; simpl.
  - repeat split.
  - destruct (perform_keeps_flags o m) as (E1 & E2 & E3).
    destruct (IH (snd (perform o m))) as (I1 & I2 & I3).
    rewrite I1, I2, I3. auto.
Qed.

(** X17.  Assigning to an RGB property a value that is neither a
    triple nor a single number raises [ValueError] and leaves that
    cache at [(0, 0, 0, 0)], alpha included; nothing else changes. *)
Theorem material_rgb_bad_shape_zeroes_cache (c : color) (v : list Q) (m : t) :
  List.length v <> 3%nat ->
  List.length v <> 1%nat ->
  set_RGB c v m = (Raise ValueError, with_cache c [0; 0; 0; 0] m).
Proof.
  intros H3 H1.
  unfold set_RGB, bind, modify, get, lift, LightSource.store3, assign3.
  destruct v as [|a [|b [|d [|e v]]]]; simpl in *; try reflexivity;
    congruence.
Qed.

End MaterialMore.

Lemma material_constructor_checks_face_witness :
  (exists m,
     @PhongMaterial.__init__ rgb_tools [0; 0; 0] [0; 0; 0] [0; 0; 0] [0; 0; 0]
        10 "rgb" None 1 1 "both" false = Ok m /\
     PhongMaterial._face m = GL_FRONT_AND_BACK) /\
  @PhongMaterial.__init__ rgb_tools [0; 0; 0] [0; 0; 0] [0; 0; 0] [0; 0; 0]
     10 "rgb" None 1 1 "top" false = Raise ValueError.
Proof.
  destruct (@material_constructor_checks_face rgb_tools
              [0; 0; 0] [0; 0; 0] [0; 0; 0] [0; 0; 0] 10 "rgb"%string
              None 1 1 false) as (Hok & Hbad); try reflexivity.
  split.
  - apply Hok. simpl. auto.
  - apply Hbad; discriminate.
Defined.

Lemma material_flags_fixed_at_construction_witness :
  exists m,
    defaultMaterial = Ok m /\
    PhongMaterial._useTextures
      (@PhongMaterial.perform_all rgb_tools
         [PhongMaterial.AssignDiffuseTexture (Some 5%nat);
          PhongMaterial.AssignColor PhongMaterial.diffuse [1; 1; 1]] m)
      = false.
Proof.
  destruct defaultMaterial as [m|e] eqn:E; [|vm_compute in E; discriminate E].
  exists m. split; [reflexivity|].
  unfold defaultMaterial in E.
  exact (proj1 (@material_flags_fixed_at_construction rgb_tools
                  _ _ _ _ _ _ _ _ _ _ _ m _ E)).
Defined.

Lemma material_rgb_bad_shape_zeroes_cache_witness :
  exists m,
    defaultMaterial = Ok m /\
    PhongMaterial.set_RGB PhongMaterial.diffuse [1; 1] m
      = (Raise ValueError,
         PhongMaterial.with_cache PhongMaterial.diffuse [0; 0; 0; 0] m).
Proof.
  eexists. split; [reflexivity|].
  apply material_rgb_bad_shape_zeroes_cache; simpl; discriminate.
Defined.

(** ** Drawing: outcomes *)

Lemma skipn_length_app {A} (l r : list A) : skipn (List.length l) (l ++ r) = r.
Proof. induction l; simpl; auto. Qed.

(** A table lookup returns a value or raises [KeyError], nothing
    else. *)
Lemma dict_get_cases {V} (k : tuple) (d : dict V) :
  (exists v, dict_get k d = Ok v) \/ dict_get k d = Raise KeyError.
Proof.
  unfold dict_get. destruct (dict_lookup k d); eauto.
Qed.

Section DrawMore.
Context {D : GLDriver} {Src : ShaderSources} {MT : MathTools} {C : ColorTools}.

Import BaseRigidBodyStim.

(** Bring the calls made by a run of [draw] to the form
    [before ++ c1 :: c2 :: ...]. *)
Ltac run_draw :=
  unfold draw, bind, get, ret, set_draw3d, gl, modify, on_pose, lookup_shader,
    RigidBodyPose.modelMatrix, RigidBodyPose.getModelMatrix, issued,
    activeWindow;
  cbn -[Qplus Qmult Qdiv dict_get skipn app].

Ltac flatten_calls :=
  repeat rewrite <- app_assoc; cbn [app]; rewrite ?skipn_length_app.

(** X18.  Whatever the table holds, a call of [draw] on a stimulus with
    a VAO begins with [glPushMatrix] and the upload of the pose's
    matrix.  If it returns, it has issued exactly one [drawVAO], on the
    stimulus' VAO, then [glPopMatrix] as its last call and no other
    push or pop, and the window's [draw3d] is off.  If it raises, the
    exception is [KeyError] from the shader lookup, which happens only
    with [_useShaders] set: nothing was drawn, the matrix pushed is not
    popped, and [draw3d] stays on. *)
Theorem draw_outcomes (shaders : dict handle) (x : world) (vao : VAO) :
  _vao (self x) = Some vao ->
  let x' := snd (draw shaders x) in
  exists m body,
    fst (RigidBodyPose.modelMatrix (_thePose (self x))) = Ok m /\
    issued x x' = glPushMatrix :: glLoadTransposeMatrixf m :: body /\
    match fst (draw shaders x) with
    | Ok _ =>
        (exists mid, body = mid ++ [glPopMatrix] /\
                     filter is_matrix_stack mid = []) /\
        filter is_drawVAO body = [drawVAO vao] /\
        draw3d (activeWindow x') = false
    | Raise e =>
        e = KeyError /\
        _useShaders (self x) = true /\
        filter is_drawVAO body = [] /\
        filter is_matrix_stack body = [] /\
        draw3d (activeWindow x') = true
    end.
Proof.
  intros Hvao.
  destruct x as [[w cs con opa rgbv [ps q mm im f fi n] ush mat v] aw calls].
  simpl in Hvao. subst v.
  destruct mat as [mat|], ush, aw as [aw|], f;
    run_draw;
    try (destruct (_getDesiredRGB rgbv cs con) as [[r g] b]);
    try match goal with
        | |- context [dict_get ?k shaders] =>
            destruct (dict_get_cases k shaders) as [[h ->] | ->]
        end;
    cbn -[Qplus Qmult Qdiv skipn app];
    flatten_calls;
    eexists; eexists; (split; [reflexivity|]); (split; [reflexivity|]);
    cbn [filter is_drawVAO is_matrix_stack];
    try (repeat split; fail);
    (split;
     [ match goal with
       | |- exists mid, ?b = _ /\ _ => exists (removelast b)
       end; split; reflexivity
     | split; reflexivity ]).
Qed.

End DrawMore.

Lemma draw_outcomes_witness :
  exists body,
    issued (worldOf (boundStim false 7%nat))
           (snd (@BaseRigidBodyStim.draw rigid_tools rgb_tools []
                   (worldOf (boundStim false 7%nat))))
      = glPushMatrix
          :: glLoadTransposeMatrixf
               (Mat [[1; 0; 0; 0]; [0; 1; 0; 0]; [0; 0; 1; 0]; [0; 0; 0; 1]])
          :: body /\
    filter is_drawVAO body = [drawVAO 7%nat].
Proof.
  destruct (@draw_outcomes rigid_tools rgb_tools []
              (worldOf (boundStim false 7%nat)) 7%nat eq_refl)
    as (m & body & Hm & Hcalls & Hout).
  exists body. injection Hm as <-. split; [exact Hcalls|].
  exact (proj1 (proj2 Hout)).
Defined.

(** ** Drawing: the number of lights *)

(** The keys of the table, as Python compares them with a pair
    [(n, b)]. *)
Lemma pair_key_in_shaderFlags n b k :
  In k shaderFlags ->
  tuple_eqb k [PyInt n; PyBool b] = true ->
  (1 <= n <= MAX_LIGHTS)%Z.
Proof.
  intros Hin Heq.
  apply shaderFlags_shape in Hin as (i & t & Hi & ->).
  simpl in Heq. rewrite !andb_true_iff in Heq.
  destruct Heq as (E & _). unfold py_eqb in E. simpl in E.
  apply Z.eqb_eq in E. subst. exact Hi.
Qed.

Section DrawLights.
Context {D : GLDriver} {Src : ShaderSources} {MT : MathTools} {C : ColorTools}.

Import BaseRigidBodyStim.

(** After a successful import, the pair [(n, b)] is in the table for
    every [n] from 1 to [MAX_LIGHTS]. *)
Lemma material_shaders_has_pair (st0 : glstate) n b :
  fresh_names D -> builds_everything D ->
  (1 <= n <= MAX_LIGHTS)%Z ->
  exists h, dict_get [PyInt n; PyBool b] (_material_shaders_ st0) = Ok h.
Proof.
  intros Hfresh Hbuilds Hn.
  destruct (compileShaders_spec Hfresh Hbuilds shaderFlags st0 []
              shaderFlags_distinct (fun _ _ => eq_refl))
    as (st' & hs & Hrun & Hlen & _).
  assert (Htbl : _material_shaders_ st0 = combine shaderFlags hs)
    by exact (f_equal (fun x => snd (snd x)) Hrun).
  destruct (@dict_lookup_combine handle shaderFlags hs [PyInt n; PyBool b] Hlen)
    as (h & Hh & _).
  { apply shaderFlags_shape. eauto. }
  exists h. unfold dict_get. now rewrite Htbl, Hh.
Qed.

(** Whatever the import did, no pair [(n, b)] with [n] outside
    1..[MAX_LIGHTS] is in the table. *)
Lemma material_shaders_lacks_pair (st0 : glstate) n b :
  (n < 1 \/ MAX_LIGHTS < n)%Z ->
  dict_get [PyInt n; PyBool b] (_material_shaders_ st0) = Raise KeyError.
Proof.
  intros Hn. unfold dict_get.
  destruct (dict_lookup _ _) as [h|] eqn:E; [|reflexivity].
  apply dict_lookup_key in E as (k & Hin & Heq).
  assert (Hk : In k (map fst (_material_shaders_ st0))).
  { change k with (fst (k, h)). now apply in_map. }
  apply (compileShaders_keys shaderFlags st0 []) in Hk. simpl in Hk.
  pose proof (pair_key_in_shaderFlags _ _ Hk Heq). lia.
Qed.

(** X19.  A stimulus with a VAO, a material and [_useShaders] set, in a
    window with between 1 and [MAX_LIGHTS] lights: [draw] returns, and
    it has bound the material, used the program stored under
    [(number of lights, material._useTextures)], drawn the VAO,
    released the program and the material, in this order. *)
Theorem draw_with_material_and_shaders
    (st0 : glstate) (x : world) (vao : VAO) (mat : PhongMaterial.t) :
  fresh_names D -> builds_everything D ->
  _vao (self x) = Some vao ->
  material (self x) = Some mat ->
  _useShaders (self x) = true ->
  (1 <= List.length (lights (win (self x))) <= Z.to_nat MAX_LIGHTS)%nat ->
  exists h m,
    dict_get [nLightsOf (self x); PyBool (PhongMaterial._useTextures mat)]
             (_material_shaders_ st0) = Ok h /\
    fst (draw (_material_shaders_ st0) x) = Ok tt /\
    issued x (snd (draw (_material_shaders_ st0) x)) =
      [glPushMatrix; glLoadTransposeMatrixf m; useMaterial mat; useProgram h;
       drawVAO vao; useProgram 0%nat; clearMaterial mat; glPopMatrix].
Proof.
  intros Hfresh Hbuilds Hvao Hmat Hsh Hn.
  destruct (@material_shaders_has_pair st0
              (Z.of_nat (List.length (lights (win (self x)))))
              (PhongMaterial._useTextures mat) Hfresh Hbuilds)
    as (h & Hh); [unfold MAX_LIGHTS in *; lia|].
  exists h.
  destruct x as [[w cs con opa rgbv [ps q mm im f fi n] ush mt v] aw calls].
  simpl in Hvao, Hmat, Hsh, Hn, Hh. subst v mt ush.
  unfold nLightsOf. cbn [self win].
  destruct aw as [aw|], f;
    unfold draw, bind, get, ret, set_draw3d, gl, modify, on_pose,
      lookup_shader, RigidBodyPose.modelMatrix, RigidBodyPose.getModelMatrix,
      issued, nLightsOf;
    cbn -[Qplus Qmult Qdiv dict_get skipn app _material_shaders_];
    rewrite Hh;
    cbn -[Qplus Qmult Qdiv skipn app _material_shaders_];
    repeat rewrite <- app_assoc; cbn [app]; rewrite ?skipn_length_app;
    eexists; (split; [reflexivity|]); split; reflexivity.
Qed.

(** X20.  [draw] does not clamp the number of lights: with a material
    and [_useShaders] set, in a window with no light or with more than
    [MAX_LIGHTS] lights, it raises [KeyError] after it has pushed the
    matrix and bound the material, and draws nothing. *)
Theorem draw_with_unsupported_light_count
    (st0 : glstate) (x : world) (vao : VAO) (mat : PhongMaterial.t) :
  _vao (self x) = Some vao ->
  material (self x) = Some mat ->
  _useShaders (self x) = true ->
  (List.length (lights (win (self x))) = 0 \/
   Z.to_nat MAX_LIGHTS < List.length (lights (win (self x))))%nat ->
  exists m,
    fst (draw (_material_shaders_ st0) x) = Raise KeyError /\
    issued x (snd (draw (_material_shaders_ st0) x)) =
      [glPushMatrix; glLoadTransposeMatrixf m; useMaterial mat] /\
    draw3d (activeWindow (snd (draw (_material_shaders_ st0) x))) = true.
Proof.
  intros Hvao Hmat Hsh Hn.
  destruct x as [[w cs con opa rgbv [ps q mm im f fi n] ush mt v] aw calls].
  simpl in Hvao, Hmat, Hsh, Hn. subst v mt ush.
  destruct aw as [aw|], f;
    unfold draw, bind, get, ret, set_draw3d, gl, modify, on_pose,
      lookup_shader, RigidBodyPose.modelMatrix, RigidBodyPose.getModelMatrix,
      issued, nLightsOf, activeWindow;
    cbn -[Qplus Qmult Qdiv dict_get skipn app _material_shaders_];
    match goal with
    | |- context [dict_get ?k ?d] =>
        replace (dict_get k d) with (@Raise handle KeyError)
          by (symmetry;
              apply (@material_shaders_lacks_pair st0);
              unfold MAX_LIGHTS in *; lia)
    end;
    cbn -[Qplus Qmult Qdiv skipn app _material_shaders_];
    repeat rewrite <- app_assoc; cbn [app]; rewrite ?skipn_length_app;
    eexists; (split; [reflexivity|]); split; reflexivity.
Qed.

(** X21.  After [pos] is assigned through the stimulus, the next [draw]
    uploads the matrix of the new position, whichever path it takes and
    whether or not it returns; the matrix is computed once, and the
    pose is clean afterwards. *)
Theorem draw_uploads_the_assigned_position
    (shaders : dict handle) (x : world) (vao : VAO) (v : list Q) :
  _vao (self x) = Some vao ->
  let x1 := snd (set_pos v x) in
  let x2 := snd (draw shaders x1) in
  pos (self x1) = v /\
  (exists body,
     issued x x2 =
       glPushMatrix
         :: glLoadTransposeMatrixf (posOriToMatrix v (ori (self x)))
         :: body) /\
  RigidBodyPose.computed (_thePose (self x2))
    = S (RigidBodyPose.computed (_thePose (self x))) /\
  RigidBodyPose._matrixNeedsUpdate (_thePose (self x2)) = false /\
  pos (self x2) = v.
Proof.
  intros Hvao.
  destruct x as [[w cs con opa rgbv [ps q mm im f fi n] ush mat vv] aw calls].
  simpl in Hvao. subst vv.
  destruct mat as [mat|], ush, aw as [aw|];
    unfold set_pos, RigidBodyPose.set_pos, draw, bind, get, ret, set_draw3d,
      gl, modify, on_pose, lookup_shader, RigidBodyPose.modelMatrix,
      RigidBodyPose.getModelMatrix, issued, pos, ori;
    cbn -[Qplus Qmult Qdiv dict_get skipn app];
    try (destruct (_getDesiredRGB rgbv cs con) as [[r g] b]);
    try match goal with
        | |- context [dict_get ?k shaders] =>
            destruct (dict_get_cases k shaders) as [[h ->] | ->]
        end;
    cbn -[Qplus Qmult Qdiv skipn app];
    repeat rewrite <- app_assoc; cbn [app]; rewrite ?skipn_length_app;
    (split; [reflexivity|]);
    (split; [eexists; reflexivity|]);
    repeat split.
Qed.

End DrawLights.

(** ** Dictionaries with string keys *)

Lemma sdict_mem_In {V} k (d : sdict V) :
  sdict_mem k d = true <-> In k (map fst d).
Proof.
  unfold sdict_mem. induction d as [|[k' v'] d IH]; simpl.
  - split; [discriminate|tauto].
  - destruct (String.eqb_spec k' k) as [->|Hne].
    + split; auto.
    + rewrite IH. split; [auto|]. intros [E|H]; [contradiction|exact H].
Qed.

Lemma sdict_lookup_set_same {V} k (v : V) d :
  sdict_lookup k (sdict_set k v d) = Some v.
Proof.
  induction d as [|[k' v'] d IH]; simpl.
  - now rewrite String.eqb_refl.
  - destruct (String.eqb_spec k' k) as [->|Hne]; simpl.
    + now rewrite String.eqb_refl.
    + destruct (String.eqb_spec k' k); [contradiction|exact IH].
Qed.

Lemma sdict_lookup_set_other {V} k k' (v : V) d :
  k <> k' -> sdict_lookup k' (sdict_set k v d) = sdict_lookup k' d.
Proof.
  intros Hne. induction d as [|[k0 v0] d IH]; simpl.
  - destruct (String.eqb_spec k k'); [contradiction|reflexivity].
  - destruct (String.eqb_spec k0 k) as [->|Hk]; simpl.
    + destruct (String.eqb_spec k k'); [contradiction|reflexivity].
    + destruct (String.eqb_spec k0 k'); auto.
Qed.

Lemma sdict_set_keys {V} k (v : V) d :
  map fst (sdict_set k v d) =
  if sdict_mem k d then map fst d else map fst d ++ [k].
Proof.
  unfold sdict_mem. induction d as [|[k' v'] d IH]; simpl; [reflexivity|].
  destruct (String.eqb_spec k' k) as [->|Hne]; simpl; [reflexivity|].
  rewrite IH. destruct (sdict_lookup k d); reflexivity.
Qed.

Lemma sdict_set_In {V} k (v : V) d n x :
  In (n, x) (sdict_set k v d) -> (n = k /\ x = v) \/ In (n, x) d.
Proof.
  induction d as [|[k' v'] d IH]; simpl.
  - intros [[= <- <-]|[]]. auto.
  - destruct (String.eqb_spec k' k) as [->|Hne]; simpl.
    + intros [[= <- <-]|H]; auto.
    + intros [E|H]; [auto|]. destruct (IH H); auto.
Qed.

Lemma sdict_lookup_In {V} k (d : sdict V) v :
  sdict_lookup k d = Some v -> In (k, v) d.
Proof.
  induction d as [|[k' v'] d IH]; simpl; [discriminate|].
  destruct (String.eqb_spec k' k) as [->|Hne].
  - intros [= ->]. auto.
  - auto.
Qed.

Lemma sdict_set_keys_NoDup {V} k (v : V) d :
  NoDup (map fst d) -> NoDup (map fst (sdict_set k v d)).
Proof.
  intros Hnd. rewrite sdict_set_keys.
  destruct (sdict_mem k d) eqn:E; [exact Hnd|].
  apply NoDup_app; [exact Hnd | constructor; [simpl; tauto|constructor] |].
  intros x Hx [<-|[]].
  apply sdict_mem_In in Hx. congruence.
Qed.

(** ** The loop of the loader *)

Lemma for_each_app {S A} (body : A -> M S unit) (l1 l2 : list A) (s : S) :
  for_each (l1 ++ l2) body s =
  match for_each l1 body s with
  | (Ok _, s') => for_each l2 body s'
  | (Raise e, s') => (Raise e, s')
  end.
Proof.
  revert s. induction l1 as [|a l1 IH]; intros s; simpl; [reflexivity|].
  unfold bind. destruct (body a s) as [[[]|e] s']; [apply IH|reflexivity].
Qed.

Section LoaderFacts.
Context {C : ColorTools} {L : LoaderTools}.

Import ObjMeshStim.

(** The branch [directive] takes is the one [classify] names. *)
Ltac by_kind H :=
  unfold classify in H; unfold directive; cbv zeta in *;
  repeat match goal with
         | |- context [startswith ?p ?l] =>
             destruct (startswith p l); try discriminate H
         end.

Lemma directive_ignored (mtlFile line : string) (st : loader) :
  classify line = Ignored -> directive mtlFile line st = (Ok tt, st).
Proof. intros H. by_kind H. reflexivity. Qed.

Lemma directive_Ns (mtlFile line : string) :
  classify line = Ns ->
  directive mtlFile line =
  on_current (fun m =>
    match py_float (drop 3 (strip line)) with
    | Some x => PhongMaterial.set_shininess x m
    | None => (Raise ValueError, m)
    end).
Proof. intros H. by_kind H. reflexivity. Qed.

Lemma directive_color (mtlFile line : string) (c : PhongMaterial.color) :
  colorOf (classify line) = Some c ->
  directive mtlFile line = colorDirective c (strip line).
Proof.
  intros H. unfold colorOf in H.
  destruct (classify line) eqn:E; try discriminate H;
    injection H as <-; by_kind E; reflexivity.
Qed.

Lemma directive_newmtl (mtlFile line : string) (st : loader) :
  classify line = NewMtl ->
  directive mtlFile line st =
  match newMaterial with
  | Ok m =>
      (Ok tt,
       mkLoader (sdict_set (drop 7 (strip line)) m (foundMaterials st))
                (foundTextures st) (Some (drop 7 (strip line))) (opened st))
  | Raise e =>
      (Raise e,
       mkLoader (foundMaterials st) (foundTextures st)
                (Some (drop 7 (strip line))) (opened st))
  end.
Proof.
  intros H. by_kind H.
  unfold bind, modify, lift. simpl. destruct newMaterial; reflexivity.
Qed.

End LoaderFacts.

Section LoaderInvariant.
Context {C : ColorTools} {L : LoaderTools}.

Import ObjMeshStim.

Lemma directive_mapKd (mtlFile line : string) (st : loader) :
  classify line = MapKd ->
  directive mtlFile line st =
  let name := drop 7 (strip line) in
  let attach tex :=
    on_current (modify (PhongMaterial.set_diffuseTexture (Some tex))) in
  if sdict_mem name (foundTextures st)
  then match sdict_get name (foundTextures st) with
       | Ok tex => attach tex st
       | Raise e => (Raise e, st)
       end
  else match loadTexture mtlFile name with
       | Ok tex =>
           attach tex
             (mkLoader (foundMaterials st)
                       (sdict_set name tex (foundTextures st))
                       (thisMaterial st) (opened st ++ [name]))
       | Raise e =>
           (Raise e,
            mkLoader (foundMaterials st) (foundTextures st)
                     (thisMaterial st) (opened st ++ [name]))
       end.
Proof.
  intros H. unfold classify in H. unfold directive. cbv zeta in *.
  repeat match goal with
         | |- context [startswith ?p ?l] =>
             destruct (startswith p l); try discriminate H
         end.
  unfold bind at 1. unfold get at 1.
  destruct (sdict_mem (drop 7 (strip line)) (foundTextures st)) eqn:E.
  - cbn [negb]. unfold ret, bind, get, lift.
    destruct (sdict_get _ _); reflexivity.
  - cbn [negb]. unfold bind, modify, lift, get.
    cbn [foundTextures foundMaterials thisMaterial opened].
    destruct (loadTexture mtlFile (drop 7 (strip line))); [|reflexivity].
    cbn [foundTextures foundMaterials thisMaterial opened].
    unfold sdict_get. rewrite sdict_lookup_set_same. reflexivity.
Qed.

(** An assignment to a colour, to the shininess or to the diffuse
    texture leaves a material as constructed, whether it raises or
    not. *)
Lemma set_color_asConstructed c v m :
  asConstructed m -> asConstructed (snd (PhongMaterial.set_color c v m)).
Proof.
  unfold asConstructed, PhongMaterial.set_color, PhongMaterial.setColor,
    PhongMaterial.set_RGB, bind, modify, get, PhongMaterial.lift,
    LightSource.store3.
  cbn [PhongMaterial.colorSpace PhongMaterial.with_sourceColor
       PhongMaterial.with_cache PhongMaterial.contrast PhongMaterial.opacity
       PhongMaterial.cache].
  match goal with
  | |- context [assign3 ?l] => destruct (assign3 l)
  end; destruct c; simpl; auto.
Qed.

Lemma newMaterial_asConstructed m : newMaterial = Ok m -> asConstructed m.
Proof.
  unfold newMaterial, PhongMaterial.__init__. simpl rbind.
  unfold bind at 1. unfold modify at 1.
  unfold bind at 1. unfold modify at 1.
  unfold bind at 1. unfold modify at 1.
  set (m0 := PhongMaterial.set_contrast 1 _).
  assert (H0 : asConstructed m0) by (repeat split).
  clearbody m0.
  unfold bind at 1.
  pose proof (set_color_asConstructed PhongMaterial.diffuse
                [1 # 2; 1 # 2; 1 # 2] H0) as H1.
  destruct (PhongMaterial.set_color PhongMaterial.diffuse _ m0)
    as [[[]|e] m1]; [|discriminate]. simpl in H1.
  unfold bind at 1.
  pose proof (set_color_asConstructed PhongMaterial.specular
                [- (1); - (1); - (1)] H1) as H2.
  destruct (PhongMaterial.set_color PhongMaterial.specular _ m1)
    as [[[]|e] m2]; [|discriminate]. simpl in H2.
  unfold bind at 1.
  pose proof (set_color_asConstructed PhongMaterial.ambient
                [- (1); - (1); - (1)] H2) as H3.
  destruct (PhongMaterial.set_color PhongMaterial.ambient _ m2)
    as [[[]|e] m3]; [|discriminate]. simpl in H3.
  unfold bind at 1.
  pose proof (set_color_asConstructed PhongMaterial.emission
                [- (1); - (1); - (1)] H3) as H4.
  destruct (PhongMaterial.set_color PhongMaterial.emission _ m3)
    as [[[]|e] m4]; [|discriminate]. simpl in H4.
  unfold modify. intros [= <-].
  destruct H4 as (A & B & E & _). repeat split; assumption.
Qed.

Lemma on_current_invariant (f : M PhongMaterial.t unit) st r st' :
  (forall m, asConstructed m -> asConstructed (snd (f m))) ->
  loaderInvariant st ->
  on_current f st = (r, st') ->
  loaderInvariant st' /\
  map fst (foundMaterials st') = map fst (foundMaterials st).
Proof.
  intros Hf Hinv Hrun.
  assert (Hinv' := Hinv). destruct Hinv' as (I1 & I2 & I3 & I4 & I5).
  unfold on_current in Hrun.
  destruct (thisMaterial st) as [name|] eqn:Et;
    [|injection Hrun as <- <-; split; [exact Hinv|reflexivity]].
  destruct (sdict_lookup name (foundMaterials st)) as [m|] eqn:El;
    [|injection Hrun as <- <-; split; [exact Hinv|reflexivity]].
  specialize (Hf m). destruct (f m) as [r' m']. injection Hrun as <- <-.
  assert (Hmem : sdict_mem name (foundMaterials st) = true)
    by (unfold sdict_mem; now rewrite El).
  assert (Hkeys : map fst (sdict_set name m' (foundMaterials st))
                  = map fst (foundMaterials st))
    by (now rewrite sdict_set_keys, Hmem).
  split; [|exact Hkeys].
  unfold loaderInvariant.
  cbn [foundMaterials foundTextures thisMaterial opened].
  split; [|split; [|split; [|split]]]; auto.
  - intros n Hn. apply sdict_mem_In. rewrite Hkeys. apply sdict_mem_In.
    apply I1. congruence.
  - intros n x Hin. apply sdict_set_In in Hin as [[-> ->]|Hin].
    + apply Hf. apply (I2 name). now apply sdict_lookup_In.
    + eapply I2; eauto.
  - now rewrite Hkeys.
Qed.

(** One line keeps the invariant if the loop goes on, and in any case
    leaves no texture opened twice; the names in the dictionary are
    those that were there, and the one a [newmtl] line declares. *)
Lemma directive_invariant mtlFile line st r st' :
  loaderInvariant st ->
  directive mtlFile line st = (r, st') ->
  NoDup (opened st') /\
  (r = Ok tt ->
   loaderInvariant st' /\
   (forall k, In k (map fst (foundMaterials st')) <->
              In k (map fst (foundMaterials st)) \/
              (classify line = NewMtl /\ k = drop 7 (strip line)))).
Proof.
  intros Hinv Hrun.
  assert (Hinv' := Hinv). destruct Hinv' as (I1 & I2 & I3 & I4 & I5).
  destruct (classify line) eqn:E.
  - (* newmtl *)
    rewrite directive_newmtl in Hrun by exact E.
    destruct newMaterial as [m|e] eqn:Em; injection Hrun as <- <-;
      (split; [exact I5|]); [|discriminate].
    intros _. split.
    + unfold loaderInvariant.
      cbn [foundMaterials foundTextures thisMaterial opened].
      split; [|split; [|split; [|split]]]; auto.
      * intros n [= <-]. unfold sdict_mem.
        now rewrite sdict_lookup_set_same.
      * intros n x Hin. apply sdict_set_In in Hin as [[-> ->]|Hin].
        -- now apply newMaterial_asConstructed.
        -- eapply I2; eauto.
      * now apply sdict_set_keys_NoDup.
    + intros k. cbn [foundMaterials]. rewrite sdict_set_keys.
      destruct (sdict_mem _ _) eqn:Hm.
      * split; [auto|]. intros [H|[_ ->]]; [exact H|].
        now apply sdict_mem_In.
      * rewrite in_app_iff. simpl. split.
        -- intros [H|[<-|[]]]; auto.
        -- intros [H|[_ ->]]; auto.
  - (* Ns *)
    rewrite directive_Ns in Hrun by exact E.
    apply on_current_invariant in Hrun as (Hi & Hk); auto.
    + split; [apply Hi|]. intros _. split; [exact Hi|].
      intros k. rewrite Hk. split; [auto|]. intros [H|[H _]]; [exact H|discriminate].
    + intros m Hm. destruct (py_float _); exact Hm.
  - (* Ks *)
    rewrite (directive_color mtlFile line (c := PhongMaterial.specular))
      in Hrun by (now rewrite E).
    unfold colorDirective, bind, lift in Hrun.
    destruct (floats _) as [vals|e];
      [|injection Hrun as <- <-; split; [exact I5|discriminate]].
    apply on_current_invariant in Hrun as (Hi & Hk); auto.
    + split; [apply Hi|]. intros _. split; [exact Hi|].
      intros k. rewrite Hk. split; [auto|]. intros [H|[H _]]; [exact H|discriminate].
    + intros m. apply set_color_asConstructed.
  - (* Kd *)
    rewrite (directive_color mtlFile line (c := PhongMaterial.diffuse))
      in Hrun by (now rewrite E).
    unfold colorDirective, bind, lift in Hrun.
    destruct (floats _) as [vals|e];
      [|injection Hrun as <- <-; split; [exact I5|discriminate]].
    apply on_current_invariant in Hrun as (Hi & Hk); auto.
    + split; [apply Hi|]. intros _. split; [exact Hi|].
      intros k. rewrite Hk. split; [auto|]. intros [H|[H _]]; [exact H|discriminate].
    + intros m. apply set_color_asConstructed.
  - (* Ka *)
    rewrite (directive_color mtlFile line (c := PhongMaterial.ambient))
      in Hrun by (now rewrite E).
    unfold colorDirective, bind, lift in Hrun.
    destruct (floats _) as [vals|e];
      [|injection Hrun as <- <-; split; [exact I5|discriminate]].
    apply on_current_invariant in Hrun as (Hi & Hk); auto.
    + split; [apply Hi|]. intros _. split; [exact Hi|].
      intros k. rewrite Hk. split; [auto|]. intros [H|[H _]]; [exact H|discriminate].
    + intros m. apply set_color_asConstructed.
  - (* map_Kd *)
    rewrite directive_mapKd in Hrun by exact E. cbv zeta in Hrun.
    destruct (sdict_mem _ (foundTextures st)) eqn:Hm.
    + destruct (sdict_get _ _) as [tex|e];
        [|injection Hrun as <- <-; split; [exact I5|discriminate]].
      apply on_current_invariant in Hrun as (Hi & Hk); auto.
      split; [apply Hi|]. intros _. split; [exact Hi|].
      intros k. rewrite Hk. split; [auto|]. intros [H|[H _]]; [exact H|discriminate].
    + assert (Hfresh : NoDup (opened st ++ [drop 7 (strip line)])).
      { apply NoDup_app; [exact I5 | constructor; [simpl; tauto|constructor] |].
        intros x Hx [<-|[]]. rewrite I4 in Hx.
        apply sdict_mem_In in Hx. congruence. }
      destruct (loadTexture _ _) as [tex|e];
        [|injection Hrun as <- <-; split; [exact Hfresh|discriminate]].
      apply on_current_invariant in Hrun as (Hi & Hk); auto.
      * split; [apply Hi|]. intros _. split; [exact Hi|].
        intros k. rewrite Hk. cbn [foundMaterials].
        split; [auto|]. intros [H|[H _]]; [exact H|discriminate].
      * unfold loaderInvariant.
        cbn [foundMaterials foundTextures thisMaterial opened].
        split; [|split; [|split; [|split]]]; auto.
        now rewrite sdict_set_keys, Hm, I4.
  - (* ignored *)
    rewrite directive_ignored in Hrun by exact E. injection Hrun as <- <-.
    split; [exact I5|]. intros _. split; [exact Hinv|].
    intros k. split; [auto|]. intros [H|[H _]]; [exact H|discriminate].
Qed.

Lemma start_invariant : loaderInvariant start.
Proof.
  unfold loaderInvariant, start. simpl.
  repeat split; try constructor; try discriminate; tauto.
Qed.

Lemma for_each_invariant mtlFile lines :
  forall st r st',
    loaderInvariant st ->
    for_each lines (directive mtlFile) st = (r, st') ->
    NoDup (opened st') /\
    (r = Ok tt ->
     loaderInvariant st' /\
     (forall k, In k (map fst (foundMaterials st')) <->
                In k (map fst (foundMaterials st)) \/
                exists line, In line lines /\ classify line = NewMtl /\
                             k = drop 7 (strip line))).
Proof.
  induction lines as [|line lines IH]; intros st r st' Hinv Hrun.
  - injection Hrun as <- <-. split; [apply Hinv|].
    intros _. split; [exact Hinv|].
    intros k. split; [auto|]. intros [H|(l & [] & _)]. exact H.
  - simpl in Hrun. unfold bind in Hrun.
    destruct (directive mtlFile line st) as [[[]|e] st1] eqn:Ed.
    + destruct (directive_invariant _ _ Hinv Ed) as (_ & H1).
      destruct (H1 eq_refl) as (Hinv1 & Hk1).
      destruct (IH _ _ _ Hinv1 Hrun) as (Hnd & H2).
      split; [exact Hnd|]. intros Hr.
      destruct (H2 Hr) as (Hinv2 & Hk2). split; [exact Hinv2|].
      intros k. rewrite Hk2, Hk1. split.
      * intros [[H|(Hc & ->)]|(l & Hl & Hc & ->)]; eauto 6.
        -- right. exists line. simpl. auto.
        -- right. exists l. simpl. auto.
      * intros [H|(l & [<-|Hl] & Hc & ->)]; eauto 6.
    + injection Hrun as <- <-.
      destruct (directive_invariant _ _ Hinv Ed) as (Hnd & _).
      split; [exact Hnd|discriminate].
Qed.

End LoaderInvariant.

(** ** The material library loader *)

Lemma rstrip_keeps_head c s :
  isspace c = false -> exists t, rstrip (String c s) = String c t.
Proof.
  intros Hc. simpl. destruct (rstrip s); [rewrite Hc|]; eauto.
Qed.

Section LoaderTheorems.
Context {C : ColorTools} {L : LoaderTools}.

Import ObjMeshStim.

(** X22.  Lines that none of the six tests recognises do nothing:
    removing one from a library changes neither the outcome of the
    loop nor what it has built.  Comment lines (a [#] first) and empty
    lines are such lines. *)
Theorem loader_ignores_unknown_lines
    (mtlFile : string) (before after : list string) (line : string) :
  classify line = Ignored ->
  loadLines mtlFile (before ++ line :: after)
    = loadLines mtlFile (before ++ after) /\
  (forall s, classify (String "#" s) = Ignored) /\
  classify "" = Ignored.
Proof.
  intros H. split; [|split].
  - unfold loadLines. rewrite !for_each_app.
    destruct (for_each before _ start) as [[[]|e] st]; [|reflexivity].
    simpl. unfold bind. now rewrite directive_ignored.
  - intros s. unfold classify, strip. cbn [lstrip].
    change (isspace "#") with false. cbv iota.
    destruct (@rstrip_keeps_head "#"%char s eq_refl) as (t & ->).
    reflexivity.
  - reflexivity.
Qed.

Lemma ignored_lines_do_nothing (mtlFile : string) (lines : list string) st :
  Forall (fun l => classify l = Ignored) lines ->
  for_each lines (directive mtlFile) st = (Ok tt, st).
Proof.
  induction 1 as [|l lines Hl _ IH]; simpl; [reflexivity|].
  unfold bind. now rewrite directive_ignored.
Qed.

(** X23.  A directive for the current material that comes before any
    [newmtl] line ends the loading with [KeyError]: an [Ns] line
    whatever it holds, a colour line whose numbers can be read, a
    [map_Kd] line whose texture can be opened (and has been, by
    then). *)
Theorem loader_directive_before_newmtl_raises
    (mtlFile : string) (before after : list string) (line : string) :
  Forall (fun l => classify l = Ignored) before ->
  classify line = Ns \/
  (colorOf (classify line) <> None /\
   is_ok (floats (split " " (drop 3 (strip line)))) = true) \/
  (classify line = MapKd /\
   is_ok (loadTexture mtlFile (drop 7 (strip line))) = true) ->
  fst (loadLines mtlFile (before ++ line :: after)) = Raise KeyError.
Proof.
  intros Hb Hline. unfold loadLines.
  rewrite for_each_app, ignored_lines_do_nothing by exact Hb.
  simpl. unfold bind.
  destruct Hline as [E|[(Hc & Hf)|(E & Ht)]].
  - rewrite directive_Ns by exact E. reflexivity.
  - destruct (colorOf (classify line)) as [c|] eqn:Ec; [|contradiction].
    rewrite (directive_color mtlFile line Ec).
    unfold colorDirective, bind, lift.
    destruct (floats _); [reflexivity|discriminate].
  - rewrite directive_mapKd by exact E. simpl.
    destruct (loadTexture _ _); [reflexivity|discriminate].
Qed.

(** X24.  A colour line [Kd r g b] (or [Ks], [Ka]) read after the
    lines [before], which declared a material: the loop goes on, the
    current material gets the source colour [(2r-1, 2g-1, 2b-1)], and
    its device-space cache is then [(r, g, b, 1)]: the rescaling of
    the loader and the formula of the setter cancel out.  This needs
    the conversion from ['rgb'] to be the identity. *)
Theorem loader_color_round_trip
    (mtlFile : string) (before : list string) (line : string)
    (st : loader) (name : string) (c : PhongMaterial.color) (r g b : Q) :
  (forall v, toRGB "rgb" v = v) ->
  loadLines mtlFile before = (Ok tt, st) ->
  thisMaterial st = Some name ->
  colorOf (classify line) = Some c ->
  floats (split " " (drop 3 (strip line))) = Ok [r; g; b] ->
  exists st' m',
    loadLines mtlFile (before ++ [line]) = (Ok tt, st') /\
    sdict_lookup name (foundMaterials st') = Some m' /\
    PhongMaterial.sourceColor c m' = [2 * r - 1; 2 * g - 1; 2 * b - 1] /\
    veq (PhongMaterial.cache c m') [r; g; b; 1] /\
    map fst (foundMaterials st') = map fst (foundMaterials st).
Proof.
  intros Hrgb Hrun Hcur Hc Hvals.
  destruct (for_each_invariant mtlFile before start_invariant Hrun)
    as (_ & Hinv).
  destruct (Hinv eq_refl) as ((I1 & I2 & I3 & I4 & I5) & _).
  specialize (I1 name Hcur). unfold sdict_mem in I1.
  destruct (sdict_lookup name (foundMaterials st)) as [m|] eqn:El;
    [|discriminate].
  destruct (I2 name m (sdict_lookup_In _ _ El)) as (Hcon & Hopa & Hcs & _).
  destruct (@set_color_spec C c [2 * r - 1; 2 * g - 1; 2 * b - 1] m)
    as (m' & Hset & Hcache & Hsrc & _).
  { now rewrite Hcs, Hrgb. }
  exists (mkLoader (sdict_set name m' (foundMaterials st)) (foundTextures st)
                   (thisMaterial st) (opened st)), m'.
  split; [|split; [|split; [|split]]].
  - unfold loadLines in *. rewrite for_each_app, Hrun. simpl. unfold bind.
    rewrite (directive_color mtlFile line Hc).
    unfold colorDirective, bind, lift. rewrite Hvals.
    unfold on_current. rewrite Hcur, El. cbn [map]. rewrite Hset.
    reflexivity.
  - cbn [foundMaterials]. apply sdict_lookup_set_same.
  - exact Hsrc.
  - rewrite Hcache, Hcs, Hrgb, Hcon, Hopa. unfold deviceSpace. simpl.
    repeat constructor; field.
  - cbn [foundMaterials]. rewrite sdict_set_keys.
    unfold sdict_mem. now rewrite El.
Qed.

(** X25.  However the loading ends, no texture file has been opened
    twice: a [map_Kd] line opens its file only if no earlier line
    named it.  When the loop reaches the end, the textures in the
    cache are the files opened, in order. *)
Theorem loader_opens_each_texture_once
    (mtlFile : string) (lines : list string) :
  let st := snd (loadLines mtlFile lines) in
  NoDup (opened st) /\
  (fst (loadLines mtlFile lines) = Ok tt ->
   map fst (foundTextures st) = opened st).
Proof.
  unfold loadLines.
  destruct (for_each lines (directive mtlFile) start) as [r st] eqn:E.
  destruct (for_each_invariant mtlFile lines start_invariant E) as (Hnd & H).
  split; [exact Hnd|]. simpl. intros ->.
  destruct (H eq_refl) as ((_ & _ & _ & I4 & _) & _). now rewrite I4.
Qed.

(** X26.  When [_loadMtlLib] returns, its dictionary has one entry for
    each name declared by a [newmtl] line (what follows ['newmtl '] on
    the stripped line), no two entries with the same name, and no
    other entry.  Every material in it still has contrast 1, opacity 1
    and [_useTextures] false, also those a [map_Kd] line gave a
    texture to. *)
Theorem loadMtlLib_returns_the_declared_materials
    (mtlFile text : string) (d : sdict PhongMaterial.t) :
  _loadMtlLib mtlFile text = Ok d ->
  NoDup (map fst d) /\
  (forall k, In k (map fst d) <->
             exists line, In line (readlines text) /\
                          classify line = NewMtl /\
                          k = drop 7 (strip line)) /\
  (forall name m, In (name, m) d ->
     PhongMaterial._useTextures m = false /\
     PhongMaterial.contrast m = 1 /\
     PhongMaterial.opacity m = 1).
Proof.
  unfold _loadMtlLib, loadLines.
  destruct (for_each (readlines text) (directive mtlFile) start)
    as [[[]|e] st] eqn:E; [|discriminate].
  intros [= <-].
  destruct (for_each_invariant mtlFile (readlines text) start_invariant E)
    as (_ & H).
  destruct (H eq_refl) as ((_ & I2 & I3 & _) & Hk).
  split; [exact I3|]. split.
  - intros k. rewrite Hk. simpl. split; [intros [[]|H']; exact H'|auto].
  - intros name m Hin. destruct (I2 name m Hin) as (A & B & _ & U). auto.
Qed.

End LoaderTheorems.

(** ** Drawing a mesh *)

Section MeshDraw.
Context {MT : MathTools}.
Variable shaders : dict handle.

Import ObjMeshStim.

(** The prologue never raises: it marks the window, pushes the matrix
    stack and uploads the pose's matrix. *)
Lemma prologue_runs (x : world) :
  exists m x1,
    prologue x = (Ok tt, x1) /\
    gpu x1 = gpu x ++ [glPushMatrix; glLoadTransposeMatrixf m] /\
    material (self x1) = material (self x) /\
    _vao (self x1) = _vao (self x) /\
    _useShaders (self x1) = _useShaders (self x) /\
    lights (win (self x1)) = lights (win (self x)) /\
    draw3d (activeWindow x1) = true.
Proof.
  destruct x as [[w [ps q mm im f fi n] ush mat v] aw calls].
  destruct aw as [aw|], f;
    unfold prologue, bind, get, ret, set_draw3d, gl, modify, on_pose,
      RigidBodyPose.modelMatrix, RigidBodyPose.getModelMatrix, activeWindow;
    cbn -[app]; rewrite <- app_assoc;
    eexists; eexists; (split; [reflexivity|]); repeat split.
Qed.

(** The loop over the groups, when every lookup it makes succeeds. *)
Lemma drawGroups_runs (items : sdict PhongMaterial.t) :
  forall (mtlIndex nMaterials : nat) (nLights : pyval) (x : world),
    (mtlIndex + List.length items = nMaterials)%nat ->
    (forall name m, In (name, m) items ->
                    sdict_mem name (_vao (self x)) = true) ->
    (_useShaders (self x) = true ->
     forall name m, In (name, m) items ->
       is_ok (dict_get [nLights; PyBool (PhongMaterial._useTextures m)]
                       shaders) = true) ->
    drawGroups shaders items mtlIndex nMaterials nLights x =
    (Ok tt,
     mkWorld (self x) (argwin x)
       (gpu x ++ groupCalls (_useShaders (self x)) (progOf shaders nLights)
                            (vaoOf (_vao (self x))) items)).
Proof.
  induction items as [|[name m] items IH];
    intros mtlIndex nMaterials nLights x Hn Hvao Hsh.
  - simpl. rewrite app_nil_r. destruct x; reflexivity.
  - assert (Hv : sdict_mem name (_vao (self x)) = true)
      by (apply (Hvao name m); simpl; auto).
    unfold sdict_mem in Hv.
    destruct (sdict_lookup name (_vao (self x))) as [vao|] eqn:Ev;
      [|discriminate].
    assert (Hvo : vaoOf (_vao (self x)) name = vao)
      by (unfold vaoOf; now rewrite Ev).
    cbn [drawGroups groupCalls].
    unfold bind at 1. unfold gl at 1, modify at 1.
    unfold bind at 1. unfold get at 1. cbn [self].
    destruct (_useShaders (self x)) eqn:Eu.
    + specialize (Hsh eq_refl).
      assert (Hp := Hsh name m (or_introl eq_refl)).
      unfold dict_get in Hp.
      destruct (dict_lookup _ shaders) as [h|] eqn:Eh; [|discriminate].
      assert (Hpo : progOf shaders nLights m = h)
        by (unfold progOf; now rewrite Eh).
      unfold bind at 1. unfold bind at 1. unfold lift at 1.
      unfold dict_get. rewrite Eh. unfold gl at 1, modify at 1.
      unfold bind at 1. unfold lift at 1. unfold sdict_get. rewrite Ev.
      unfold bind at 1. unfold gl at 1, modify at 1.
      cbn [self argwin gpu].
      destruct items as [|item items].
      * replace (Nat.eqb (S mtlIndex) nMaterials) with true
          by (symmetry; apply Nat.eqb_eq; simpl in Hn; lia).
        unfold bind, gl, modify, ret. cbn [self argwin gpu drawGroups].
        rewrite Hvo, Hpo. repeat rewrite <- app_assoc. reflexivity.
      * replace (Nat.eqb (S mtlIndex) nMaterials) with false
          by (symmetry; apply Nat.eqb_neq; simpl in Hn; lia).
        unfold bind at 1. unfold ret at 1.
        rewrite IH.
        -- cbn [self argwin gpu]. rewrite Eu, Hvo, Hpo.
           repeat rewrite <- app_assoc. reflexivity.
        -- simpl in *. lia.
        -- intros n' m' Hin. cbn [self]. apply (Hvao n' m'). simpl; auto.
        -- cbn [self]. intros _ n' m' Hin. apply (Hsh n' m'). simpl; auto.
    + unfold bind at 1. unfold ret at 1.
      unfold bind at 1. unfold lift at 1. unfold sdict_get. rewrite Ev.
      unfold bind at 1. unfold gl at 1, modify at 1.
      cbn [self argwin gpu].
      destruct items as [|item items].
      * replace (Nat.eqb (S mtlIndex) nMaterials) with true
          by (symmetry; apply Nat.eqb_eq; simpl in Hn; lia).
        unfold bind, gl, modify, ret. cbn [self argwin gpu drawGroups].
        rewrite Hvo. repeat rewrite <- app_assoc. reflexivity.
      * replace (Nat.eqb (S mtlIndex) nMaterials) with false
          by (symmetry; apply Nat.eqb_neq; simpl in Hn; lia).
        unfold bind at 1. unfold ret at 1.
        rewrite IH.
        -- cbn [self argwin gpu]. rewrite Eu, Hvo.
           repeat rewrite <- app_assoc. reflexivity.
        -- simpl in *. lia.
        -- intros n' m' Hin. cbn [self]. apply (Hvao n' m'). simpl; auto.
        -- cbn [self]. rewrite Eu. discriminate.
Qed.

End MeshDraw.

Lemma filter_drawVAO_groupCalls useShaders progOf' vaoOf' items :
  filter is_drawVAO (groupCalls useShaders progOf' vaoOf' items)
  = map (fun item => drawVAO (vaoOf' (fst item))) items.
Proof.
  induction items as [|[name m] items IH]; [reflexivity|].
  cbn [groupCalls map fst]. cbn [filter is_drawVAO].
  rewrite filter_app. cbn [filter is_drawVAO].
  replace (filter is_drawVAO
             (if useShaders then [useProgram (progOf' m)] else []))
    with (@nil glcall) by (destruct useShaders; reflexivity).
  cbn [app]. f_equal.
  destruct items as [|item items]; [|exact IH].
  destruct useShaders; reflexivity.
Qed.

Section MeshDrawTheorems.
Context {C : ColorTools} {L : LoaderTools} {MT : MathTools}.
Variable shaders : dict handle.

Import ObjMeshStim.

(** X27.  A mesh whose material is a library, with a VAO under every
    name of the library and, when shaders are on, a program in the
    table for every material: [draw] returns, and between the upload
    of the matrix and [glPopMatrix] it has issued, for each material
    in the order of the library, its binding, its program if shaders
    are on, and one [drawVAO] on the VAO of its name; only the last
    material is cleared.  So there is exactly one draw call per
    material.  The last statement of [draw] sets [draw3d] again, so the
    window is left with [draw3d] true. *)
Theorem mesh_draw_one_call_per_material
    (x : world) (d : sdict PhongMaterial.t) :
  material (self x) = Library d ->
  (forall name m, In (name, m) d -> sdict_mem name (_vao (self x)) = true) ->
  (_useShaders (self x) = true ->
   forall name m, In (name, m) d ->
     is_ok (dict_get [PyInt (Z.of_nat (List.length (lights (win (self x)))));
                      PyBool (PhongMaterial._useTextures m)] shaders) = true) ->
  let nLights := PyInt (Z.of_nat (List.length (lights (win (self x))))) in
  exists m x',
    draw shaders x = (Returned, x') /\
    meshIssued x x' =
      glPushMatrix :: glLoadTransposeMatrixf m
        :: groupCalls (_useShaders (self x)) (progOf shaders nLights)
                      (vaoOf (_vao (self x))) d
        ++ [glPopMatrix] /\
    filter is_drawVAO (meshIssued x x') =
      map (fun item => drawVAO (vaoOf (_vao (self x)) (fst item))) d /\
    draw3d (activeWindow x') = true.
Proof.
  intros Hmat Hvao Hsh nLights.
  destruct (prologue_runs x)
    as (m & x1 & Hpro & Hgpu & Hm1 & Hv1 & Hu1 & Hl1 & _).
  exists m.
  unfold draw. rewrite Hpro, Hm1, Hmat. unfold bind at 1.
  rewrite drawGroups_runs.
  - unfold epilogue, bind, gl, modify, set_draw3d, finish.
    cbn [self argwin gpu].
    rewrite Hl1, Hu1, Hv1, Hgpu. fold nLights.
    eexists. split; [reflexivity|].
    unfold meshIssued. cbn [gpu].
    assert (Hcalls :
      skipn (List.length (gpu x))
        (((gpu x ++ [glPushMatrix; glLoadTransposeMatrixf m]) ++
          groupCalls (_useShaders (self x)) (progOf shaders nLights)
                     (vaoOf (_vao (self x))) d) ++ [glPopMatrix])
      = glPushMatrix :: glLoadTransposeMatrixf m
          :: groupCalls (_useShaders (self x)) (progOf shaders nLights)
                        (vaoOf (_vao (self x))) d ++ [glPopMatrix]).
    { repeat rewrite <- app_assoc. now rewrite skipn_length_app. }
    destruct (argwin x1) as [aw|]; cbn [argwin self gpu activeWindow win
                                        draw3d];
      rewrite Hcalls;
      (split; [reflexivity|]);
      (split; [|reflexivity]);
      cbn [filter is_drawVAO]; rewrite filter_app;
      rewrite filter_drawVAO_groupCalls; cbn [filter is_drawVAO];
      now rewrite app_nil_r.
  - reflexivity.
  - rewrite Hv1. exact Hvao.
  - rewrite Hu1, Hl1. exact Hsh.
Qed.

End MeshDrawTheorems.

Section MeshDrawErrors.
Context {C : ColorTools} {L : LoaderTools} {MT : MathTools}.
Variable shaders : dict handle.

Import ObjMeshStim.

(** If some material of the list has no VAO, the loop raises
    [KeyError]: at that material, or at an earlier lookup. *)
Lemma drawGroups_missing_vao (items : sdict PhongMaterial.t) :
  forall (mtlIndex nMaterials : nat) (nLights : pyval) (x : world),
    (exists name m, In (name, m) items /\
                    sdict_mem name (_vao (self x)) = false) ->
    fst (drawGroups shaders items mtlIndex nMaterials nLights x)
      = Raise KeyError.
Proof.
  induction items as [|[name m] items IH];
    intros mtlIndex nMaterials nLights x (n0 & m0 & Hin & Hmiss).
  - destruct Hin.
  - cbn [drawGroups].
    unfold bind at 1. unfold gl at 1, modify at 1.
    unfold bind at 1. unfold get at 1. cbn [self].
    assert (Hrest :
      forall x2, self x2 = self x ->
        sdict_mem name (_vao (self x)) = true ->
        fst (drawGroups shaders items (S mtlIndex) nMaterials nLights x2)
          = Raise KeyError).
    { intros x2 Hx2 Hhere. apply IH. exists n0, m0. rewrite Hx2.
      split; [|exact Hmiss].
      destruct Hin as [[= <- <-]|Hin]; [congruence|exact Hin]. }
    assert (Hvao :
      forall x1, self x1 = self x ->
        fst ((bind (lift (sdict_get name (_vao (self x))))
               (fun vao =>
                  bind (gl (drawVAO vao))
                    (fun _ =>
                       bind (if Nat.eqb (S mtlIndex) nMaterials
                             then
                               bind (if _useShaders (self x)
                                     then gl (useProgram 0%nat) else ret tt)
                                    (fun _ => gl (clearMaterial m))
                             else ret tt)
                         (fun _ =>
                            drawGroups shaders items (S mtlIndex) nMaterials
                                       nLights)))) x1)
        = Raise KeyError).
    { intros x1 Hx1. unfold bind at 1. unfold lift at 1, sdict_get.
      destruct (sdict_lookup name (_vao (self x))) as [vao|] eqn:Ev;
        [|reflexivity].
      assert (Hhere : sdict_mem name (_vao (self x)) = true)
        by (unfold sdict_mem; now rewrite Ev).
      unfold bind at 1. unfold gl at 1, modify at 1.
      unfold bind at 1.
      destruct (Nat.eqb (S mtlIndex) nMaterials);
        destruct (_useShaders (self x));
        unfold bind, gl, modify, ret; apply Hrest; auto. }
    destruct (_useShaders (self x)) eqn:Eu.
    + unfold bind at 1. unfold bind at 1. unfold lift at 1.
      destruct (dict_get_cases
                  [nLights; PyBool (PhongMaterial._useTextures m)] shaders)
        as [[h ->] | ->]; [|reflexivity].
      unfold gl at 1, modify at 1. apply Hvao. reflexivity.
    + unfold bind at 1. unfold ret at 1. apply Hvao. reflexivity.
Qed.

(** X28.  A mesh whose library holds a material that has no VAO under
    its name (a material of the library that no face of the OBJ file
    uses, for one): [draw] raises [KeyError], whatever the table holds
    and whether shaders are on or not. *)
Theorem mesh_draw_material_without_vao_raises
    (x : world) (d : sdict PhongMaterial.t) :
  material (self x) = Library d ->
  (exists name m, In (name, m) d /\
                  sdict_mem name (_vao (self x)) = false) ->
  fst (draw shaders x) = Raised (Builtin KeyError).
Proof.
  intros Hmat Hmiss.
  destruct (prologue_runs x)
    as (mm & x1 & Hpro & _ & Hm1 & Hv1 & _).
  unfold draw. rewrite Hpro, Hm1, Hmat. unfold bind at 1.
  pose proof (drawGroups_missing_vao d 0 (List.length d)
                (PyInt (Z.of_nat (List.length (lights (win (self x1))))))
                x1) as H.
  rewrite Hv1 in H. specialize (H Hmiss).
  destruct (drawGroups _ _ _ _ _ x1) as [[[]|e] x2]; simpl in H;
    [discriminate|].
  injection H as ->. reflexivity.
Qed.

(** X29.  [draw] needs a dictionary of materials.  With a single
    [PhongMaterial] it raises [TypeError], and this is what the
    constructor stores when no material is given and the OBJ file
    names no library; with [None] it raises [AttributeError].  In both
    cases the matrix has been pushed and uploaded, nothing is drawn,
    and [draw3d] stays on. *)
Theorem mesh_draw_needs_a_library (x : world) :
  let x1 := snd (draw shaders x) in
  (forall mat,
     chooseMaterial NoMaterial None = Ok mat ->
     material (self x) = mat ->
     fst (draw shaders x) = Raised TypeError) /\
  (forall m,
     material (self x) = OneMaterial m ->
     fst (draw shaders x) = Raised TypeError /\
     (exists mm, meshIssued x x1 = [glPushMatrix; glLoadTransposeMatrixf mm]) /\
     draw3d (activeWindow x1) = true) /\
  (material (self x) = NoMaterial ->
   fst (draw shaders x) = Raised AttributeError /\
   (exists mm, meshIssued x x1 = [glPushMatrix; glLoadTransposeMatrixf mm]) /\
   draw3d (activeWindow x1) = true).
Proof.
  destruct (prologue_runs x)
    as (mm & x1 & Hpro & Hgpu & Hm1 & _ & _ & _ & Hd).
  assert (Hone : forall m, material (self x) = OneMaterial m ->
            fst (draw shaders x) = Raised TypeError /\
            (exists mm, meshIssued x (snd (draw shaders x))
                        = [glPushMatrix; glLoadTransposeMatrixf mm]) /\
            draw3d (activeWindow (snd (draw shaders x))) = true).
  { intros m Hm. unfold draw, meshIssued. rewrite Hpro, Hm1, Hm. simpl.
    rewrite Hgpu, skipn_length_app. eauto. }
  cbv zeta. split; [|split].
  - intros mat Hch Hm. unfold chooseMaterial in Hch.
    destruct newMaterial as [m|e]; [|discriminate].
    injection Hch as <-. apply (Hone m Hm).
  - exact Hone.
  - intros Hm. unfold draw, meshIssued. rewrite Hpro, Hm1, Hm. simpl.
    rewrite Hgpu, skipn_length_app. eauto.
Qed.

End MeshDrawErrors.

(** ** The statements above, on the sample objects *)

Lemma draw_with_material_and_shaders_witness :
  fst (@BaseRigidBodyStim.draw rigid_tools rgb_tools
         (@_material_shaders_ counting_driver plain_sources [])
         (worldOf (materialStim true 7%nat sampleWindow))) = Ok tt.
Proof.
  assert (Hn : (1 <= List.length (lights sampleWindow) <= Z.to_nat MAX_LIGHTS)%nat)
    by (simpl; lia).
  destruct (@draw_with_material_and_shaders counting_driver plain_sources
              rigid_tools rgb_tools []
              (worldOf (materialStim true 7%nat sampleWindow)) 7%nat
              sampleMaterial counting_driver_fresh counting_driver_builds
              eq_refl eq_refl eq_refl Hn)
    as (h & m & _ & H & _).
  exact H.
Defined.

Lemma draw_with_unsupported_light_count_witness :
  fst (@BaseRigidBodyStim.draw rigid_tools rgb_tools
         (@_material_shaders_ counting_driver plain_sources [])
         (worldOf (materialStim true 7%nat darkWindow))) = Raise KeyError.
Proof.
  destruct (@draw_with_unsupported_light_count counting_driver plain_sources
              rigid_tools rgb_tools []
              (worldOf (materialStim true 7%nat darkWindow)) 7%nat
              sampleMaterial)
    as (m & H & _); [reflexivity | reflexivity | reflexivity
                     | left; reflexivity | ].
  exact H.
Defined.

Lemma draw_uploads_the_assigned_position_witness :
  exists body,
    issued (worldOf (boundStim false 7%nat))
      (snd (@BaseRigidBodyStim.draw rigid_tools rgb_tools []
              (snd (BaseRigidBodyStim.set_pos [1; 2; 3]
                      (worldOf (boundStim false 7%nat))))))
    = glPushMatrix
        :: glLoadTransposeMatrixf
             (@posOriToMatrix rigid_tools [1; 2; 3] [0; 0; 0; 1])
        :: body.
Proof.
  destruct (@draw_uploads_the_assigned_position rigid_tools rgb_tools []
              (worldOf (boundStim false 7%nat)) 7%nat [1; 2; 3] eq_refl)
    as (_ & H & _).
  exact H.
Defined.

Lemma loader_ignores_unknown_lines_witness :
  @ObjMeshStim.loadLines rgb_tools sampleLoader "lib.mtl"
     (["newmtl M"%string] ++ "illum 2"%string :: ["Ns 32"%string])
  = @ObjMeshStim.loadLines rgb_tools sampleLoader "lib.mtl"
      (["newmtl M"%string] ++ ["Ns 32"%string]).
Proof.
  apply (@loader_ignores_unknown_lines rgb_tools sampleLoader).
  reflexivity.
Defined.

Lemma loader_directive_before_newmtl_raises_witness :
  fst (@ObjMeshStim.loadLines rgb_tools sampleLoader "lib.mtl"
         (["# a library"%string] ++ "Kd 1 1 1"%string :: ["newmtl M"%string]))
  = Raise KeyError.
Proof.
  apply (@loader_directive_before_newmtl_raises rgb_tools sampleLoader).
  - repeat constructor.
  - right. left. split; [discriminate|reflexivity].
Defined.

Lemma loader_color_round_trip_witness :
  exists st' m',
    @ObjMeshStim.loadLines rgb_tools sampleLoader "lib.mtl"
       (["newmtl M"%string] ++ ["Kd 1 0.5 0"%string]) = (Ok tt, st') /\
    sdict_lookup "M" (ObjMeshStim.foundMaterials st') = Some m' /\
    veq (PhongMaterial.cache PhongMaterial.diffuse m') [1; 5 # 10; 0; 1].
Proof.
  destruct (@loader_color_round_trip rgb_tools sampleLoader "lib.mtl"%string
              ["newmtl M"%string] "Kd 1 0.5 0"%string
              (snd (@ObjMeshStim.loadLines rgb_tools sampleLoader "lib.mtl"
                      ["newmtl M"%string]))
              "M"%string PhongMaterial.diffuse 1 (5 # 10) 0)
    as (st' & m' & H1 & H2 & _ & H3 & _);
    [reflexivity | reflexivity | reflexivity | reflexivity | reflexivity | ].
  exists st', m'. split; [exact H1|]. split; [exact H2|exact H3].
Defined.

Lemma loader_opens_each_texture_once_witness :
  ObjMeshStim.opened
    (snd (@ObjMeshStim.loadLines rgb_tools sampleLoader "lib.mtl"
            ["newmtl M"; "map_Kd t.png"; "newmtl N"; "map_Kd t.png"]%string))
  = map fst
      (ObjMeshStim.foundTextures
         (snd (@ObjMeshStim.loadLines rgb_tools sampleLoader "lib.mtl"
                 ["newmtl M"; "map_Kd t.png"; "newmtl N";
                  "map_Kd t.png"]%string))).
Proof.
  symmetry.
  apply (@loader_opens_each_texture_once rgb_tools sampleLoader).
  reflexivity.
Defined.

Lemma loadMtlLib_returns_the_declared_materials_witness :
  exists d,
    @ObjMeshStim._loadMtlLib rgb_tools sampleLoader "lib.mtl" sampleText
      = Ok d /\
    map fst d = ["M"%string] /\
    NoDup (map fst d).
Proof.
  destruct (@ObjMeshStim._loadMtlLib rgb_tools sampleLoader "lib.mtl"
              sampleText) as [d|e] eqn:E;
    [|vm_compute in E; discriminate E].
  exists d. split; [reflexivity|]. split.
  - vm_compute in E. injection E as <-. reflexivity.
  - exact (proj1 (@loadMtlLib_returns_the_declared_materials
                    rgb_tools sampleLoader _ _ d E)).
Defined.

Lemma mesh_draw_one_call_per_material_witness :
  filter is_drawVAO
    (meshIssued
       (meshWorld false (ObjMeshStim.Library sampleLibrary)
                  [("a", 1); ("b", 2)]%string%nat)
       (snd (@ObjMeshStim.draw rigid_tools []
               (meshWorld false (ObjMeshStim.Library sampleLibrary)
                          [("a", 1); ("b", 2)]%string%nat))))
  = [drawVAO 1%nat; drawVAO 2%nat].
Proof.
  destruct (@mesh_draw_one_call_per_material rigid_tools []
              (meshWorld false (ObjMeshStim.Library sampleLibrary)
                         [("a", 1); ("b", 2)]%string%nat)
              sampleLibrary eq_refl)
    as (m & x' & Hrun & _ & Hcalls & _).
  - intros name mat [[= <- <-]|[[= <- <-]|[]]]; reflexivity.
  - discriminate.
  - rewrite Hrun. exact Hcalls.
Defined.

Lemma mesh_draw_material_without_vao_raises_witness :
  fst (@ObjMeshStim.draw rigid_tools []
         (meshWorld false (ObjMeshStim.Library sampleLibrary)
                    [("a", 1)]%string%nat))
  = ObjMeshStim.Raised (ObjMeshStim.Builtin KeyError).
Proof.
  apply (@mesh_draw_material_without_vao_raises rigid_tools []
           (meshWorld false (ObjMeshStim.Library sampleLibrary)
                      [("a", 1)]%string%nat)
           sampleLibrary eq_refl).
  exists "b"%string, sampleMaterial. split; [simpl; auto|reflexivity].
Defined.

Lemma mesh_draw_needs_a_library_witness :
  fst (@ObjMeshStim.draw rigid_tools []
         (meshWorld true (ObjMeshStim.OneMaterial sampleMaterial) []))
  = ObjMeshStim.Raised ObjMeshStim.TypeError.
Proof.
  destruct (@mesh_draw_needs_a_library rgb_tools sampleLoader rigid_tools []
              (meshWorld true (ObjMeshStim.OneMaterial sampleMaterial) []))
    as (_ & H & _).
  exact (proj1 (H sampleMaterial eq_refl)).
Defined.
